(** * PRTG uptime extractor: a shallow embedding and its properties

    The development follows [src/prtg-uptime-extractor.py] (duration
    decoding, single-target extraction, discovery extraction, the loop over
    the files of a folder), [src/prtg-uptime-extractor_down_01.py] (phrase
    of a duration, summary of the main file, run over a folder) and
    [src/prtg-uptime-extractor_down_01_Ash_excel.py] (duration breakdown,
    corpus statistics, summary, run over a folder).

    Conventions of the embedding:
    - a Python [str] is a [string]; characters are the code points below 256,
      on which the character classes used by the program ([\d], [\s],
      [str.strip]) are written out exactly;
    - a Python [int] is a [Z], and the conversions between an [int] and its
      decimal text are the mathematical ones (the limit that an interpreter
      may put on the length of such a text is not part of the model);
    - the PDF collaborator is a black box: a document is the list of the
      texts of its pages, in page order, together with its file name;
    - a Python [float] is a binary64 number of [SpecFloat], the division of
      two integers and the product of two floats being those of IEEE 754
      with rounding to nearest, ties to even; an exception that the program
      does not catch is a result of its own;
    - a folder of CSV files is a map from file names to lists of rows, a row
      being the map from column names to texts that [csv.DictReader] gives;
      the workbook and the printed lines are not part of the model. *)

From Stdlib Require Import ZArith Ascii String Lia SpecFloat.
From stdpp Require Import gmap strings list sorting.

Local Open Scope Z_scope.

(** ** Python string primitives *)

Module Py.

(** Code point of a character. *)
Definition ord (c : ascii) : Z := Z.of_N (N_of_ascii c).

(** [\d] and [str.isdigit] below code point 256: the ten ASCII digits. *)
Definition is_digit (c : ascii) : bool := (48 <=? ord c) && (ord c <=? 57).

(** Whitespace as [str.strip()] and [\s] see it below code point 256:
    TAB..CR, FS..US, SPACE, NEL and NBSP. *)
Definition is_space (c : ascii) : bool :=
  let n := ord c in
  ((9 <=? n) && (n <=? 13)) || ((28 <=? n) && (n <=? 32))
  || (n =? 133) || (n =? 160).

(** The blanks [int()] lets stand around a number: those of [is_space]
    without FS..US. *)
Definition is_int_space (c : ascii) : bool :=
  let n := ord c in
  ((9 <=? n) && (n <=? 13)) || (n =? 32) || (n =? 133) || (n =? 160).

Definition digit_val (c : ascii) : Z := ord c - 48.

Definition digit_char (d : Z) : ascii := ascii_of_N (Z.to_N (d + 48)).

(** [s.startswith(t)] *)
Fixpoint startswith (s t : string) : bool :=
  match t, s with
  | EmptyString, _ => true
  | String _ _, EmptyString => false
  | String b t', String a s' => Ascii.eqb a b && startswith s' t'
  end.

(** [t in s] *)
Fixpoint contains (t s : string) : bool :=
  startswith s t ||
  match s with
  | EmptyString => false
  | String _ s' => contains t s'
  end.

(** [s.endswith(t)] *)
Fixpoint endswith (s t : string) : bool :=
  String.eqb s t ||
  match s with
  | EmptyString => false
  | String _ s' => endswith s' t
  end.

(** Removal of the leading and of the trailing characters of a class. *)
Fixpoint lstrip_with (p : ascii -> bool) (s : string) : string :=
  match s with
  | EmptyString => EmptyString
  | String c s' => if p c then lstrip_with p s' else s
  end.

Fixpoint rstrip_with (p : ascii -> bool) (s : string) : string :=
  match s with
  | EmptyString => EmptyString
  | String c s' =>
      match rstrip_with p s' with
      | EmptyString => if p c then EmptyString else String c EmptyString
      | r => String c r
      end
  end.

(** [s.strip()] *)
Definition strip (s : string) : string :=
  rstrip_with is_space (lstrip_with is_space s).

(** [s.split(c)] for a one-character separator: never the empty list. *)
Fixpoint split_char (c : ascii) (s : string) : list string :=
  match s with
  | EmptyString => [EmptyString]
  | String a s' =>
      if Ascii.eqb a c then EmptyString :: split_char c s'
      else match split_char c s' with
           | x :: xs => String a x :: xs
           | [] => [String a EmptyString]
           end
  end.

(** The rest of [s] after its prefix [t], when [s.startswith(t)]. *)
Fixpoint after_prefix (t s : string) : option string :=
  match t, s with
  | EmptyString, _ => Some s
  | String _ _, EmptyString => None
  | String b t', String a s' =>
      if Ascii.eqb a b then after_prefix t' s' else None
  end.

(** The text after the first occurrence of [m] in [s], if [m] occurs. *)
Fixpoint after_first (m s : string) : option string :=
  match after_prefix m s with
  | Some r => Some r
  | None =>
      match s with
      | EmptyString => None
      | String _ s' => after_first m s'
      end
  end.

(** The text before the first occurrence of [m] in [s]; all of [s] when
    [m] does not occur. *)
Fixpoint before_first (m s : string) : string :=
  if startswith s m then EmptyString
  else match s with
       | EmptyString => EmptyString
       | String a s' => String a (before_first m s')
       end.

(** [s.split(m)[1]] for a non-empty marker [m] that occurs in [s]. *)
Definition split_field1 (m s : string) : option string :=
  match after_first m s with
  | Some r => Some (before_first m r)
  | None => None
  end.

(** [s.split(c)[-1]] *)
Definition split_last (c : ascii) (s : string) : string :=
  List.last (split_char c s) EmptyString.

(** Value of a run of decimal digits, most significant first. *)
Fixpoint int_acc (acc : Z) (s : string) : Z :=
  match s with
  | EmptyString => acc
  | String c s' => int_acc (acc * 10 + digit_val c) s'
  end.

(** [int(s)] on a string the pattern [\d+] matched: it cannot raise. *)
Definition int_digits (s : string) : Z := int_acc 0 s.

Fixpoint all_digits (s : string) : bool :=
  match s with
  | EmptyString => true
  | String c s' => is_digit c && all_digits s'
  end.

(** The decimal digits of [n >= 0]; [fuel] bounds their number. *)
Fixpoint digits_fuel (fuel : nat) (n : Z) : string :=
  match fuel with
  | O => EmptyString
  | S f =>
      if n <? 10 then String (digit_char n) EmptyString
      else digits_fuel f (n / 10) +:+ String (digit_char (n mod 10)) EmptyString
  end.

Definition digits (n : Z) : string := digits_fuel (S (Z.to_nat (Z.log2 n))) n.

(** [str(n)] *)
Definition str (n : Z) : string :=
  if n <? 0 then String "-"%char (digits (- n)) else digits n.

(** Digits with single underscores between them, as [int()] accepts. *)
Fixpoint int_body_ok (prev_digit : bool) (s : string) : bool :=
  match s with
  | EmptyString => prev_digit
  | String c s' =>
      if is_digit c then int_body_ok true s'
      else if Ascii.eqb c "_"%char then prev_digit && int_body_ok false s'
      else false
  end.

Fixpoint drop_underscores (s : string) : string :=
  match s with
  | EmptyString => EmptyString
  | String c s' =>
      if Ascii.eqb c "_"%char then drop_underscores s'
      else String c (drop_underscores s')
  end.

(** [int(s)] in base 10; [None] is [ValueError]. *)
Definition int (s : string) : option Z :=
  let t := rstrip_with is_int_space (lstrip_with is_int_space s) in
  let '(sign, body) :=
    match t with
    | String c r =>
        if Ascii.eqb c "-"%char then (-1, r)
        else if Ascii.eqb c "+"%char then (1, r)
        else (1, t)
    | EmptyString => (1, t)
    end in
  if int_body_ok false body
  then Some (sign * int_digits (drop_underscores body))
  else None.

End Py.

(** ** The fragment of [re] the program uses

    Matchers are written in continuation-passing style, so that a greedy
    repetition gives back characters one at a time when what follows fails,
    as the backtracking engine of [re] does. *)

Module Re.
Section Matcher.
Context {A : Type}.

(** A literal. *)
Definition lit (l s : string) (k : string -> option A) : option A :=
  match Py.after_prefix l s with
  | Some r => k r
  | None => None
  end.

(** [X*] for a character class [X]: longest first.  The continuation
    receives the text consumed and the rest. *)
Fixpoint star (p : ascii -> bool) (s : string)
    (k : string -> string -> option A) : option A :=
  match s with
  | String c s' =>
      if p c then
        match star p s' (fun g r => k (String c g) r) with
        | Some a => Some a
        | None => k EmptyString s
        end
      else k EmptyString s
  | EmptyString => k EmptyString s
  end.

(** [X+] *)
Definition plus (p : ascii -> bool) (s : string)
    (k : string -> string -> option A) : option A :=
  star p s (fun g r =>
    match g with
    | EmptyString => None
    | _ => k g r
    end).

(** [re.search]: the match at the leftmost position that has one. *)
Fixpoint search (m : string -> option A) (s : string) : option A :=
  match m s with
  | Some a => Some a
  | None =>
      match s with
      | EmptyString => None
      | String _ s' => search m s'
      end
  end.
End Matcher.
End Re.

(** ** [duration_to_seconds] *)

Inductive time_unit := days | hours | minutes | seconds.

(** The dictionary [patterns], in insertion order: the unit and the letter
    that closes [(\d+)<letter>]. *)
Definition patterns : list (time_unit * ascii) :=
  [(days, "d"%char); (hours, "h"%char); (minutes, "m"%char); (seconds, "s"%char)].

(** [(\d+)<letter>] at the start of [s]; the result is group 1. *)
Definition unit_pattern (letter : ascii) (s : string) : option string :=
  Re.plus Py.is_digit s (fun g r =>
    Re.lit (String letter EmptyString) r (fun _ => Some g)).

Definition unit_seconds (u : time_unit) (value : Z) : Z :=
  match u with
  | days => value * 86400
  | hours => value * 3600
  | minutes => value * 60
  | seconds => value
  end.

(** [None] is the Python [None]; both it and the empty string are falsy. *)
Definition duration_to_seconds (duration_str : option string) : Z :=
  match duration_str with
  | None => 0
  | Some EmptyString => 0
  | Some s =>
      fold_left
        (fun total_seconds '(u, letter) =>
           match Re.search (unit_pattern letter) s with
           | Some g => total_seconds + unit_seconds u (Py.int_digits g)
           | None => total_seconds
           end)
        patterns 0
  end.

(** The integer breakdown of [seconds_to_duration_format]. *)
Definition duration_breakdown (total_seconds : Z) : Z * Z * Z * Z :=
  (total_seconds / 86400,
   (total_seconds mod 86400) / 3600,
   (total_seconds mod 3600) / 60,
   total_seconds mod 60).

(** ** Extraction records *)

(** The dictionary [result]: nine keys are always set, four are set by the
    context scan only when their marker is seen. *)
Record UptimeRecord := {
  archivo_pdf : string;
  url : string;
  uptime_porcentaje : string;
  uptime_unidad : string;
  uptime_duracion : string;
  downtime_porcentaje : string;
  downtime_unidad : string;
  downtime_duracion : string;
  pagina : Z;
  periodo_reporte : option string;
  horas_reporte : option string;
  tipo_sensor : option string;
  tiempo_carga_promedio : option string
}.

Definition set_periodo_reporte (v : string) (r : UptimeRecord) : UptimeRecord :=
  {| archivo_pdf := archivo_pdf r; url := url r;
     uptime_porcentaje := uptime_porcentaje r; uptime_unidad := uptime_unidad r;
     uptime_duracion := uptime_duracion r;
     downtime_porcentaje := downtime_porcentaje r;
     downtime_unidad := downtime_unidad r;
     downtime_duracion := downtime_duracion r; pagina := pagina r;
     periodo_reporte := Some v; horas_reporte := horas_reporte r;
     tipo_sensor := tipo_sensor r;
     tiempo_carga_promedio := tiempo_carga_promedio r |}.

Definition set_horas_reporte (v : string) (r : UptimeRecord) : UptimeRecord :=
  {| archivo_pdf := archivo_pdf r; url := url r;
     uptime_porcentaje := uptime_porcentaje r; uptime_unidad := uptime_unidad r;
     uptime_duracion := uptime_duracion r;
     downtime_porcentaje := downtime_porcentaje r;
     downtime_unidad := downtime_unidad r;
     downtime_duracion := downtime_duracion r; pagina := pagina r;
     periodo_reporte := periodo_reporte r; horas_reporte := Some v;
     tipo_sensor := tipo_sensor r;
     tiempo_carga_promedio := tiempo_carga_promedio r |}.

Definition set_tipo_sensor (v : string) (r : UptimeRecord) : UptimeRecord :=
  {| archivo_pdf := archivo_pdf r; url := url r;
     uptime_porcentaje := uptime_porcentaje r; uptime_unidad := uptime_unidad r;
     uptime_duracion := uptime_duracion r;
     downtime_porcentaje := downtime_porcentaje r;
     downtime_unidad := downtime_unidad r;
     downtime_duracion := downtime_duracion r; pagina := pagina r;
     periodo_reporte := periodo_reporte r; horas_reporte := horas_reporte r;
     tipo_sensor := Some v;
     tiempo_carga_promedio := tiempo_carga_promedio r |}.

Definition set_tiempo_carga_promedio (v : string) (r : UptimeRecord) : UptimeRecord :=
  {| archivo_pdf := archivo_pdf r; url := url r;
     uptime_porcentaje := uptime_porcentaje r; uptime_unidad := uptime_unidad r;
     uptime_duracion := uptime_duracion r;
     downtime_porcentaje := downtime_porcentaje r;
     downtime_unidad := downtime_unidad r;
     downtime_duracion := downtime_duracion r; pagina := pagina r;
     periodo_reporte := periodo_reporte r; horas_reporte := horas_reporte r;
     tipo_sensor := tipo_sensor r;
     tiempo_carga_promedio := Some v |}.

(** The two columns [process_all_pdfs] adds to every record. *)
Definition uptime_segundos (r : UptimeRecord) : Z :=
  duration_to_seconds (Some (uptime_duracion r)).

Definition downtime_segundos (r : UptimeRecord) : Z :=
  duration_to_seconds (Some (downtime_duracion r)).

(** ** The statistics line *)

Definition declaration_marker : string := "Probe, Group, Device:".
Definition stats_marker : string := "Uptime Stats:".
Definition newline : ascii := "010"%char.

Definition is_digit_or_dot (c : ascii) : bool :=
  Py.is_digit c || Ascii.eqb c "."%char.

Definition not_rbracket (c : ascii) : bool := negb (Ascii.eqb c "]"%char).

(** [<label>\s*([\d\.]+)\s*(%)\s*\[([^\]]+)\]] at the start of [s], with
    [label] one of [Up:] and [Down:]; the result is groups 1, 2 and 3. *)
Definition stat_pattern (label s : string) : option (string * string * string) :=
  Re.lit label s (fun s1 =>
  Re.star Py.is_space s1 (fun _ s2 =>
  Re.plus is_digit_or_dot s2 (fun g1 s3 =>
  Re.star Py.is_space s3 (fun _ s4 =>
  Re.lit "%" s4 (fun s5 =>
  Re.star Py.is_space s5 (fun _ s6 =>
  Re.lit "[" s6 (fun s7 =>
  Re.plus not_rbracket s7 (fun g3 s8 =>
  Re.lit "]" s8 (fun _ => Some (g1, "%", g3)))))))))).

Definition up_match (line : string) : option (string * string * string) :=
  Re.search (stat_pattern "Up:") line.

Definition down_match (line : string) : option (string * string * string) :=
  Re.search (stat_pattern "Down:") line.

(** The record built from the two matches, before the context scan. *)
Definition base_record (pdf_name target : string) (page_num : nat)
    (up down : string * string * string) : UptimeRecord :=
  {| archivo_pdf := pdf_name; url := target;
     uptime_porcentaje := up.1.1; uptime_unidad := up.1.2;
     uptime_duracion := up.2;
     downtime_porcentaje := down.1.1; downtime_unidad := down.1.2;
     downtime_duracion := down.2;
     pagina := Z.of_nat page_num + 1;
     periodo_reporte := None; horas_reporte := None;
     tipo_sensor := None; tiempo_carga_promedio := None |}.

(** ** The context scan *)

(** One turn of the [if]/[elif] chain on [lines[k]]. *)
Definition enrich_line (line : string) (r : UptimeRecord) : UptimeRecord :=
  if Py.contains "Report Time Span:" line then
    match Py.split_field1 "Report Time Span:" line with
    | Some v => set_periodo_reporte (Py.strip v) r
    | None => r
    end
  else if Py.contains "Report Hours:" line then
    match Py.split_field1 "Report Hours:" line with
    | Some v => set_horas_reporte (Py.strip v) r
    | None => r
    end
  else if Py.contains "Sensor Type:" line then
    match Py.split_field1 "Sensor Type:" line with
    | Some v => set_tipo_sensor (Py.strip v) r
    | None => r
    end
  else if Py.contains "Average (Loading time):" line
          || Py.contains "Average (Loading Time):" line then
    set_tiempo_carga_promedio (Py.strip (Py.split_last ":" line)) r
  else r.

(** [range(lo, hi)] *)
Definition range (lo hi : Z) : list Z :=
  map (fun n => lo + Z.of_nat n) (seq 0 (Z.to_nat (hi - lo))).

(** The body of the loop over [k]: [lines[k]] for an index in range. *)
Definition enrich_at (lines : list string) (k : Z) (r : UptimeRecord)
    : UptimeRecord :=
  match lines !! Z.to_nat k with
  | Some line => enrich_line line r
  | None => r
  end.

(** The loop over [k] of single-target mode, whose body is under
    [if k >= 0]. *)
Definition enrich_guarded (lines : list string) (ks : list Z)
    (r : UptimeRecord) : UptimeRecord :=
  fold_left (fun r k => if 0 <=? k then enrich_at lines k r else r) ks r.

(** The loop over [k] of discovery mode, whose range starts at
    [max(0, i-10)]. *)
Definition enrich (lines : list string) (ks : list Z) (r : UptimeRecord)
    : UptimeRecord :=
  fold_left (fun r k => enrich_at lines k r) ks r.

(** ** Single-target mode: [extract_uptime_stats] *)

(** The test that guards a declaration line. *)
Definition guard (line target_url : string) : bool :=
  negb (Py.contains "/tramites" line)
  && negb (Py.contains "/educacion" line)
  && Py.endswith (Py.strip line) target_url.

Definition declares (line target_url : string) : bool :=
  Py.contains declaration_marker line && Py.contains target_url line
  && guard line target_url.

(** The loop over [j], for the declaration line at index [i]. *)
Fixpoint stats_window (pdf_name target_url : string) (page_num : nat)
    (lines : list string) (i : nat) (js : list nat) : option UptimeRecord :=
  match js with
  | [] => None
  | j :: js' =>
      let next := stats_window pdf_name target_url page_num lines i js' in
      match lines !! j with
      | Some uptime_line =>
          if Py.contains stats_marker uptime_line then
            match up_match uptime_line, down_match uptime_line with
            | Some up, Some down =>
                let len := Z.of_nat (length lines) in
                let i' := Z.of_nat i in
                Some (enrich_guarded lines (range (i' - 5) (Z.min (i' + 15) len))
                        (base_record pdf_name target_url page_num up down))
            | _, _ => next
            end
          else next
      | None => next
      end
  end.

(** The loop over [i]; [rest] is [lines[i:]]. *)
Fixpoint scan_lines (pdf_name target_url : string) (page_num : nat)
    (lines : list string) (i : nat) (rest : list string) : option UptimeRecord :=
  match rest with
  | [] => None
  | line :: rest' =>
      let next := scan_lines pdf_name target_url page_num lines (S i) rest' in
      if declares line target_url then
        match stats_window pdf_name target_url page_num lines i
                (seq i (Nat.min (i + 10) (length lines) - i)) with
        | Some result => Some result
        | None => next
        end
      else next
  end.

(** What one page gives: the body of the loop over the pages. *)
Definition scan_page (pdf_name target_url : string) (page_num : nat)
    (text : string) : option UptimeRecord :=
  if Py.contains target_url text then
    let lines := Py.split_char newline text in
    scan_lines pdf_name target_url page_num lines 0 lines
  else None.

(** The loop over the pages; [pages] is [pdf.pages[page_num:]]. *)
Fixpoint scan_pages (pdf_name target_url : string) (page_num : nat)
    (pages : list string) : option UptimeRecord :=
  match pages with
  | [] => None
  | text :: pages' =>
      match scan_page pdf_name target_url page_num text with
      | Some result => Some result
      | None => scan_pages pdf_name target_url (S page_num) pages'
      end
  end.

Definition extract_uptime_stats (pdf_name : string) (pages : list string)
    (target_url : string) : option UptimeRecord :=
  scan_pages pdf_name target_url 0 pages.

(** ** Discovery mode: [extract_all_urls_from_pdf] *)

(** The variables of the walk. *)
Record walk_state := {
  current_url : option string;
  current_probe_line : option string;
  processed_urls : gset string;
  results : list UptimeRecord
}.

(** The [if]/[elif] chain on a declaration line that contains
    [buenosaires.gob.ar]: the new value of [current_url]. *)
Definition classify (line : string) (current : option string) : option string :=
  if Py.contains "> https://buenosaires.gob.ar/" line then
    Some "https://buenosaires.gob.ar/"
  else if Py.contains "buenosaires.gob.ar/tramites" line then
    Some "buenosaires.gob.ar/tramites"
  else if Py.contains "buenosaires.gob.ar/educacion" line then
    Some "buenosaires.gob.ar/educacion"
  else if Py.contains "nba-drupal.buenosaires.gob.ar" line then
    Some "nba-drupal.buenosaires.gob.ar"
  else if Py.contains "ash.buenosaires.gob.ar" line then
    Some "ash.buenosaires.gob.ar/"
  else current.

(** Truth value of [current_url]: [None] and the empty string are falsy. *)
Definition truthy (o : option string) : bool :=
  match o with
  | Some (String _ _) => true
  | _ => false
  end.

(** The body of the loop over the lines of a page. *)
Definition step_line (pdf_name : string) (page_num : nat)
    (lines : list string) (i : nat) (line : string) (st : walk_state)
    : walk_state :=
  if Py.contains declaration_marker line then
    if Py.contains "buenosaires.gob.ar" line then
      {| current_url := classify line (current_url st);
         current_probe_line := Some line;
         processed_urls := processed_urls st;
         results := results st |}
    else st
  else
    match current_url st with
    | Some u =>
        if Py.contains stats_marker line && truthy (current_url st)
           && negb (bool_decide (u ∈ processed_urls st))
        then
          match up_match line, down_match line with
          | Some up, Some down =>
              let len := Z.of_nat (length lines) in
              let i' := Z.of_nat i in
              let result :=
                enrich lines (range (Z.max 0 (i' - 10)) (Z.min (i' + 10) len))
                  (base_record pdf_name u page_num up down) in
              {| current_url := current_url st;
                 current_probe_line := current_probe_line st;
                 processed_urls := processed_urls st ∪ {[u]};
                 results := results st ++ [result] |}
          | _, _ => st
          end
        else st
    | None => st
    end.

(** The loop over the lines; [rest] is [lines[i:]]. *)
Fixpoint walk_lines (pdf_name : string) (page_num : nat)
    (lines : list string) (i : nat) (rest : list string) (st : walk_state)
    : walk_state :=
  match rest with
  | [] => st
  | line :: rest' =>
      walk_lines pdf_name page_num lines (S i) rest'
        (step_line pdf_name page_num lines i line st)
  end.

(** The body of the loop over the pages: both [current_*] variables are
    assigned [None] before the lines are walked. *)
Definition walk_page (pdf_name : string) (page_num : nat) (text : string)
    (st : walk_state) : walk_state :=
  let lines := Py.split_char newline text in
  walk_lines pdf_name page_num lines 0 lines
    {| current_url := None; current_probe_line := None;
       processed_urls := processed_urls st; results := results st |}.

(** The loop over the pages; [pages] is [pdf.pages[page_num:]]. *)
Fixpoint walk_pages (pdf_name : string) (page_num : nat)
    (pages : list string) (st : walk_state) : walk_state :=
  match pages with
  | [] => st
  | text :: pages' =>
      walk_pages pdf_name (S page_num) pages'
        (walk_page pdf_name page_num text st)
  end.

Definition initial_state : walk_state :=
  {| current_url := None; current_probe_line := None;
     processed_urls := ∅; results := [] |}.

Definition extract_all_urls_from_pdf (pdf_name : string) (pages : list string)
    : list UptimeRecord :=
  results (walk_pages pdf_name 0 pages initial_state).

(** ** Python numbers and exceptions *)

(** The exceptions that the arithmetic of the program can raise. *)
Inductive exception := ZeroDivisionError | OverflowError.

(** What a computation ends in: a value, or an exception that nothing
    catches. *)
Inductive result (A : Type) :=
  | Ok (a : A)
  | Raise (e : exception).
Arguments Ok {A} a.
Arguments Raise {A} e.

Module Float.

(** Binary64. *)
Definition prec : Z := 53.
Definition emax : Z := 1024.

(** An integer as the pair of a mantissa and the exponent 0, before any
    rounding. *)
Definition of_int (n : Z) : spec_float :=
  match n with
  | Z0 => S754_zero false
  | Zpos p => S754_finite false p 0
  | Zneg p => S754_finite true p 0
  end.

(** [a / b] on two integers: the quotient rounded once to the nearest
    float; [OverflowError] when that is beyond the largest float. *)
Definition true_divide (a b : Z) : result spec_float :=
  if b =? 0 then Raise ZeroDivisionError
  else
    match SFdiv prec emax (of_int a) (of_int b) with
    | S754_infinity _ => Raise OverflowError
    | q => Ok q
    end.

(** [x * y] on two floats; no exception, an overflow gives an infinity. *)
Definition mul (x y : spec_float) : spec_float := SFmul prec emax x y.

(** [x * n] for a float and a small integer, which is converted exactly. *)
Definition mul_int (x : spec_float) (n : Z) : spec_float := mul x (of_int n).

(** The float [x], of mantissa [m] and exponent [e], is not negative and at
    most the integer [n]: [0 <= m * 2^e <= n]. *)
Definition between_zero_and (n : Z) (x : spec_float) : Prop :=
  match x with
  | S754_zero false => True
  | S754_finite false m e => e <= 0 /\ Z.pos m <= n * 2 ^ (- e)
  | _ => False
  end.

End Float.

(** The record of a shifted mantissa has lost digits that were not zero. *)
Definition inexact (mrs : shr_record) : bool := shr_r mrs || shr_s mrs.

(** A mantissa that does not exceed the quotient [N / D], and lies below it
    when digits that were not zero have been shifted out of it. *)
Definition under (mrs : shr_record) (N D : Z) : Prop :=
  0 <= shr_m mrs /\ shr_m mrs * D <= N
  /\ (inexact mrs = true -> shr_m mrs * D < N).

(** A value that is an [int] or a [float]. *)
Inductive number :=
  | PyInt (n : Z)
  | PyFloat (x : spec_float).

(** ** Corpus statistics: [calculate_downtime_statistics] *)

(** The dictionary [stats]. *)
Record statistics := {
  main_url_uptime : Z;
  main_url_downtime : Z;
  ash_url_uptime : Z;
  ash_url_downtime : Z;
  total_time : Z;
  ash_downtime_percentage : number
}.

(** [if key in row and row[key]: try: acc += int(row[key]) except
    ValueError: pass], on a row of [csv.DictReader]. *)
Definition add_field (key : string) (row : gmap string string) (acc : Z) : Z :=
  match row !! key with
  | Some (String c v) =>
      match Py.int (String c v) with
      | Some n => acc + n
      | None => acc
      end
  | _ => acc
  end.

(** The loop over the rows of one file: the two counters it updates.
    [None] is a file that does not exist. *)
Definition sum_rows (csv : option (list (gmap string string))) : Z * Z :=
  match csv with
  | Some rows =>
      fold_left
        (fun '(up, down) row =>
           (add_field "uptime_segundos" row up,
            add_field "downtime_segundos" row down))
        rows (0, 0)
  | None => (0, 0)
  end.

(** The percentage is the integer 0 of the initial dictionary unless the
    total is positive; then it is the float [(ash_down / total) * 100]. *)
Definition calculate_downtime_statistics
    (main_csv ash_csv : option (list (gmap string string)))
    : result statistics :=
  let '(main_up, main_down) := sum_rows main_csv in
  let '(ash_up, ash_down) := sum_rows ash_csv in
  let total := main_up + main_down + ash_up + ash_down in
  let stats percentage :=
    {| main_url_uptime := main_up;
       main_url_downtime := main_down;
       ash_url_uptime := ash_up;
       ash_url_downtime := ash_down;
       total_time := total;
       ash_downtime_percentage := percentage |} in
  if 0 <? total then
    match Float.true_divide ash_down total with
    | Ok q => Ok (stats (PyFloat (Float.mul_int q 100)))
    | Raise e => Raise e
    end
  else Ok (stats (PyInt 0)).


(** The nine keys of a record that are set when it is built. *)
Definition core (r : UptimeRecord) :=
  (archivo_pdf r, url r, uptime_porcentaje r, uptime_unidad r,
   uptime_duracion r, downtime_porcentaje r, downtime_unidad r,
   downtime_duracion r, pagina r).

(** The state in which the walk of a page starts. *)
Definition page_start (st : walk_state) : walk_state :=
  {| current_url := None; current_probe_line := None;
     processed_urls := processed_urls st; results := results st |}.

(** A declaration line in which the chain of discovery mode finds one of
    its literal forms. *)
Definition recognised (line : string) : bool :=
  match classify line None with
  | Some _ => true
  | None => false
  end.

(** Every occurrence of [t] in [s] goes on with a character that is not
    blank: [t] stands in [s] only as the strict prefix of a longer word. *)
Fixpoint only_as_strict_prefix (t s : string) : bool :=
  match Py.after_prefix t s with
  | Some (String c _) => negb (Py.is_space c)
  | Some EmptyString => false
  | None => true
  end
  && match s with
     | EmptyString => true
     | String _ s' => only_as_strict_prefix t s'
     end.

(** A string that is empty or starts with a blank. *)
Definition blank_head (s : string) : bool :=
  match s with
  | EmptyString => true
  | String c _ => Py.is_space c
  end.

(** The synthetic report of the end-to-end example. *)
Definition example_declaration : string :=
  "Probe, Group, Device: > https://example.org/".

Definition example_statistics : string :=
  "Uptime Stats: Up: 99.50 % [06d 23h 59m 41s] Down: 0.50 % [00d 00h 10m 00s]".

Definition example_target : string := "https://example.org/".

Definition example_page : string :=
  example_declaration +:+ String newline example_statistics.

(** ** Reference definitions for the statistics

    The sums as the specification words them, to compare with the loops
    of [calculate_downtime_statistics]. *)

(** The seconds a row contributes under [key]: the integer written there,
    zero when the column is missing, empty or not an integer. *)
Definition field_seconds (key : string) (row : gmap string string) : Z :=
  default 0 (row !! key ≫= Py.int).

(** The sum of a column over a collection; a missing collection is empty. *)
Definition column_sum (key : string) (csv : option (list (gmap string string)))
    : Z :=
  foldr (fun row acc => field_seconds key row + acc) 0 (default [] csv).


(** ** Reference definitions for the duration codec

    These two follow the wording of the specification, not the program;
    the theorems compare them with [duration_to_seconds]. *)

(** The token of the round trip: each part of the breakdown as a decimal
    integer followed by its unit letter, the parts separated by [sep]. *)
Definition breakdown_token (sep : string) (total_seconds : Z) : string :=
  let '(d, h, m, s) := duration_breakdown total_seconds in
  Py.str d +:+ String "d"%char (sep +:+
  Py.str h +:+ String "h"%char (sep +:+
  Py.str m +:+ String "m"%char (sep +:+
  Py.str s +:+ String "s"%char EmptyString))).

(** The number that a decimal numeral denotes, by positional notation: each
    digit counts for itself times the power of ten of its place. *)
Fixpoint decimal_value (s : string) : Z :=
  match s with
  | EmptyString => 0
  | String c s' =>
      (Py.ord c - 48) * 10 ^ Z.of_nat (String.length s') + decimal_value s'
  end.

(** The component of a unit in a token: the number denoted by the digits
    that stand immediately before the first occurrence of the unit letter,
    zero when there are none or the letter does not occur.  [run] is the
    run of digits that ends where [s] starts. *)
Fixpoint component_from (letter : ascii) (run s : string) : Z :=
  match s with
  | EmptyString => 0
  | String c s' =>
      if Ascii.eqb c letter then decimal_value run
      else if Py.is_digit c
           then component_from letter (run +:+ String c EmptyString) s'
           else component_from letter EmptyString s'
  end.

Definition component (letter : ascii) (token : string) : Z :=
  component_from letter EmptyString token.

Fixpoint count_char (c : ascii) (s : string) : nat :=
  match s with
  | EmptyString => O
  | String a s' => (if Ascii.eqb a c then 1 else 0) + count_char c s'
  end%nat.

Definition unit_letters : list ascii :=
  ["d"%char; "h"%char; "m"%char; "s"%char].

(** Each unit letter occurs at most once in the token. *)
Definition at_most_once (token : string) : bool :=
  forallb (fun c => (count_char c token <=? 1)%nat) unit_letters.

Fixpoint no_digit (s : string) : bool :=
  match s with
  | EmptyString => true
  | String c s' => negb (Py.is_digit c) && no_digit s'
  end.

(** What one turn of the loop of [duration_to_seconds] reads for a unit
    letter: the value of group 1, zero without a match. *)
Definition found_value (letter : ascii) (s : string) : Z :=
  match Re.search (unit_pattern letter) s with
  | Some g => Py.int_digits g
  | None => 0
  end.

(** A string that is empty or starts with something other than a digit. *)
Definition digit_free_head (s : string) : bool :=
  match s with
  | EmptyString => true
  | String c _ => negb (Py.is_digit c)
  end.

(** The seen-set is the set of the targets of the records made so far,
    and no two of these records have the same target. *)
Definition seen_inv (st : walk_state) : Prop :=
  NoDup (map url (results st))
  /\ forall u, u ∈ processed_urls st <-> u ∈ map url (results st).

(** ** Human-readable durations: [seconds_to_duration_format]

    The function is the same in both files that hold it; [i_acute] is the
    letter of code point 237 in the word for day. *)

Definition i_acute : ascii := ascii_of_nat 237.

(** [sep.join(parts)] *)
Fixpoint join (sep : string) (parts : list string) : string :=
  match parts with
  | [] => EmptyString
  | [x] => x
  | x :: rest => x +:+ sep +:+ join sep rest
  end.

(** ['s' if n != 1 else ''] *)
Definition plural (n : Z) : string := if n =? 1 then "" else "s".

(** One turn of [if value > 0: parts.append(...)]. *)
Definition append_part (value : Z) (word : string) (parts : list string)
    : list string :=
  if 0 <? value then parts ++ [Py.str value +:+ " " +:+ word +:+ plural value]
  else parts.

Definition seconds_to_duration_format (total_seconds : Z) : string :=
  if total_seconds =? 0 then "0 segundos"
  else
    let '(n_days, n_hours, n_minutes, n_seconds) :=
      duration_breakdown total_seconds in
    let parts := [] in
    let parts := append_part n_days (String "d" (String i_acute "a")) parts in
    let parts := append_part n_hours "hora" parts in
    let parts := append_part n_minutes "minuto" parts in
    let parts := append_part n_seconds "segundo" parts in
    join ", " parts.

(** ** The clock text of the summary: [create_summary_excel] *)

(** [f"{n:02d}"]: at least two characters, the sign counted, zeros added on
    the left. *)
Definition format_02d (n : Z) : string :=
  if n <? 0 then Py.str n
  else match Py.digits n with
       | String c EmptyString => String "0" (String c EmptyString)
       | d => d
       end.

(** [time_formatted] *)
Definition clock_format (total_downtime_seconds : Z) : string :=
  let n_hours := total_downtime_seconds / 3600 in
  let n_minutes := (total_downtime_seconds mod 3600) / 60 in
  let n_seconds := total_downtime_seconds mod 60 in
  format_02d n_hours +:+ ":" +:+ format_02d n_minutes +:+ ":"
  +:+ format_02d n_seconds.

(** ** Reading a phrase back

    Devices of the proof that a phrase determines its total: a phrase
    without its spaces is a token that [duration_to_seconds] decodes. *)

(** [s.replace(" ", "")] *)
Fixpoint squeeze (s : string) : string :=
  match s with
  | EmptyString => EmptyString
  | String c s' =>
      if Ascii.eqb c " "%char then squeeze s' else String c (squeeze s')
  end.

(** A clause of a squeezed phrase: digits, the first letter of the unit
    word, the rest of the word. *)
Definition clause : Type := string * ascii * string.

Definition render (p : clause) : string :=
  let '(g, c, tail) := p in g +:+ String c tail.

Definition clause_ok (p : clause) : Prop :=
  let '(g, c, tail) := p in
  Py.all_digits g = true /\ g <> "" /\ Py.is_digit c = false
  /\ no_digit tail = true.

(** The number of the first clause for the letter [u], zero without one. *)
Fixpoint clause_value (u : ascii) (ps : list clause) : Z :=
  match ps with
  | [] => 0
  | (g, c, _) :: ps' =>
      if Ascii.eqb c u then Py.int_digits g else clause_value u ps'
  end.

(** The clause of a positive component. *)
Definition clauses_add (value : Z) (c : ascii) (tail : string)
    (ps : list clause) : list clause :=
  if 0 <? value then ps ++ [(Py.digits value, c, tail +:+ plural value)]
  else ps.

(** ** Where a record comes from *)

Fixpoint all_chars (p : ascii -> bool) (s : string) : bool :=
  match s with
  | EmptyString => true
  | String c s' => p c && all_chars p s'
  end.

(** A statistics line that gives a record: it has the marker and both of
    its patterns match. *)
Definition valid_statistics (line : string)
    (up down : string * string * string) : Prop :=
  Py.contains stats_marker line = true
  /\ up_match line = Some up /\ down_match line = Some down.

(** Page [n] has a declaration line for the target at index [i] and a valid
    statistics line at index [j], at most nine lines below it. *)
Definition single_target_match (target_url : string) (pages : list string)
    (n i j : nat) (up down : string * string * string) : Prop :=
  exists text li lj,
    pages !! n = Some text
    /\ Py.contains target_url text = true
    /\ Py.split_char newline text !! i = Some li
    /\ declares li target_url = true
    /\ (i <= j < i + 10)%nat
    /\ Py.split_char newline text !! j = Some lj
    /\ valid_statistics lj up down.

(** The targets that discovery mode can assign. *)
Definition known_targets : list string :=
  ["https://buenosaires.gob.ar/"; "buenosaires.gob.ar/tramites";
   "buenosaires.gob.ar/educacion"; "nba-drupal.buenosaires.gob.ar";
   "ash.buenosaires.gob.ar/"].

(** The lines of a page have at index [i] a declaration line in which the
    chain finds the target [u], at index [j] below it a valid statistics
    line that is not a declaration line, and between the two no declaration
    line in which the chain finds a form. *)
Definition page_match (lines : list string) (u : string) (i j : nat)
    (up down : string * string * string) : Prop :=
  exists d s,
    lines !! i = Some d
    /\ Py.contains declaration_marker d = true
    /\ classify d None = Some u
    /\ (i < j)%nat
    /\ (forall k d', (i < k < j)%nat -> lines !! k = Some d' ->
          Py.contains declaration_marker d' = true -> recognised d' = false)
    /\ lines !! j = Some s
    /\ Py.contains declaration_marker s = false
    /\ valid_statistics s up down.

Definition discovery_match (pages : list string) (u : string)
    (n i j : nat) (up down : string * string * string) : Prop :=
  exists text,
    pages !! n = Some text
    /\ page_match (Py.split_char newline text) u i j up down.

(** What a line does to the current target of discovery mode. *)
Definition declare (current : option string) (line : string) : option string :=
  if Py.contains declaration_marker line
     && Py.contains "buenosaires.gob.ar" line
  then classify line current
  else current.

(** The shape of the texts that the two patterns capture. *)
Definition percent_text (s : string) : Prop :=
  s <> "" /\ all_chars is_digit_or_dot s = true.

Definition duration_text (s : string) : Prop :=
  s <> "" /\ all_chars not_rbracket s = true.

Definition well_formed (r : UptimeRecord) : Prop :=
  uptime_unidad r = "%" /\ downtime_unidad r = "%"
  /\ percent_text (uptime_porcentaje r)
  /\ percent_text (downtime_porcentaje r)
  /\ duration_text (uptime_duracion r)
  /\ duration_text (downtime_duracion r)
  /\ 0 <= uptime_segundos r /\ 0 <= downtime_segundos r.

(** ** The statistics line of the reports *)

(** A character of a duration token of the reports: a digit, a unit letter
    or a blank. *)
Definition duration_char (c : ascii) : bool :=
  Py.is_digit c
  || existsb (Ascii.eqb c) [" "%char; "d"%char; "h"%char; "m"%char; "s"%char].

Definition token_text (s : string) : Prop :=
  s <> "" /\ all_chars duration_char s = true.

(** The statistics line with its two percentages and its two duration
    tokens, as the reports write it. *)
Definition statistics_line (p1 D1 p2 D2 : string) : string :=
  "Uptime Stats: Up: " +:+ p1 +:+ " % [" +:+ D1 +:+ "] Down: "
  +:+ p2 +:+ " % [" +:+ D2 +:+ "]".

(** A line that discovery mode passes over: a declaration line in which
    the chain finds no form, or a line that is no declaration and lacks the
    statistics marker or a match of one of the two patterns. *)
Definition passed_over (l : string) : Prop :=
  (Py.contains declaration_marker l = true /\ recognised l = false)
  \/ (Py.contains declaration_marker l = false
      /\ (Py.contains stats_marker l = false
          \/ up_match l = None \/ down_match l = None)).

(** ** The contextual fields of a record *)

(** A field that is set holds a text without blanks at its ends. *)
Definition trimmed (o : option string) : Prop :=
  forall v, o = Some v -> Py.strip v = v.

(** A field that is set has one of its markers on some line. *)
Definition marked (markers lines : list string) (o : option string) : Prop :=
  is_Some o ->
  exists l m, l ∈ lines /\ m ∈ markers /\ Py.contains m l = true.

(** The marker [m] occurs in [a +:+ m] at its end only: in a text that
    begins with [a +:+ m], the first occurrence of [m] is the one after
    [a]. *)
Definition first_at (m a : string) : Prop :=
  forall x y, a +:+ m = x +:+ m +:+ y -> y = "".

(** The marker [m] does not occur in [w]. *)
Definition free_of (m w : string) : Prop :=
  forall x y, w <> x +:+ m +:+ y.

(** [w] is the text that stands in [l] between the first occurrence of the
    marker [m] and the next one, or the end of [l] when there is no next
    one: the second piece of [l] cut at the marker. *)
Definition field_of (m l w : string) : Prop :=
  exists a c,
    l = a +:+ m +:+ w +:+ c /\ first_at m a
    /\ ((c = "" /\ free_of m w)
        \/ (Py.startswith c m = true /\ first_at m w)).

(** [w] is the text after the last colon of [l]. *)
Definition after_last_colon (l w : string) : Prop :=
  all_chars (fun c => negb (Ascii.eqb c ":")) w = true
  /\ exists a, l = a +:+ ":" +:+ w.

(** [v] is [w] without the blanks at its two ends. *)
Definition stripped (w v : string) : Prop :=
  v = Py.strip w
  /\ exists x y, w = x +:+ v +:+ y
       /\ all_chars Py.is_space x = true /\ all_chars Py.is_space y = true.

(** A field that is set holds a text of the page: the text that [read]
    finds on a line with one of the markers, stripped. *)
Definition taken (read : string -> string -> string -> Prop)
    (markers lines : list string) (o : option string) : Prop :=
  forall v, o = Some v ->
  exists l m w,
    l ∈ lines /\ m ∈ markers /\ Py.contains m l = true
    /\ read m l w /\ stripped w v.

Definition field_ok (read : string -> string -> string -> Prop)
    (markers lines : list string) (o : option string) : Prop :=
  trimmed o /\ marked markers lines o /\ taken read markers lines o.

Definition context_ok (lines : list string) (r : UptimeRecord) : Prop :=
  field_ok field_of ["Report Time Span:"] lines (periodo_reporte r)
  /\ field_ok field_of ["Report Hours:"] lines (horas_reporte r)
  /\ field_ok field_of ["Sensor Type:"] lines (tipo_sensor r)
  /\ field_ok (fun _ => after_last_colon)
       ["Average (Loading time):"; "Average (Loading Time):"] lines
       (tiempo_carga_promedio r).

(** A text that is empty or starts with a character outside the class. *)
Definition head_outside (p : ascii -> bool) (s : string) : Prop :=
  match s with
  | EmptyString => True
  | String c _ => p c = false
  end.

(** ** The run over a folder: [process_all_pdfs]

    A folder is the list of its PDF files, each a name and the texts of its
    pages, and a store of CSV files, each the list of its rows.  The [csv]
    module is taken to give back the texts it was given. *)

Definition main_url : string := "https://buenosaires.gob.ar/".
Definition ash_url : string := "ash.buenosaires.gob.ar/".

Definition report_csv : string := "uptime_report.csv".
Definition main_csv : string := "uptime_report_main_url.csv".
Definition ash_csv : string := "uptime_report_ash_url.csv".

(** The body of the loop over the files: the record of single-target
    mode, if any, then the records of discovery mode for other targets. *)
Definition document_results (pdf : string * list string) : list UptimeRecord :=
  match extract_uptime_stats pdf.1 pdf.2 main_url with
  | Some result => [result]
  | None => []
  end
  ++ filter (fun res => url res <> main_url)
       (extract_all_urls_from_pdf pdf.1 pdf.2).

(** [all_results] after the loop. *)
Definition all_results (pdf_files : list (string * list string))
    : list UptimeRecord :=
  concat (map document_results pdf_files).

(** A row as [csv.DictWriter] writes it: the two columns of seconds are
    added, a contextual field that is not set is the empty text. *)
Definition csv_record (r : UptimeRecord) : gmap string string :=
  <["archivo_pdf" := archivo_pdf r]>
  (<["url" := url r]>
  (<["uptime_porcentaje" := uptime_porcentaje r]>
  (<["uptime_unidad" := uptime_unidad r]>
  (<["uptime_duracion" := uptime_duracion r]>
  (<["uptime_segundos" := Py.str (uptime_segundos r)]>
  (<["downtime_porcentaje" := downtime_porcentaje r]>
  (<["downtime_unidad" := downtime_unidad r]>
  (<["downtime_duracion" := downtime_duracion r]>
  (<["downtime_segundos" := Py.str (downtime_segundos r)]>
  (<["periodo_reporte" := default "" (periodo_reporte r)]>
  (<["horas_reporte" := default "" (horas_reporte r)]>
  (<["tipo_sensor" := default "" (tipo_sensor r)]>
  (<["tiempo_carga_promedio" := default "" (tiempo_carga_promedio r)]>
  (<["pagina" := Py.str (pagina r)]> ∅)))))))))))))).

(** The reading of the summary in [prtg-uptime-extractor_down_01.py]. *)
Module Down01.

(** The loop over the rows: the total and [row_count]. *)
Definition count_row (row : gmap string string) (acc : Z * nat) : Z * nat :=
  match row !! "downtime_segundos" with
  | Some (String c v) =>
      match Py.int (String c v) with
      | Some n => (acc.1 + n, S acc.2)
      | None => acc
      end
  | _ => acc
  end.

(** The total, [row_count] and [duration_formatted]; [None] is a file that
    does not exist. *)
Definition create_summary_excel (main_url_csv : option (list (gmap string string)))
    : Z * nat * string :=
  let '(total_downtime_seconds, row_count) :=
    match main_url_csv with
    | Some rows => fold_left (fun acc row => count_row row acc) rows (0, O)
    | None => (0, O)
    end in
  (total_downtime_seconds, row_count,
   seconds_to_duration_format total_downtime_seconds).

(** The run of [prtg-uptime-extractor_down_01.py]: the store of CSV files it
    leaves and what [create_summary_excel] returned, if it was called. *)
Definition process_all_pdfs (pdf_files : list (string * list string))
    (files0 : gmap string (list (gmap string string)))
    : gmap string (list (gmap string string)) * option (Z * nat * string) :=
  match all_results pdf_files with
  | [] => (files0, None)
  | results =>
      let files1 := <[report_csv := csv_record <$> results]> files0 in
      let main_url_results := filter (fun r => url r = main_url) results in
      match main_url_results with
      | [] => (files1, None)
      | _ =>
          let written := <[main_csv := csv_record <$> main_url_results]> files1 in
          (written, Some (create_summary_excel (written !! main_csv)))
      end
  end.

End Down01.

(** The run of [prtg-uptime-extractor_down_01_Ash_excel.py]. *)
Module AshExcel.

(** The values [create_summary_excel] returns, read from the store. *)
Definition create_summary_excel
    (files : gmap string (list (gmap string string))) : result (Z * string) :=
  match calculate_downtime_statistics (files !! main_csv) (files !! ash_csv) with
  | Ok stats =>
      let total_downtime_seconds :=
        main_url_downtime stats + ash_url_downtime stats in
      Ok (total_downtime_seconds, clock_format total_downtime_seconds)
  | Raise e => Raise e
  end.

(** The percentage that [create_summary_excel] shows in cell B2, before it
    is formatted to four decimals. *)
Definition summary_percentage
    (files : gmap string (list (gmap string string))) : result number :=
  match calculate_downtime_statistics (files !! main_csv) (files !! ash_csv) with
  | Ok stats => Ok (ash_downtime_percentage stats)
  | Raise e => Raise e
  end.

(** What a run leaves: the store of CSV files, what [create_summary_excel]
    returned and showed, the statistics printed at the end, and the
    exception that ended the run, if one did. *)
Record run := {
  files : gmap string (list (gmap string string));
  summary : option (Z * string);
  percentage_shown : option number;
  final_statistics : option statistics;
  raised : option exception
}.

(** The end of a run: the file of the ASH address, then the statistics. *)
Definition finish (main_url_results ash_url_results : list UptimeRecord)
    (files2 : gmap string (list (gmap string string)))
    (excel : option (Z * string)) (shown : option number) : run :=
  let files3 :=
    match ash_url_results with
    | [] => files2
    | _ => <[ash_csv := csv_record <$> ash_url_results]> files2
    end in
  match main_url_results, ash_url_results with
  | [], [] =>
      {| files := files3; summary := excel; percentage_shown := shown;
         final_statistics := None; raised := None |}
  | _, _ =>
      match calculate_downtime_statistics
              (files3 !! main_csv) (files3 !! ash_csv) with
      | Ok stats =>
          {| files := files3; summary := excel; percentage_shown := shown;
             final_statistics := Some stats; raised := None |}
      | Raise e =>
          {| files := files3; summary := excel; percentage_shown := shown;
             final_statistics := None; raised := Some e |}
      end
  end.

Definition process_all_pdfs (pdf_files : list (string * list string))
    (files0 : gmap string (list (gmap string string))) : run :=
  match all_results pdf_files with
  | [] => {| files := files0; summary := None; percentage_shown := None;
             final_statistics := None; raised := None |}
  | results =>
      let files1 := <[report_csv := csv_record <$> results]> files0 in
      let main_url_results := filter (fun r => url r = main_url) results in
      let ash_url_results := filter (fun r => url r = ash_url) results in
      match main_url_results with
      | [] => finish main_url_results ash_url_results files1 None None
      | _ =>
          let written := <[main_csv := csv_record <$> main_url_results]> files1 in
          let stopped e :=
            {| files := written; summary := None; percentage_shown := None;
               final_statistics := None; raised := Some e |} in
          match calculate_downtime_statistics
                  (written !! main_csv) (written !! ash_csv) with
          | Raise e => stopped e
          | Ok _ =>
              match create_summary_excel written,
                    summary_percentage written with
              | Ok excel, Ok shown =>
                  finish main_url_results ash_url_results written
                    (Some excel) (Some shown)
              | Raise e, _ => stopped e
              | _, Raise e => stopped e
              end
          end
      end
  end.

End AshExcel.

(** * Properties *)

(** ** Strings *)

Lemma str_app_nil_l (s : string) : "" +:+ s = s.
Proof. reflexivity. Qed.

Lemma str_app_cons (c : ascii) (s t : string) :
  String c s +:+ t = String c (s +:+ t).
Proof. reflexivity. Qed.

Lemma str_app_nil_r (s : string) : s +:+ "" = s.
Proof. induction s as [|c s IH]; [done|]. by rewrite str_app_cons, IH. Qed.

Lemma str_app_assoc (s t u : string) : (s +:+ t) +:+ u = s +:+ (t +:+ u).
Proof. induction s as [|c s IH]; [done|]. by rewrite !str_app_cons, IH. Qed.

Lemma ord_of_N (n : N) : (n < 256)%N -> Py.ord (ascii_of_N n) = Z.of_N n.
Proof. intros H. unfold Py.ord. by rewrite N_ascii_embedding. Qed.

Lemma digit_val_char (d : Z) : 0 <= d < 10 -> Py.digit_val (Py.digit_char d) = d.
Proof.
  intros H. unfold Py.digit_val, Py.digit_char.
  rewrite ord_of_N by lia. lia.
Qed.

Lemma is_digit_char (d : Z) : 0 <= d < 10 -> Py.is_digit (Py.digit_char d) = true.
Proof.
  intros H. unfold Py.is_digit, Py.digit_char.
  rewrite ord_of_N by lia.
  apply andb_true_iff. split; apply Z.leb_le; lia.
Qed.

Lemma int_acc_app (s : string) (c : ascii) (a : Z) :
  Py.int_acc a (s +:+ String c "") = Py.int_acc a s * 10 + Py.digit_val c.
Proof.
  revert a. induction s as [|b s IH]; intros a; [done|].
  rewrite str_app_cons. simpl. apply IH.
Qed.

Lemma all_digits_app (s t : string) :
  Py.all_digits (s +:+ t) = Py.all_digits s && Py.all_digits t.
Proof.
  induction s as [|c s IH]; [done|].
  rewrite str_app_cons. simpl. rewrite IH. by rewrite andb_assoc.
Qed.

(** ** Prefixes and substrings *)

Lemma startswith_inv (s t : string) :
  Py.startswith s t = true -> exists r, s = t +:+ r.
Proof.
  revert s. induction t as [|b t IH]; intros s H.
  - by exists s.
  - destruct s as [|a s]; [done|]. simpl in H.
    apply andb_true_iff in H as [Hab H]. apply Ascii.eqb_eq in Hab as ->.
    apply IH in H as [r ->]. by exists r.
Qed.

Lemma startswith_app (t r : string) : Py.startswith (t +:+ r) t = true.
Proof.
  induction t as [|b t IH]; [by destruct r|].
  rewrite str_app_cons. simpl. by rewrite Ascii.eqb_refl, IH.
Qed.

Lemma contains_cons (t : string) (a : ascii) (s : string) :
  Py.contains t (String a s) = Py.startswith (String a s) t || Py.contains t s.
Proof. reflexivity. Qed.

Lemma contains_inv (t s : string) :
  Py.contains t s = true -> exists pre post, s = pre +:+ t +:+ post.
Proof.
  induction s as [|a s IH]; intros H.
  - destruct t; [by exists "", ""|done].
  - rewrite contains_cons in H. apply orb_true_iff in H as [H|H].
    + apply startswith_inv in H as [r ->]. by exists "", r.
    + apply IH in H as (pre & post & ->). by exists (String a pre), post.
Qed.

Lemma contains_app (t pre post : string) :
  Py.contains t (pre +:+ t +:+ post) = true.
Proof.
  induction pre as [|a pre IH].
  - rewrite str_app_nil_l.
    pose proof (startswith_app t post) as H.
    destruct (t +:+ post); [by destruct t|].
    by rewrite contains_cons, H.
  - rewrite str_app_cons, contains_cons, IH. apply orb_true_r.
Qed.

Lemma contains_trans (a b c : string) :
  Py.contains a b = true -> Py.contains b c = true -> Py.contains a c = true.
Proof.
  intros (p1 & q1 & ->)%contains_inv (p2 & q2 & ->)%contains_inv.
  rewrite !str_app_assoc, <-(str_app_assoc p2 p1).
  apply contains_app.
Qed.

(** ** Decimal rendering and its inverse *)

Lemma digits_fuel_spec (fuel : nat) (n : Z) :
  0 <= n < 2 ^ Z.of_nat fuel -> (0 < fuel)%nat ->
  Py.all_digits (Py.digits_fuel fuel n) = true
  /\ Py.digits_fuel fuel n <> ""
  /\ Py.int_digits (Py.digits_fuel fuel n) = n.
Proof.
  revert n. induction fuel as [|f IH]; intros n Hn Hf.
  - lia.
  - simpl Py.digits_fuel. destruct (Z.ltb_spec n 10) as [Hlt|Hge].
    + split_and!; [|done|].
      * simpl. rewrite is_digit_char by lia. done.
      * unfold Py.int_digits. simpl. rewrite digit_val_char by lia. lia.
    + assert (Hq : 0 <= n / 10 < 2 ^ Z.of_nat f).
      { rewrite Nat2Z.inj_succ, Z.pow_succ_r in Hn by lia.
        split; [apply Z.div_pos; lia|].
        apply Z.div_lt_upper_bound; lia. }
      assert (Hf' : (0 < f)%nat).
      { destruct f; [simpl in Hn; lia | lia]. }
      destruct (IH _ Hq Hf') as (Hd & Hne & Hv).
      assert (Hm : 0 <= n mod 10 < 10) by (apply Z.mod_pos_bound; lia).
      split_and!.
      * rewrite all_digits_app, Hd. simpl. by rewrite is_digit_char.
      * destruct (Py.digits_fuel f (n / 10)); [done|]. by rewrite str_app_cons.
      * unfold Py.int_digits in *. rewrite int_acc_app, Hv, digit_val_char by done.
        pose proof (Z.div_mod n 10). lia.
Qed.

Lemma digits_spec (n : Z) :
  0 <= n ->
  Py.all_digits (Py.digits n) = true
  /\ Py.digits n <> ""
  /\ Py.int_digits (Py.digits n) = n.
Proof.
  intros Hn. apply digits_fuel_spec; [|lia].
  rewrite Nat2Z.inj_succ, Z2Nat.id by apply Z.log2_nonneg.
  destruct (Z.eq_dec n 0) as [->|Hnz]; [done|].
  split; [done|]. apply Z.log2_spec. lia.
Qed.

(** The loop of [int] computes the number that the numeral denotes. *)
Lemma int_acc_decimal (s : string) (acc : Z) :
  Py.int_acc acc s = acc * 10 ^ Z.of_nat (String.length s) + decimal_value s.
Proof.
  revert acc. induction s as [|c s IH]; intros acc.
  - simpl. lia.
  - cbn [Py.int_acc decimal_value String.length]. rewrite IH.
    rewrite Nat2Z.inj_succ, Z.pow_succ_r by lia. unfold Py.digit_val. lia.
Qed.

Lemma int_digits_decimal (s : string) : Py.int_digits s = decimal_value s.
Proof. unfold Py.int_digits. rewrite int_acc_decimal. lia. Qed.

Lemma decimal_value_str (n : Z) : 0 <= n -> decimal_value (Py.digits n) = n.
Proof.
  intros Hn. rewrite <-int_digits_decimal.
  by destruct (digits_spec n Hn) as (_ & _ & ?).
Qed.

Lemma str_nonneg (n : Z) : 0 <= n -> Py.str n = Py.digits n.
Proof. intros H. unfold Py.str. destruct (Z.ltb_spec n 0); [lia|done]. Qed.

(** ** The matchers *)

Lemma lit_char {A} (u : ascii) (s : string) (k : string -> option A) :
  Re.lit (String u "") s k =
  match s with
  | String c r => if Ascii.eqb c u then k r else None
  | EmptyString => None
  end.
Proof.
  unfold Re.lit. destruct s as [|c r]; [done|]. simpl.
  by destruct (Ascii.eqb c u).
Qed.

(** Whatever a repetition hands to its continuation splits the input. *)
Lemma star_inv {A} (p : ascii -> bool) (s : string)
    (k : string -> string -> option A) (a : A) :
  Re.star p s k = Some a -> exists x r, s = x +:+ r /\ k x r = Some a.
Proof.
  revert k. induction s as [|c s IH]; intros k H; simpl in H.
  - by exists "", "".
  - destruct (p c).
    + destruct (Re.star p s (fun g r => k (String c g) r)) as [b|] eqn:E.
      * injection H as ->. apply IH in E as (x & r & -> & Hk).
        by exists (String c x), r.
      * by exists "", (String c s).
    + by exists "", (String c s).
Qed.

Lemma search_found {A} (m : string -> option A) (s : string) (a : A) :
  m s = Some a -> Re.search m s = Some a.
Proof. intros H. destruct s; simpl; by rewrite H. Qed.

Lemma search_inv {A} (m : string -> option A) (s : string) (a : A) :
  Re.search m s = Some a -> exists t, m t = Some a.
Proof.
  induction s as [|c s IH]; simpl; intros H.
  - destruct (m "") eqn:E; [|done]. injection H as ->. eauto.
  - destruct (m (String c s)) eqn:E; [|by apply IH]. injection H as ->. eauto.
Qed.

Lemma star_digits_inv {A} (s : string) (k : string -> string -> option A)
    (a : A) :
  Re.star Py.is_digit s k = Some a ->
  exists x r, Py.all_digits x = true /\ k x r = Some a.
Proof.
  revert k. induction s as [|c s IH]; intros k H; simpl in H.
  - by exists "", "".
  - destruct (Py.is_digit c) eqn:Hc.
    + destruct (Re.star Py.is_digit s (fun g r => k (String c g) r)) as [b|] eqn:E.
      * injection H as ->. apply IH in E as (x & r & Hx & Hk).
        exists (String c x), r. simpl. by rewrite Hc, Hx.
      * by exists "", (String c s).
    + by exists "", (String c s).
Qed.

Lemma int_acc_nonneg (s : string) (a : Z) :
  Py.all_digits s = true -> 0 <= a -> 0 <= Py.int_acc a s.
Proof.
  revert a. induction s as [|c s IH]; intros a Hs Ha; [done|].
  simpl in Hs. apply andb_true_iff in Hs as [Hc Hs]. simpl. apply IH; [done|].
  unfold Py.is_digit in Hc. unfold Py.digit_val. lia.
Qed.

Section UnitPattern.
Variable u : ascii.
Hypothesis u_not_digit : Py.is_digit u = false.

Lemma digit_neq_unit (a : ascii) : Py.is_digit a = true -> Ascii.eqb a u = false.
Proof.
  intros Ha. destruct (Ascii.eqb_spec a u) as [->|]; [congruence|done].
Qed.

(** On a run of digits the repetition takes the whole run: the unit
    letter cannot stand inside it. *)
Lemma star_digits (g rest : string) (f : string -> string) :
  Py.all_digits g = true -> digit_free_head rest = true ->
  Re.star Py.is_digit (g +:+ rest)
    (fun x r => Re.lit (String u "") r (fun _ => Some (f x)))
  = Re.lit (String u "") rest (fun _ => Some (f g)).
Proof.
  intros Hg Hrest. revert f Hg. induction g as [|a g IH]; intros f Hg.
  - rewrite str_app_nil_l. destruct rest as [|c r]; [done|].
    simpl in Hrest. simpl. by destruct (Py.is_digit c).
  - simpl in Hg. apply andb_true_iff in Hg as [Ha Hg].
    rewrite str_app_cons. simpl Re.star. rewrite Ha.
    pose proof (IH (fun x => f (String a x)) Hg) as E. simpl in E. rewrite E.
    destruct (Re.lit (String u "") rest (fun _ => Some (f (String a g))));
      [done|].
    rewrite lit_char. by rewrite digit_neq_unit.
Qed.

Lemma unit_pattern_run (g rest : string) :
  Py.all_digits g = true -> g <> "" -> digit_free_head rest = true ->
  unit_pattern u (g +:+ rest) = Re.lit (String u "") rest (fun _ => Some g).
Proof.
  intros Hg Hne Hrest. destruct g as [|a g]; [done|].
  simpl in Hg. apply andb_true_iff in Hg as [Ha Hg].
  unfold unit_pattern, Re.plus. rewrite str_app_cons. simpl Re.star. rewrite Ha.
  pose proof (star_digits g rest (String a) Hg Hrest) as E. simpl in E.
  rewrite E.
  destruct (Re.lit (String u "") rest (fun _ => Some (String a g))); done.
Qed.

Lemma unit_pattern_no_digit (s : string) :
  digit_free_head s = true -> unit_pattern u s = None.
Proof.
  intros H. unfold unit_pattern, Re.plus.
  destruct s as [|c r]; [done|]. simpl in H. simpl.
  by destruct (Py.is_digit c).
Qed.

(** A match of [(\d+)u] ends at an occurrence of [u]. *)
Lemma unit_pattern_occurs (s g : string) :
  unit_pattern u s = Some g -> (0 < count_char u s)%nat.
Proof.
  unfold unit_pattern, Re.plus. intros H.
  apply star_inv in H as (x & r & -> & Hk).
  destruct x as [|a x]; [done|]. rewrite lit_char in Hk.
  destruct r as [|c r]; [done|].
  destruct (Ascii.eqb c u) eqn:E; [|done].
  clear Hk. generalize (String a x). intros y.
  induction y as [|b y IH].
  - rewrite str_app_nil_l. simpl. rewrite E. lia.
  - rewrite str_app_cons. simpl. lia.
Qed.

Lemma search_occurs (s g : string) :
  Re.search (unit_pattern u) s = Some g -> (0 < count_char u s)%nat.
Proof.
  induction s as [|c s IH]; simpl; intros H.
  - destruct (unit_pattern u "") eqn:E; [|done].
    by apply unit_pattern_occurs in E.
  - destruct (unit_pattern u (String c s)) eqn:E.
    + apply unit_pattern_occurs in E. simpl in E. done.
    + apply IH in H. lia.
Qed.

Lemma search_absent (s : string) :
  count_char u s = O -> Re.search (unit_pattern u) s = None.
Proof.
  intros H. destruct (Re.search (unit_pattern u) s) eqn:E; [|done].
  apply search_occurs in E. lia.
Qed.

Lemma search_step (c : ascii) (s : string) :
  unit_pattern u (String c s) = None ->
  Re.search (unit_pattern u) (String c s) = Re.search (unit_pattern u) s.
Proof. intros H. simpl. by rewrite H. Qed.

(** The search passes over a run of digits that another character
    closes. *)
Lemma search_skip_run (g : string) (c : ascii) (rest : string) :
  Py.all_digits g = true -> Py.is_digit c = false -> Ascii.eqb c u = false ->
  Re.search (unit_pattern u) (g +:+ String c rest)
  = Re.search (unit_pattern u) rest.
Proof.
  intros Hg Hc Hcu. induction g as [|a g IH].
  - rewrite str_app_nil_l. apply search_step, unit_pattern_no_digit.
    simpl. by rewrite Hc.
  - rewrite str_app_cons, search_step.
    + simpl in Hg. apply andb_true_iff in Hg as [_ Hg]. by apply IH.
    + rewrite <-str_app_cons, unit_pattern_run; [| done | done |].
      * rewrite lit_char. by rewrite Hcu.
      * simpl. by rewrite Hc.
Qed.

Lemma search_skip_no_digit (sep rest : string) :
  no_digit sep = true ->
  Re.search (unit_pattern u) (sep +:+ rest) = Re.search (unit_pattern u) rest.
Proof.
  intros H. induction sep as [|c sep IH]; [done|].
  simpl in H. apply andb_true_iff in H as [Hc H].
  rewrite str_app_cons, search_step; [by apply IH|].
  apply unit_pattern_no_digit. done.
Qed.

(** The search stops at a run of digits that the unit letter closes. *)
Lemma search_hit (g rest : string) :
  Py.all_digits g = true -> g <> "" ->
  Re.search (unit_pattern u) (g +:+ String u rest) = Some g.
Proof.
  intros Hg Hne.
  assert (E : unit_pattern u (g +:+ String u rest) = Some g).
  { rewrite unit_pattern_run; [| done | done |].
    - rewrite lit_char. by rewrite Ascii.eqb_refl.
    - simpl. by rewrite u_not_digit. }
  by apply search_found.
Qed.

Lemma count_all_digits (g : string) :
  Py.all_digits g = true -> count_char u g = O.
Proof.
  induction g as [|a g IH]; [done|]. simpl. intros H.
  apply andb_true_iff in H as [Ha Hg]. rewrite digit_neq_unit by done.
  by rewrite IH.
Qed.

(** With at most one occurrence of the unit letter, the search reads the
    digits that stand before it. *)
Lemma found_component_from (s run : string) :
  Py.all_digits run = true -> (count_char u s <= 1)%nat ->
  found_value u (run +:+ s) = component_from u run s.
Proof.
  revert run. induction s as [|c s IH]; intros run Hrun Hcount.
  - rewrite str_app_nil_r. unfold found_value.
    rewrite search_absent; [done|]. by apply count_all_digits.
  - simpl in Hcount. simpl component_from.
    destruct (Ascii.eqb_spec c u) as [->|Hcu].
    + destruct run as [|a run].
      * rewrite str_app_nil_l. unfold found_value.
        rewrite search_step, search_absent; [done | lia |].
        apply unit_pattern_no_digit. simpl. by rewrite u_not_digit.
      * unfold found_value. rewrite search_hit by done.
        apply int_digits_decimal.
    + destruct (Py.is_digit c) eqn:Hc.
      * rewrite <-(IH (run +:+ String c "")).
        -- by rewrite str_app_assoc.
        -- rewrite all_digits_app, Hrun. simpl. by rewrite Hc.
        -- lia.
      * rewrite <-(IH ""); [| done | lia ].
        unfold found_value. rewrite search_skip_run; [done..|].
        by apply Ascii.eqb_neq.
Qed.
End UnitPattern.

(** ** [duration_to_seconds] *)

Lemma duration_to_seconds_sum (s : string) :
  duration_to_seconds (Some s)
  = found_value "d" s * 86400 + found_value "h" s * 3600
    + found_value "m" s * 60 + found_value "s" s.
Proof.
  unfold found_value. destruct s as [|c s].
  - vm_compute. reflexivity.
  - unfold duration_to_seconds, patterns. cbn [fold_left unit_seconds].
    generalize (Re.search (unit_pattern "d") (String c s)).
    generalize (Re.search (unit_pattern "h") (String c s)).
    generalize (Re.search (unit_pattern "m") (String c s)).
    generalize (Re.search (unit_pattern "s") (String c s)).
    intros [?|] [?|] [?|] [?|]; lia.
Qed.

(** Four components in the order days, hours, minutes, seconds, with any
    number of digits each. *)
Lemma decode_components (D H M S sep : string) :
  Py.all_digits D = true -> D <> "" ->
  Py.all_digits H = true -> H <> "" ->
  Py.all_digits M = true -> M <> "" ->
  Py.all_digits S = true -> S <> "" ->
  no_digit sep = true ->
  duration_to_seconds
    (Some (D +:+ String "d" (sep +:+
           H +:+ String "h" (sep +:+
           M +:+ String "m" (sep +:+
           S +:+ String "s" "")))))
  = Py.int_digits D * 86400 + Py.int_digits H * 3600
    + Py.int_digits M * 60 + Py.int_digits S.
Proof.
  intros HD HD' HH HH' HM HM' HS HS' Hsep.
  rewrite duration_to_seconds_sum. unfold found_value.
  rewrite (search_hit "d") by done.
  rewrite (search_skip_run "h"), (search_skip_no_digit "h"),
    (search_hit "h") by done.
  rewrite (search_skip_run "m"), (search_skip_no_digit "m"),
    (search_skip_run "m"), (search_skip_no_digit "m"),
    (search_hit "m") by done.
  rewrite (search_skip_run "s"), (search_skip_no_digit "s"),
    (search_skip_run "s"), (search_skip_no_digit "s"),
    (search_skip_run "s"), (search_skip_no_digit "s"),
    (search_hit "s") by done.
  done.
Qed.

Lemma found_value_nonneg (u : ascii) (s : string) : 0 <= found_value u s.
Proof.
  unfold found_value. destruct (Re.search (unit_pattern u) s) as [g|] eqn:E; [|done].
  apply search_inv in E as [t H]. unfold unit_pattern, Re.plus in H.
  apply star_digits_inv in H as (x & r & Hx & Hk).
  destruct x as [|a x]; [done|]. unfold Re.lit in Hk.
  destruct (Py.after_prefix (String u "") r); [|done]. injection Hk as <-.
  by apply int_acc_nonneg.
Qed.

Lemma no_digit_head (s : string) : no_digit s = true -> digit_free_head s = true.
Proof. destruct s as [|c s]; [done|]. simpl. by intros [-> _]%andb_true_iff. Qed.

Lemma found_value_no_digit (u : ascii) (s : string) :
  no_digit s = true -> found_value u s = 0.
Proof.
  intros H. unfold found_value.
  assert (E : Re.search (unit_pattern u) s = None); [|by rewrite E].
  induction s as [|c s IH].
  - vm_compute. reflexivity.
  - simpl Re.search. unfold unit_pattern at 1, Re.plus.
    simpl in H. apply andb_true_iff in H as [Hc H]. simpl Re.star.
    apply negb_true_iff in Hc. rewrite Hc. by apply IH.
Qed.

Lemma breakdown_sum (s : Z) :
  s / 86400 * 86400 + s mod 86400 / 3600 * 3600 + s mod 3600 / 60 * 60
  + s mod 60 = s.
Proof.
  pose proof (Z.div_mod s 86400 ltac:(lia)) as E1.
  pose proof (Z.div_mod (s mod 86400) 3600 ltac:(lia)) as E2.
  pose proof (Z.div_mod (s mod 3600) 60 ltac:(lia)) as E3.
  assert (E4 : (s mod 86400) mod 3600 = s mod 3600).
  { apply Z.mod_mod_divide. exists 24. lia. }
  assert (E5 : (s mod 3600) mod 60 = s mod 60).
  { apply Z.mod_mod_divide. exists 60. lia. }
  lia.
Qed.

(** C3: for every [s >= 0], decoding the token built from the
    day/hour/minute/second breakdown of [s], each part written as a decimal
    integer followed by its unit letter, gives [s] back.  The parts may be
    separated by any text without digits: written one after the other,
    or with a space between them as in the reports. *)
Theorem decode_breakdown_roundtrip (s : Z) (sep : string) :
  0 <= s -> no_digit sep = true ->
  duration_to_seconds (Some (breakdown_token sep s)) = s.
Proof.
  intros Hs Hsep. unfold breakdown_token, duration_breakdown.
  assert (Hd : 0 <= s / 86400) by (apply Z.div_pos; lia).
  assert (Hh : 0 <= s mod 86400 / 3600).
  { apply Z.div_pos; [|lia]. apply Z.mod_pos_bound. lia. }
  assert (Hm : 0 <= s mod 3600 / 60).
  { apply Z.div_pos; [|lia]. apply Z.mod_pos_bound. lia. }
  assert (Hsec : 0 <= s mod 60) by (apply Z.mod_pos_bound; lia).
  rewrite !str_nonneg by done.
  destruct (digits_spec _ Hd) as (? & ? & Ed).
  destruct (digits_spec _ Hh) as (? & ? & Eh).
  destruct (digits_spec _ Hm) as (? & ? & Em).
  destruct (digits_spec _ Hsec) as (? & ? & Es).
  rewrite decode_components by done.
  rewrite Ed, Eh, Em, Es. apply breakdown_sum.
Qed.

Lemma decode_breakdown_roundtrip_witness :
  0 <= 604781 /\ no_digit " " = true
  /\ duration_to_seconds (Some (breakdown_token " " 604781)) = 604781.
Proof.
  split; [lia|]. split; [reflexivity|].
  apply (decode_breakdown_roundtrip 604781 " "); [lia | reflexivity].
Defined.

(** ** The components of a token *)

Lemma component_from_absent (u : ascii) (s run : string) :
  count_char u s = O -> component_from u run s = 0.
Proof.
  revert run. induction s as [|c s IH]; intros run H; [done|].
  simpl in H. simpl. destruct (Ascii.eqb c u); [lia|].
  destruct (Py.is_digit c); apply IH; lia.
Qed.

Lemma component_from_skip (u c : ascii) (pre rest run : string) :
  count_char u pre = O -> Py.is_digit c = false -> c <> u ->
  component_from u run (pre +:+ String c rest) = component_from u "" rest.
Proof.
  intros Hpre Hc Hcu. revert run Hpre.
  induction pre as [|a pre IH]; intros run Hpre.
  - rewrite str_app_nil_l. simpl.
    by rewrite (proj2 (Ascii.eqb_neq c u) Hcu), Hc.
  - rewrite str_app_cons. simpl in Hpre. simpl.
    destruct (Ascii.eqb a u); [lia|].
    destruct (Py.is_digit a); apply IH; lia.
Qed.

Lemma component_from_digits (u : ascii) (D post run : string) :
  Py.is_digit u = false -> Py.all_digits D = true ->
  component_from u run (D +:+ String u post) = decimal_value (run +:+ D).
Proof.
  intros Hu. revert run. induction D as [|a D IH]; intros run HD.
  - rewrite str_app_nil_l, str_app_nil_r. simpl. by rewrite Ascii.eqb_refl.
  - simpl in HD. apply andb_true_iff in HD as [Ha HD].
    rewrite str_app_cons. simpl.
    rewrite (digit_neq_unit u Hu a Ha), Ha, IH by done.
    by rewrite str_app_assoc.
Qed.

(** C7: decoding is a total function into the non-negative integers; the
    absent and the empty token give 0; a token in which each unit letter
    occurs at most once gives days*86400 + hours*3600 + minutes*60 +
    seconds, each component being the number denoted by the digits written
    before its letter: zero when the letter does not occur, and the number
    of the numeral, of any length and with or without leading zeros, when
    it does; a token without unit letters or without digits gives 0; a
    token written from four numbers decodes to
    d*86400 + h*3600 + m*60 + s, whatever their size. *)
Theorem decode_formula :
  duration_to_seconds None = 0
  /\ duration_to_seconds (Some "") = 0
  /\ (forall token : string,
        at_most_once token = true ->
        duration_to_seconds (Some token)
        = component "d" token * 86400 + component "h" token * 3600
          + component "m" token * 60 + component "s" token)
  /\ (forall (u : ascii) (token : string),
        count_char u token = O -> component u token = 0)
  /\ (forall (u : ascii) (D post : string),
        Py.is_digit u = false -> Py.all_digits D = true ->
        component u (D +:+ String u post) = decimal_value D)
  /\ (forall (u c : ascii) (pre D post : string),
        Py.is_digit u = false -> Py.all_digits D = true ->
        count_char u pre = O -> Py.is_digit c = false -> c <> u ->
        component u (pre +:+ String c (D +:+ String u post))
        = decimal_value D)
  /\ (forall n : Z, 0 <= n -> decimal_value (Py.str n) = n)
  /\ (forall D : string, decimal_value (String "0" D) = decimal_value D)
  /\ (forall token : string,
        count_char "d" token = O -> count_char "h" token = O ->
        count_char "m" token = O -> count_char "s" token = O ->
        duration_to_seconds (Some token) = 0)
  /\ (forall token : string,
        no_digit token = true -> duration_to_seconds (Some token) = 0)
  /\ (forall d h m s : Z,
        0 <= d -> 0 <= h -> 0 <= m -> 0 <= s ->
        duration_to_seconds
          (Some (Py.str d +:+ "d " +:+ Py.str h +:+ "h "
                 +:+ Py.str m +:+ "m " +:+ Py.str s +:+ "s"))
        = d * 86400 + h * 3600 + m * 60 + s)
  /\ (forall D H M S : string,
        Py.all_digits D = true -> D <> "" ->
        Py.all_digits H = true -> H <> "" ->
        Py.all_digits M = true -> M <> "" ->
        Py.all_digits S = true -> S <> "" ->
        duration_to_seconds
          (Some (D +:+ "d " +:+ H +:+ "h " +:+ M +:+ "m " +:+ S +:+ "s"))
        = decimal_value D * 86400 + decimal_value H * 3600
          + decimal_value M * 60 + decimal_value S)
  /\ (forall token : option string, 0 <= duration_to_seconds token).
Proof.
  assert (Hformula : forall token : string,
    at_most_once token = true ->
    duration_to_seconds (Some token)
    = component "d" token * 86400 + component "h" token * 3600
      + component "m" token * 60 + component "s" token).
  { intros token H. unfold at_most_once, unit_letters in H. simpl in H.
    repeat (apply andb_true_iff in H as [?%Nat.leb_le H]).
    rewrite duration_to_seconds_sum. unfold component.
    rewrite <-!found_component_from by done. by rewrite !str_app_nil_l. }
  split_and!.
  - reflexivity.
  - reflexivity.
  - exact Hformula.
  - intros u token H. by apply component_from_absent.
  - intros u D post Hu HD. unfold component.
    by rewrite component_from_digits, str_app_nil_l.
  - intros u c pre D post Hu HD Hpre Hc Hcu. unfold component.
    rewrite component_from_skip by done.
    by rewrite component_from_digits, str_app_nil_l.
  - intros n Hn. rewrite str_nonneg by done. by apply decimal_value_str.
  - intros D. cbn [decimal_value]. change (Py.ord "0") with 48. lia.
  - intros token Hd Hh Hm Hs. rewrite Hformula.
    + unfold component. by rewrite !component_from_absent.
    + unfold at_most_once, unit_letters. simpl. by rewrite Hd, Hh, Hm, Hs.
  - intros token H. rewrite duration_to_seconds_sum.
    by rewrite !found_value_no_digit.
  - intros d h m s Hd Hh Hm Hs.
    rewrite !str_nonneg by done.
    destruct (digits_spec d Hd) as (? & ? & Ed).
    destruct (digits_spec h Hh) as (? & ? & Eh).
    destruct (digits_spec m Hm) as (? & ? & Em).
    destruct (digits_spec s Hs) as (? & ? & Es).
    rewrite <-Ed, <-Eh, <-Em, <-Es at 2.
    by apply (decode_components (Py.digits d) (Py.digits h) (Py.digits m)
                (Py.digits s) " ").
  - intros D H M S ? ? ? ? ? ? ? ?. rewrite <-!int_digits_decimal.
    by apply (decode_components D H M S " ").
  - intros [s|]; [|done]. rewrite duration_to_seconds_sum.
    pose proof (found_value_nonneg "d" s). pose proof (found_value_nonneg "h" s).
    pose proof (found_value_nonneg "m" s). pose proof (found_value_nonneg "s" s).
    lia.
Qed.

Lemma decode_formula_witness :
  at_most_once "06d 23h 59m 41s" = true
  /\ duration_to_seconds (Some "06d 23h 59m 41s") = 604781
  /\ at_most_once "400d 90m" = true
  /\ duration_to_seconds (Some "400d 90m") = 34565400.
Proof.
  split; [reflexivity|]. split.
  - rewrite (proj1 (proj2 (proj2 decode_formula)) "06d 23h 59m 41s");
      reflexivity.
  - split; [reflexivity|].
    rewrite (proj1 (proj2 (proj2 decode_formula)) "400d 90m"); reflexivity.
Defined.

Lemma duration_to_seconds_nonneg (token : option string) :
  0 <= duration_to_seconds token.
Proof.
  destruct token as [s|]; [|done]. rewrite duration_to_seconds_sum.
  pose proof (found_value_nonneg "d" s). pose proof (found_value_nonneg "h" s).
  pose proof (found_value_nonneg "m" s). pose proof (found_value_nonneg "s" s).
  lia.
Qed.

(** ** [int] reads back what [str] writes *)

Lemma digit_not_space (c : ascii) :
  Py.is_digit c = true -> Py.is_space c = false /\ Py.is_int_space c = false.
Proof.
  unfold Py.is_digit, Py.is_space, Py.is_int_space. intros H.
  apply andb_true_iff in H as [H1%Z.leb_le H2%Z.leb_le].
  split; repeat (apply orb_false_iff; split);
    try (apply andb_false_iff; rewrite !Z.leb_gt; lia);
    apply Z.eqb_neq; lia.
Qed.

Lemma digit_not_char (c d : ascii) :
  Py.is_digit c = true -> Py.is_digit d = false -> Ascii.eqb c d = false.
Proof. intros Hc Hd. destruct (Ascii.eqb_spec c d) as [->|]; congruence. Qed.

Lemma rstrip_digits (s : string) :
  Py.all_digits s = true -> Py.rstrip_with Py.is_int_space s = s.
Proof.
  induction s as [|c s IH]; [done|]. simpl. intros H.
  apply andb_true_iff in H as [Hc Hs]. rewrite IH by done.
  destruct s; [|done]. by rewrite (proj2 (digit_not_space c Hc)).
Qed.

Lemma strip_digits (s : string) :
  Py.all_digits s = true ->
  Py.rstrip_with Py.is_int_space (Py.lstrip_with Py.is_int_space s) = s.
Proof.
  intros H.
  assert (E : Py.lstrip_with Py.is_int_space s = s).
  { destruct s as [|c s]; [done|]. simpl in *.
    apply andb_true_iff in H as [Hc _].
    by rewrite (proj2 (digit_not_space c Hc)). }
  rewrite E. by apply rstrip_digits.
Qed.

Lemma int_body_ok_digits (s : string) (b : bool) :
  Py.all_digits s = true -> s <> "" -> Py.int_body_ok b s = true.
Proof.
  revert b. induction s as [|c s IH]; intros b H Hne; [done|].
  simpl in *. apply andb_true_iff in H as [Hc Hs]. rewrite Hc.
  destruct s as [|d s]; [done|]. by apply IH.
Qed.

Lemma drop_underscores_digits (s : string) :
  Py.all_digits s = true -> Py.drop_underscores s = s.
Proof.
  induction s as [|c s IH]; [done|]. simpl. intros H.
  apply andb_true_iff in H as [Hc Hs].
  rewrite (digit_not_char c "_") by done. by rewrite IH.
Qed.

Lemma int_str (n : Z) : 0 <= n -> Py.int (Py.str n) = Some n.
Proof.
  intros Hn. rewrite str_nonneg by done.
  destruct (digits_spec n Hn) as (Hd & Hne & Hv).
  unfold Py.int. rewrite strip_digits by done.
  destruct (Py.digits n) as [|c s] eqn:E; [done|].
  assert (Hc : Py.is_digit c = true).
  { simpl in Hd. by apply andb_true_iff in Hd as [? _]. }
  rewrite (digit_not_char c "-"), (digit_not_char c "+") by done.
  rewrite int_body_ok_digits, drop_underscores_digits by done.
  rewrite Hv. f_equal. lia.
Qed.

(** ** The statistics *)

Lemma add_field_seconds (key : string) (row : gmap string string) (acc : Z) :
  add_field key row acc = acc + field_seconds key row.
Proof.
  unfold add_field, field_seconds. destruct (row !! key) as [[|c v]|];
    cbn [mbind option_bind default].
  - change (Py.int "") with (@None Z). simpl. lia.
  - destruct (Py.int (String c v)); simpl; lia.
  - lia.
Qed.

Lemma sum_rows_columns (csv : option (list (gmap string string))) :
  sum_rows csv
  = (column_sum "uptime_segundos" csv, column_sum "downtime_segundos" csv).
Proof.
  unfold sum_rows, column_sum. destruct csv as [rows|]; [|done]. simpl.
  assert (G : forall up down,
    fold_left
      (fun '(up, down) row =>
         (add_field "uptime_segundos" row up,
          add_field "downtime_segundos" row down)) rows (up, down)
    = (up + foldr (fun row acc => field_seconds "uptime_segundos" row + acc) 0 rows,
       down + foldr (fun row acc => field_seconds "downtime_segundos" row + acc) 0 rows)).
  { induction rows as [|row rows IH]; intros up down; simpl.
    - f_equal; lia.
    - rewrite IH, !add_field_seconds. f_equal; lia. }
  rewrite G. f_equal; lia.
Qed.


(** ** Floats *)

Lemma shr_1_under (mrs : shr_record) (N D : Z) :
  0 < D -> under mrs N D -> under (shr_1 mrs) N (2 * D).
Proof.
  intros HD. destruct mrs as [m r s]. unfold under, inexact.
  destruct m as [|[p|p|]|]; cbn [shr_1 shr_m shr_r shr_s];
    intros (H0 & Hle & Hlt); try lia;
    (split_and!; [lia | lia |]); rewrite orb_false_l; intros H;
    specialize (Hlt H); lia.
Qed.

Lemma iter_shr_under (p : positive) (mrs : shr_record) (N D : Z) :
  0 < D -> under mrs N D ->
  under (SpecFloat.iter_pos shr_1 p mrs) N (2 ^ Z.pos p * D).
Proof.
  revert mrs D. induction p as [p IH|p IH|]; intros mrs D HD H.
  - cbn [SpecFloat.iter_pos].
    replace (2 ^ Z.pos p~1 * D) with (2 ^ Z.pos p * (2 ^ Z.pos p * (2 * D))).
    + apply IH; [|apply IH; [lia | by apply shr_1_under]].
      assert (0 < 2 ^ Z.pos p) by (apply Z.pow_pos_nonneg; lia). nia.
    + rewrite (Pos2Z.inj_xI p), Z.pow_add_r, Z.pow_mul_r by lia.
      replace (2 ^ 2) with 4 by reflexivity.
      replace ((4 : Z) ^ Z.pos p) with (2 ^ Z.pos p * 2 ^ Z.pos p); [ring|].
      rewrite <-Z.pow_mul_l. reflexivity.
  - cbn [SpecFloat.iter_pos].
    replace (2 ^ Z.pos p~0 * D) with (2 ^ Z.pos p * (2 ^ Z.pos p * D)).
    + apply IH; [|by apply IH].
      assert (0 < 2 ^ Z.pos p) by (apply Z.pow_pos_nonneg; lia). nia.
    + rewrite (Pos2Z.inj_xO p), Z.pow_mul_r by lia.
      replace (2 ^ 2) with 4 by reflexivity.
      replace ((4 : Z) ^ Z.pos p) with (2 ^ Z.pos p * 2 ^ Z.pos p); [ring|].
      rewrite <-Z.pow_mul_l. reflexivity.
  - cbn [SpecFloat.iter_pos]. replace (2 ^ 1 * D) with (2 * D) by lia.
    by apply shr_1_under.
Qed.

Lemma shr_under (mrs : shr_record) (e n N D : Z) :
  0 < D -> under mrs N D ->
  (shr mrs e n).2 = e + Z.max n 0
  /\ under (shr mrs e n).1 N (2 ^ Z.max n 0 * D).
Proof.
  intros HD H. destruct n as [|p|p]; unfold shr; cbn [fst snd].
  - split; [lia|]. replace (2 ^ Z.max 0 0 * D) with D; [done|].
    rewrite Z.max_l by lia. lia.
  - split; [lia|]. rewrite Z.max_l by lia. by apply iter_shr_under.
  - split; [lia|]. replace (2 ^ Z.max (Z.neg p) 0 * D) with D; [done|].
    rewrite Z.max_r by lia. lia.
Qed.

Lemma digits2_pos_le (p : positive) (k : Z) :
  0 <= k -> Z.pos p < 2 ^ k -> Z.pos (digits2_pos p) <= k.
Proof.
  revert k. induction p as [p IH|p IH|]; intros k Hk H; cbn [digits2_pos].
  - destruct (Z.eq_dec k 0) as [->|Hk0]; [simpl in H; lia|].
    replace k with (Z.succ (k - 1)) in H by lia.
    rewrite Z.pow_succ_r in H by lia.
    specialize (IH (k - 1) ltac:(lia) ltac:(lia)). lia.
  - destruct (Z.eq_dec k 0) as [->|Hk0]; [simpl in H; lia|].
    replace k with (Z.succ (k - 1)) in H by lia.
    rewrite Z.pow_succ_r in H by lia.
    specialize (IH (k - 1) ltac:(lia) ltac:(lia)). lia.
  - destruct (Z.eq_dec k 0) as [->|Hk0]; [simpl in H; lia|]. lia.
Qed.

Lemma Zdigits2_le (m k : Z) :
  0 <= k -> 0 <= m < 2 ^ k -> Zdigits2 m <= k.
Proof.
  intros Hk [H0 H]. destruct m as [|p|p]; [simpl; lia | | lia].
  by apply digits2_pos_le.
Qed.

Lemma fexp_le (x : Z) : x <= 53 -> fexp Float.prec Float.emax x <= 0.
Proof. unfold fexp, emin, Float.prec, Float.emax. lia. Qed.

Lemma inexact_of_loc (m : Z) (l : location) :
  shr_m (shr_record_of_loc m l) = m
  /\ (inexact (shr_record_of_loc m l) = true -> l <> loc_Exact).
Proof. by destruct l as [|[]]. Qed.

Lemma round_nearest_even_le (mrs : shr_record) :
  let m := round_nearest_even (shr_m mrs) (loc_of_shr_record mrs) in
  shr_m mrs <= m
  /\ (inexact mrs = false -> m = shr_m mrs)
  /\ m <= shr_m mrs + 1.
Proof.
  destruct mrs as [m [] []]; unfold inexact; simpl;
    try destruct (Z.even m); split_and!; try done; lia.
Qed.

Lemma pow2_split (a b : Z) : 0 <= a -> 0 <= b -> 2 ^ (a + b) = 2 ^ a * 2 ^ b.
Proof. intros. by rewrite Z.pow_add_r. Qed.

(** The rounding of a quotient [N / (D * 2^(-ex))] that is at most the
    integer [U] gives a float that is at most [U]. *)
Lemma binary_round_aux_le (U u : Z) (sx : bool) (mx ex : Z) (lx : location)
    (N D : Z) :
  0 < D -> 0 <= mx -> mx * D <= N -> (lx <> loc_Exact -> mx * D < N) ->
  ex <= 0 -> 0 < U < 2 ^ u -> 0 <= u <= 53 ->
  N <= U * D * 2 ^ (- ex) ->
  match binary_round_aux Float.prec Float.emax sx mx ex lx with
  | S754_zero s => s = sx
  | S754_finite s m e => s = sx /\ e <= 0 /\ Z.pos m <= U * 2 ^ (- e)
  | _ => False
  end.
Proof.
  intros HD Hmx Hle Hlt Hex HU Hu HN.
  assert (Hpow : forall k, 0 <= k -> 0 < 2 ^ k)
    by (intros; apply Z.pow_pos_nonneg; lia).
  unfold binary_round_aux, shr_fexp.
  (* first shift *)
  set (d := Zdigits2 mx).
  assert (Hd : d + ex <= u).
  { assert (Zdigits2 mx <= u - ex); [|unfold d; lia].
    apply Zdigits2_le; [lia|]. split; [done|].
    pose proof (Hpow (- ex) ltac:(lia)).
    assert (mx <= U * 2 ^ (- ex)).
    { apply (Z.mul_le_mono_pos_r _ _ D); [done|]. nia. }
    replace (u - ex) with (u + - ex) by lia. rewrite pow2_split by lia. nia. }
  pose proof (fexp_le (d + ex) ltac:(lia)) as Hf1.
  set (n1 := fexp Float.prec Float.emax (d + ex) - ex) in *.
  destruct (inexact_of_loc mx lx) as [Em Ei].
  destruct (shr_under (shr_record_of_loc mx lx) ex n1 N D HD) as [Ee1 Hu1].
  { unfold under. rewrite Em. split_and!; [done | done |].
    intros H. by apply Hlt, Ei. }
  destruct (shr (shr_record_of_loc mx lx) ex n1) as [mrs1 e1].
  cbn [fst snd] in Ee1, Hu1.
  set (k1 := Z.max n1 0) in *.
  assert (He1 : e1 <= 0) by (unfold k1, n1 in *; lia).
  destruct Hu1 as (H01 & Hle1 & Hlt1).
  assert (E2 : 2 ^ (- ex) = 2 ^ (- e1) * 2 ^ k1).
  { rewrite <-pow2_split by (unfold k1; lia). f_equal. lia. }
  pose proof (Hpow k1 ltac:(unfold k1; lia)) as Hk1.
  pose proof (Hpow (- e1) ltac:(lia)) as Hq1.
  destruct (round_nearest_even_le mrs1) as (Hr0 & Hrx & Hr1).
  set (mr := round_nearest_even (shr_m mrs1) (loc_of_shr_record mrs1)) in *.
  assert (Hmr : mr <= U * 2 ^ (- e1)).
  { destruct (inexact mrs1) eqn:Ein.
    - specialize (Hlt1 eq_refl).
      assert (shr_m mrs1 < U * 2 ^ (- e1)); [|lia].
      apply (Z.mul_lt_mono_pos_r (2 ^ k1 * D)); [nia|].
      rewrite E2 in HN. nia.
    - rewrite (Hrx eq_refl).
      apply (Z.mul_le_mono_pos_r _ _ (2 ^ k1 * D)); [nia|].
      rewrite E2 in HN. nia. }
  (* second shift *)
  set (dr := Zdigits2 mr).
  assert (Hdr : dr + e1 <= u).
  { assert (Zdigits2 mr <= u - e1); [|unfold dr; lia].
    apply Zdigits2_le; [lia|]. split; [lia|].
    replace (u - e1) with (u + - e1) by lia. rewrite pow2_split by lia. nia. }
  pose proof (fexp_le (dr + e1) ltac:(lia)) as Hf2.
  set (n2 := fexp Float.prec Float.emax (dr + e1) - e1) in *.
  destruct (shr_under (shr_record_of_loc mr loc_Exact) e1 n2 mr 1 ltac:(lia))
    as [Ee2 Hu2].
  { unfold under, inexact. simpl. split_and!; [lia | lia | done]. }
  destruct (shr (shr_record_of_loc mr loc_Exact) e1 n2) as [mrs2 e2].
  cbn [fst snd] in Ee2, Hu2.
  set (k2 := Z.max n2 0) in *.
  assert (He2 : e2 <= 0) by (unfold k2, n2 in *; lia).
  destruct Hu2 as (H02 & Hle2 & _).
  assert (E3 : 2 ^ (- e1) = 2 ^ (- e2) * 2 ^ k2).
  { rewrite <-pow2_split by (unfold k2; lia). f_equal. lia. }
  pose proof (Hpow k2 ltac:(unfold k2; lia)) as Hk2.
  pose proof (Hpow (- e2) ltac:(lia)) as Hq2.
  destruct (shr_m mrs2) as [|m2|m2] eqn:Em2; [done | | lia].
  assert ((e2 <=? Float.emax - Float.prec) = true) as ->.
  { apply Z.leb_le. unfold Float.emax, Float.prec. lia. }
  split_and!; [done | done |].
  apply (Z.mul_le_mono_pos_r _ _ (2 ^ k2)); [done|].
  rewrite E3 in Hmr. nia.
Qed.

Lemma new_location_exact (n r : Z) :
  new_location n r <> loc_Exact -> r <> 0.
Proof.
  unfold new_location, new_location_even, new_location_odd.
  intros H ->. by destruct (Z.even n).
Qed.

(** The quotient of two integers [0 <= a <= t] with [0 < t] is a float
    between 0 and 1: the division does not overflow. *)
Lemma true_divide_le_one (a t : Z) :
  0 <= a <= t -> 0 < t ->
  exists q, Float.true_divide a t = Ok q /\ Float.between_zero_and 1 q.
Proof.
  intros Ha Ht. unfold Float.true_divide.
  destruct (Z.eqb_spec t 0) as [|_]; [lia|].
  destruct t as [|pt|pt]; [lia | | lia].
  destruct a as [|pa|pa]; [by exists (S754_zero false) | | lia].
  cbn [Float.of_int SFdiv xorb].
  unfold SFdiv_core_binary.
  set (e' := Z.min _ (0 - 0)).
  assert (He : e' <= 0) by (unfold e'; lia).
  set (m' := match 0 - 0 - e' with
             | 0 => Z.pos pa
             | Z.pos _ => Z.shiftl (Z.pos pa) (0 - 0 - e')
             | Z.neg _ => 0
             end).
  assert (Em : m' = Z.pos pa * 2 ^ (- e')).
  { unfold m'. replace (0 - 0 - e') with (- e') by lia.
    destruct (- e') as [|p|p] eqn:E; [lia | | lia].
    by rewrite Z.shiftl_mul_pow2. }
  pose proof (Z_div_mod m' (Z.pos pt) ltac:(lia)) as Hdiv.
  destruct (Z.div_eucl m' (Z.pos pt)) as [q r]. destruct Hdiv as [Eq Hr].
  assert (Hpow : 0 < 2 ^ (- e')) by (apply Z.pow_pos_nonneg; lia).
  assert (H := binary_round_aux_le 1 1 false q e' (new_location (Z.pos pt) r)
                m' (Z.pos pt) ltac:(lia) ltac:(nia) ltac:(nia)).
  specialize (H ltac:(intros Hl%new_location_exact; nia) ltac:(lia)
                ltac:(simpl; lia) ltac:(lia) ltac:(nia)).
  destruct (binary_round_aux Float.prec Float.emax false q e'
              (new_location (Z.pos pt) r)) as [s|s| |s m e]; try done.
  - subst s. by exists (S754_zero false).
  - destruct H as (-> & He0 & Hm). by exists (S754_finite false m e).
Qed.

Lemma mul_int_le_hundred (q : spec_float) :
  Float.between_zero_and 1 q ->
  Float.between_zero_and 100 (Float.mul_int q 100).
Proof.
  destruct q as [[]|[]| |[] m e]; try done. intros [He Hm].
  unfold Float.mul_int, Float.mul. cbn [Float.of_int SFmul xorb].
  assert (Hpow : 0 < 2 ^ (- e)) by (apply Z.pow_pos_nonneg; lia).
  assert (H := binary_round_aux_le 100 7 false (Z.pos (m * 100)) (e + 0)
                loc_Exact (Z.pos (m * 100)) 1 ltac:(lia) ltac:(lia) ltac:(lia)
                ltac:(done) ltac:(lia) ltac:(simpl; lia) ltac:(lia)).
  replace (- (e + 0)) with (- e) in H by lia.
  specialize (H ltac:(lia)).
  destruct (binary_round_aux _ _ false (Z.pos (m * 100)) (e + 0) loc_Exact)
    as [s|s| |s m' e']; try done.
  - by subst s.
  - destruct H as (-> & He' & Hm'). by split.
Qed.

(** ** The statistics, continued *)


(** The outcome of the statistics on any two collections. *)
Lemma statistics_cases :
  forall main_csv ash_csv : option (list (gmap string string)),
     let mu := column_sum "uptime_segundos" main_csv in
     let md := column_sum "downtime_segundos" main_csv in
     let au := column_sum "uptime_segundos" ash_csv in
     let ad := column_sum "downtime_segundos" ash_csv in
     let total := mu + md + au + ad in
     let stats percentage :=
       {| main_url_uptime := mu; main_url_downtime := md;
          ash_url_uptime := au; ash_url_downtime := ad;
          total_time := total; ash_downtime_percentage := percentage |} in
     let result := calculate_downtime_statistics main_csv ash_csv in
     result <> Raise ZeroDivisionError
     /\ (total <= 0 -> result = Ok (stats (PyInt 0)))
     /\ (0 < total ->
         match Float.true_divide ad total with
         | Ok q => result = Ok (stats (PyFloat (Float.mul_int q 100)))
         | Raise e => e = OverflowError /\ result = Raise OverflowError
         end)
     /\ (0 < total -> 0 <= ad <= total ->
         exists x, result = Ok (stats (PyFloat x))
                   /\ Float.between_zero_and 100 x)
     /\ (0 < total -> ad = 0 ->
         result = Ok (stats (PyFloat (S754_zero false)))).
Proof.
  intros main_csv ash_csv mu md au ad total stats result.
  unfold result, calculate_downtime_statistics.
  rewrite !sum_rows_columns. fold mu md au ad. cbn zeta. fold total.
  destruct (Z.ltb_spec 0 total) as [Ht|Ht].
  + assert (Hz : Float.true_divide ad total <> Raise ZeroDivisionError).
    { unfold Float.true_divide. destruct (Z.eqb_spec total 0); [lia|].
      by destruct (SFdiv _ _ _ _). }
    assert (He : forall e, Float.true_divide ad total = Raise e ->
                           e = OverflowError).
    { intros [] E; [by rewrite E in Hz | done]. }
    split_and!.
    * destruct (Float.true_divide ad total) as [q|[]] eqn:E; done.
    * lia.
    * intros _. destruct (Float.true_divide ad total) as [q|e];
        [done|]. by rewrite (He e eq_refl).
    * intros _ Had.
      destruct (true_divide_le_one ad total Had Ht) as (q & -> & Hq).
      exists (Float.mul_int q 100). split; [done|].
      by apply mul_int_le_hundred.
    * intros _ ->. unfold Float.true_divide.
      destruct (Z.eqb_spec total 0); [lia|].
      by destruct total.
  + split_and!; [done | done | lia | lia | lia].
Qed.




(** ** The context scan keeps the keys of the match *)

Lemma enrich_line_core (line : string) (r : UptimeRecord) :
  core (enrich_line line r) = core r.
Proof.
  unfold enrich_line.
  repeat match goal with
         | |- context [if ?b then _ else _] => destruct b
         | |- context [match ?o with Some _ => _ | None => _ end] => destruct o
         end; reflexivity.
Qed.

Lemma enrich_at_core (lines : list string) (k : Z) (r : UptimeRecord) :
  core (enrich_at lines k r) = core r.
Proof.
  unfold enrich_at. destruct (lines !! Z.to_nat k); [|done].
  apply enrich_line_core.
Qed.

Lemma enrich_core (lines : list string) (ks : list Z) (r : UptimeRecord) :
  core (enrich lines ks r) = core r.
Proof.
  unfold enrich. revert r. induction ks as [|k ks IH]; intros r; [done|].
  simpl. rewrite IH. apply enrich_at_core.
Qed.

Lemma enrich_guarded_core (lines : list string) (ks : list Z) (r : UptimeRecord) :
  core (enrich_guarded lines ks r) = core r.
Proof.
  unfold enrich_guarded. revert r. induction ks as [|k ks IH]; intros r; [done|].
  simpl. rewrite IH. destruct (0 <=? k); [|done]. apply enrich_at_core.
Qed.

Lemma core_url (r r' : UptimeRecord) : core r = core r' -> url r = url r'.
Proof. unfold core. congruence. Qed.

(** ** Discovery mode *)

Section Walk.
Variable pdf_name : string.

Lemma walk_lines_app (page_num : nat) (lines a b : list string) (i : nat)
    (st : walk_state) :
  walk_lines pdf_name page_num lines i (a ++ b) st
  = walk_lines pdf_name page_num lines (i + length a) b
      (walk_lines pdf_name page_num lines i a st).
Proof.
  revert i st. induction a as [|l a IH]; intros i st; simpl.
  - by rewrite Nat.add_0_r.
  - rewrite IH. f_equal. lia.
Qed.

Lemma walk_pages_app (page_num : nat) (a b : list string) (st : walk_state) :
  walk_pages pdf_name page_num (a ++ b) st
  = walk_pages pdf_name (page_num + length a) b
      (walk_pages pdf_name page_num a st).
Proof.
  revert page_num st. induction a as [|t a IH]; intros n st; simpl.
  - by rewrite Nat.add_0_r.
  - rewrite IH. f_equal. lia.
Qed.

Lemma step_line_inv (page_num : nat) (lines : list string) (i : nat)
    (line : string) (st : walk_state) :
  seen_inv st -> seen_inv (step_line pdf_name page_num lines i line st).
Proof.
  intros [Hnd Hseen]. unfold step_line.
  destruct (Py.contains declaration_marker line).
  { destruct (Py.contains "buenosaires.gob.ar" line); done. }
  destruct (current_url st) as [u|]; [|done].
  destruct (Py.contains stats_marker line && truthy (Some u)
            && negb (bool_decide (u ∈ processed_urls st))) eqn:E; [|done].
  destruct (up_match line) as [up|]; [|done].
  destruct (down_match line) as [down|]; [|done].
  apply andb_true_iff in E as [_ Hu]. apply negb_true_iff in Hu.
  apply bool_decide_eq_false in Hu.
  assert (Eurl : url (enrich lines
                   (range (Z.max 0 (Z.of_nat i - 10))
                      (Z.min (Z.of_nat i + 10) (Z.of_nat (length lines))))
                   (base_record pdf_name u page_num up down)) = u).
  { by rewrite (core_url _ _ (enrich_core _ _ _)). }
  split; simpl.
  - rewrite map_app. simpl. rewrite Eurl.
    apply NoDup_app. split_and!; [done | | apply NoDup_singleton].
    intros v Hv ->%list_elem_of_singleton. by apply Hu, Hseen.
  - intros v. rewrite map_app. simpl. rewrite Eurl.
    rewrite elem_of_union, elem_of_singleton, elem_of_app,
      list_elem_of_singleton. by rewrite Hseen.
Qed.

Lemma walk_lines_inv (page_num : nat) (lines : list string) (i : nat)
    (rest : list string) (st : walk_state) :
  seen_inv st -> seen_inv (walk_lines pdf_name page_num lines i rest st).
Proof.
  revert i st. induction rest as [|l rest IH]; intros i st H; [done|].
  simpl. by apply IH, step_line_inv.
Qed.

Lemma walk_pages_inv (page_num : nat) (pages : list string) (st : walk_state) :
  seen_inv st -> seen_inv (walk_pages pdf_name page_num pages st).
Proof.
  revert page_num st. induction pages as [|t pages IH]; intros n st H; [done|].
  simpl. apply IH. unfold walk_page. by apply walk_lines_inv.
Qed.

(** Records are only ever appended. *)
Lemma step_line_grows (page_num : nat) (lines : list string) (i : nat)
    (line : string) (st : walk_state) :
  exists extra,
    results (step_line pdf_name page_num lines i line st)
    = results st ++ extra.
Proof.
  unfold step_line.
  repeat match goal with
         | |- context [if ?b then _ else _] => destruct b
         | |- context [match ?o with Some _ => _ | None => _ end] => destruct o
         end;
    simpl; eauto using app_nil_r.
  all: exists []; by rewrite app_nil_r.
Qed.

Lemma walk_lines_grows (page_num : nat) (lines : list string) (i : nat)
    (rest : list string) (st : walk_state) :
  exists extra,
    results (walk_lines pdf_name page_num lines i rest st)
    = results st ++ extra.
Proof.
  revert i st. induction rest as [|l rest IH]; intros i st; simpl.
  - exists []. by rewrite app_nil_r.
  - destruct (IH (S i) (step_line pdf_name page_num lines i l st)) as [e1 ->].
    destruct (step_line_grows page_num lines i l st) as [e2 ->].
    exists (e2 ++ e1). by rewrite app_assoc.
Qed.

Lemma walk_pages_grows (page_num : nat) (pages : list string)
    (st : walk_state) :
  exists extra,
    results (walk_pages pdf_name page_num pages st) = results st ++ extra.
Proof.
  revert page_num st. induction pages as [|t pages IH]; intros n st; simpl.
  - exists []. by rewrite app_nil_r.
  - destruct (IH (S n) (walk_page pdf_name n t st)) as [e1 ->].
    unfold walk_page.
    destruct (walk_lines_grows n (Py.split_char newline t) 0
                (Py.split_char newline t) (page_start st)) as [e2 E].
    fold (page_start st). rewrite E. simpl.
    exists (e2 ++ e1). by rewrite app_assoc.
Qed.
End Walk.

(** C4: in discovery mode a document gives at most one record per target:
    no two records of the result have the same target; the records that
    further pages add to those of the pages before them are all for targets
    not recorded before, since the seen-set is carried from page to page;
    and a line read while the current target is in the seen-set, a
    statistics line in particular, changes nothing unless it is a
    declaration line. *)
Theorem discovery_one_record_per_target (pdf_name : string) :
  (forall pages : list string,
     NoDup (map url (extract_all_urls_from_pdf pdf_name pages)))
  /\ (forall pages later : list string,
        exists extra,
          extract_all_urls_from_pdf pdf_name (pages ++ later)
          = extract_all_urls_from_pdf pdf_name pages ++ extra
          /\ forall r, r ∈ extra ->
               url r ∉ map url (extract_all_urls_from_pdf pdf_name pages))
  /\ (forall (page_num : nat) (lines : list string) (i : nat)
             (line u : string) (st : walk_state),
        current_url st = Some u -> u ∈ processed_urls st ->
        Py.contains declaration_marker line = false ->
        step_line pdf_name page_num lines i line st = st).
Proof.
  assert (Hinit : seen_inv initial_state).
  { split; simpl; [apply NoDup_nil_2|]. intros u. set_solver. }
  assert (Hnd : forall pages,
    NoDup (map url (extract_all_urls_from_pdf pdf_name pages))).
  { intros pages. unfold extract_all_urls_from_pdf.
    by destruct (walk_pages_inv pdf_name 0 pages initial_state Hinit). }
  split_and!; [done | |].
  - intros pages later. specialize (Hnd (pages ++ later)).
    unfold extract_all_urls_from_pdf in *. rewrite walk_pages_app in *.
    destruct (walk_pages_grows pdf_name (0 + length pages) later
                (walk_pages pdf_name 0 pages initial_state)) as [extra E].
    exists extra. split; [done|].
    rewrite E, map_app in Hnd. apply NoDup_app in Hnd as (_ & Hd & _).
    intros r Hr Hin. apply (Hd _ Hin). by apply list_elem_of_fmap_2.
  - intros page_num lines i line u st Hc Hu Hd.
    unfold step_line. rewrite Hd, Hc.
    rewrite (bool_decide_eq_true_2 _ Hu). by rewrite andb_false_r.
Qed.

Lemma discovery_one_record_per_target_witness :
  let page :=
    "Probe, Group, Device: Local Probe > ash.buenosaires.gob.ar"
    +:+ String newline example_statistics in
  map url (extract_all_urls_from_pdf "report.pdf" [page; page])
  = ["ash.buenosaires.gob.ar/"]
  /\ NoDup (map url (extract_all_urls_from_pdf "report.pdf" [page; page])).
Proof.
  intros page. split; [reflexivity|].
  apply (proj1 (discovery_one_record_per_target "report.pdf")).
Defined.

Section WalkPage.
Variable pdf_name : string.
Variable page_num : nat.
Variable lines : list string.

Lemma step_line_idle (i : nat) (line : string) (st : walk_state) :
  current_url st = None -> Py.contains declaration_marker line = false ->
  step_line pdf_name page_num lines i line st = st.
Proof. intros Hc Hd. unfold step_line. by rewrite Hd, Hc. Qed.

Lemma walk_lines_idle (i : nat) (pre : list string) (st : walk_state) :
  current_url st = None ->
  Forall (fun l => Py.contains declaration_marker l = false) pre ->
  walk_lines pdf_name page_num lines i pre st = st.
Proof.
  intros Hc Hpre. revert i. induction Hpre as [|l pre Hl _ IH]; intros i; [done|].
  simpl. rewrite step_line_idle by done. apply IH.
Qed.

Lemma classify_recognised (line u : string) (current : option string) :
  classify line None = Some u -> classify line current = Some u.
Proof.
  unfold classify.
  repeat match goal with
         | |- context [Py.contains ?form line] =>
             destruct (Py.contains form line)
         end; done.
Qed.

Lemma classify_unrecognised (line : string) (current : option string) :
  recognised line = false -> classify line current = current.
Proof.
  unfold recognised, classify.
  repeat match goal with
         | |- context [Py.contains ?form line] =>
             destruct (Py.contains form line)
         end; done.
Qed.

(** Every literal form of the chain contains the host name that guards
    the chain, and every target it assigns is a non-empty string. *)
Lemma classify_known (line u : string) :
  classify line None = Some u ->
  Py.contains "buenosaires.gob.ar" line = true /\ truthy (Some u) = true.
Proof.
  intros H.
  assert (G : exists form,
    Py.contains form line = true
    /\ Py.contains "buenosaires.gob.ar" form = true
    /\ truthy (Some u) = true).
  { revert H. unfold classify.
    repeat match goal with
           | |- context [Py.contains ?form line] =>
               destruct (Py.contains form line) eqn:?
           end; intros [= <-]; eexists;
      (split; [eassumption | split; vm_compute; reflexivity]). }
  destruct G as (form & H1 & H2 & H3). split; [|done].
  by apply (contains_trans _ form).
Qed.

(** A declaration line without any recognised form changes neither the
    current target nor the records nor the seen-set. *)
Lemma step_line_unrecognised (i : nat) (line : string) (st : walk_state) :
  Py.contains declaration_marker line = true -> recognised line = false ->
  let st' := step_line pdf_name page_num lines i line st in
  current_url st' = current_url st /\ results st' = results st
  /\ processed_urls st' = processed_urls st.
Proof.
  intros Hd Hr. unfold step_line. rewrite Hd.
  destruct (Py.contains "buenosaires.gob.ar" line); simpl; [|done].
  by rewrite classify_unrecognised.
Qed.
End WalkPage.

(** C9: the current target is reset at the start of every page, the
    seen-set and the records are not.  Whatever the walk holds when a page
    starts, also a current target declared on an earlier page and not yet
    recorded, the lines that stand before the first declaration line of the
    page produce no record: walking them gives back the state the page
    started in, and the page is walked from the first declaration line on
    with no current target. *)
Theorem discovery_target_reset_per_page (pdf_name : string) (page_num : nat)
    (text : string) (st : walk_state) (pre post : list string) :
  Py.split_char newline text = pre ++ post ->
  Forall (fun l => Py.contains declaration_marker l = false) pre ->
  walk_lines pdf_name page_num (pre ++ post) 0 pre (page_start st)
  = page_start st
  /\ walk_page pdf_name page_num text st
     = walk_lines pdf_name page_num (pre ++ post) (length pre) post
         (page_start st)
  /\ (post = [] ->
      results (walk_page pdf_name page_num text st) = results st
      /\ processed_urls (walk_page pdf_name page_num text st)
         = processed_urls st).
Proof.
  intros Hsplit Hpre.
  assert (E1 : walk_lines pdf_name page_num (pre ++ post) 0 pre (page_start st)
               = page_start st) by (by apply walk_lines_idle).
  assert (E2 : walk_page pdf_name page_num text st
     = walk_lines pdf_name page_num (pre ++ post) (length pre) post
         (page_start st)).
  { unfold walk_page. fold (page_start st). rewrite Hsplit.
    by rewrite walk_lines_app, E1. }
  split_and!; [done..|]. intros ->. by rewrite E2.
Qed.

Lemma discovery_target_reset_per_page_witness :
  let line := "Uptime Stats: Up: 99.50 % [06d 23h 59m 41s] Down: 0.50 % [00d 00h 10m 00s]" in
  let st := {| current_url := Some "ash.buenosaires.gob.ar/";
               current_probe_line := Some "Probe, Group, Device: ash.buenosaires.gob.ar";
               processed_urls := ∅; results := [] |} in
  Py.split_char newline line = [line] ++ []
  /\ Forall (fun l => Py.contains declaration_marker l = false) [line]
  /\ results (walk_page "report.pdf" 1 line st) = [].
Proof.
  intros line st.
  assert (H1 : Py.split_char newline line = [line] ++ []) by reflexivity.
  assert (H2 : Forall (fun l => Py.contains declaration_marker l = false) [line]).
  { constructor; [reflexivity | constructor]. }
  split; [exact H1 | split; [exact H2|]].
  exact (proj1 (proj2 (proj2
    (discovery_target_reset_per_page "report.pdf" 1 line st [line] [] H1 H2))
    eq_refl)).
Defined.

(** C6, evaluated on a declaration line that carries the subpath target
    with its scheme: the line contains both the form of the main address and
    the longer form [buenosaires.gob.ar/tramites]; the chain tests the form
    of the main address first, so the line is classified as the main
    address and the record of the page is attributed to it. *)
Theorem classify_main_form_tested_first :
  let line :=
    "Probe, Group, Device: Local Probe > https://buenosaires.gob.ar/tramites" in
  let stats :=
    "Uptime Stats: Up: 99.50 % [06d 23h 59m 41s] Down: 0.50 % [00d 00h 10m 00s]" in
  Py.contains "> https://buenosaires.gob.ar/" line = true
  /\ Py.contains "buenosaires.gob.ar/tramites" line = true
  /\ classify line None = Some "https://buenosaires.gob.ar/"
  /\ map url (extract_all_urls_from_pdf "report.pdf"
                [line +:+ String newline stats])
     = ["https://buenosaires.gob.ar/"]
  /\ guard line "https://buenosaires.gob.ar/" = false.
Proof. vm_compute. repeat split; reflexivity. Qed.

(** ** Single-target mode: the guard *)

Lemma after_prefix_app (t r : string) : Py.after_prefix t (t +:+ r) = Some r.
Proof.
  induction t as [|b t IH]; [by destruct r|].
  rewrite str_app_cons. simpl. by rewrite Ascii.eqb_refl.
Qed.

Lemma only_as_strict_prefix_suffix (t pre s : string) :
  only_as_strict_prefix t (pre +:+ s) = true -> only_as_strict_prefix t s = true.
Proof.
  induction pre as [|a pre IH]; [done|].
  rewrite str_app_cons. simpl. intros [_ H]%andb_true_iff. by apply IH.
Qed.

Lemma endswith_cons (a : ascii) (s t : string) :
  Py.endswith (String a s) t = String.eqb (String a s) t || Py.endswith s t.
Proof. reflexivity. Qed.

Lemma endswith_inv (s t : string) :
  Py.endswith s t = true -> exists x, s = x +:+ t.
Proof.
  induction s as [|a s IH]; intros H.
  - destruct t; [by exists ""|done].
  - rewrite endswith_cons in H. apply orb_true_iff in H as [H|H].
    + apply String.eqb_eq in H as <-. by exists "".
    + apply IH in H as [x ->]. by exists (String a x).
Qed.

Lemma lstrip_split (s : string) :
  exists ws, s = ws +:+ Py.lstrip_with Py.is_space s.
Proof.
  induction s as [|a s [ws IH]]; [by exists ""|]. simpl.
  destruct (Py.is_space a); [|by exists ""].
  exists (String a ws). by rewrite str_app_cons, <-IH.
Qed.

Lemma rstrip_split (s : string) :
  exists ws, s = Py.rstrip_with Py.is_space s +:+ ws /\ blank_head ws = true.
Proof.
  induction s as [|a s (ws & IH & Hws)]; [by exists ""|]. simpl.
  destruct (Py.rstrip_with Py.is_space s) as [|b r].
  - rewrite str_app_nil_l in IH. subst ws.
    destruct (Py.is_space a) eqn:Ha.
    + by exists (String a s).
    + by exists s.
  - exists ws. split; [|done]. by rewrite str_app_cons, <-IH.
Qed.

Lemma only_as_strict_prefix_unfold (t s : string) :
  only_as_strict_prefix t s = true ->
  match Py.after_prefix t s with
  | Some r => blank_head r = false
  | None => True
  end.
Proof.
  intros H.
  assert (G : match Py.after_prefix t s with
              | Some (String c _) => negb (Py.is_space c)
              | Some EmptyString => false
              | None => true
              end = true).
  { destruct s; simpl in H; by apply andb_true_iff in H as [H _]. }
  destruct (Py.after_prefix t s) as [[|c r]|]; [done | | done].
  simpl. by apply negb_true_iff.
Qed.

(** The guard rejects a line in which the target only starts a longer
    word: what follows the target at the end of the stripped line is
    blank. *)
Lemma strict_prefix_not_ending (t line : string) :
  only_as_strict_prefix t line = true ->
  Py.endswith (Py.strip line) t = false.
Proof.
  intros H. destruct (Py.endswith (Py.strip line) t) eqn:E; [|done].
  apply endswith_inv in E as [x Ex]. unfold Py.strip in Ex.
  destruct (lstrip_split line) as [ws1 E1].
  destruct (rstrip_split (Py.lstrip_with Py.is_space line)) as (ws2 & E2 & Hws2).
  assert (Eline : line = (ws1 +:+ x) +:+ t +:+ ws2).
  { rewrite E1, E2, Ex. by rewrite !str_app_assoc. }
  rewrite Eline in H. apply only_as_strict_prefix_suffix in H.
  apply only_as_strict_prefix_unfold in H. rewrite after_prefix_app in H.
  congruence.
Qed.

Lemma scan_lines_declares (pdf_name target_url : string) (page_num : nat)
    (lines : list string) (i : nat) (rest : list string) (r : UptimeRecord) :
  scan_lines pdf_name target_url page_num lines i rest = Some r ->
  exists line, line ∈ rest /\ declares line target_url = true.
Proof.
  revert i. induction rest as [|l rest IH]; intros i H; [done|].
  simpl in H. destruct (declares l target_url) eqn:Hd.
  - exists l. split; [apply list_elem_of_here | done].
  - apply IH in H as (line & Hin & Hl). exists line.
    split; [by apply list_elem_of_further | done].
Qed.

Lemma scan_pages_declares (pdf_name target_url : string) (page_num : nat)
    (pages : list string) (r : UptimeRecord) :
  scan_pages pdf_name target_url page_num pages = Some r ->
  exists text line,
    text ∈ pages /\ line ∈ Py.split_char newline text
    /\ declares line target_url = true.
Proof.
  revert page_num. induction pages as [|t pages IH]; intros n H; [done|].
  simpl in H. destruct (scan_page pdf_name target_url n t) as [r'|] eqn:E.
  - unfold scan_page in E. destruct (Py.contains target_url t); [|done].
    apply scan_lines_declares in E as (line & Hin & Hl).
    exists t, line. split; [apply list_elem_of_here | done].
  - apply IH in H as (text & line & Hin & Hl). exists text, line.
    split; [by apply list_elem_of_further | done].
Qed.

(** C5: in single-target mode a declaration line matches only if it has
    neither of the two subpath markers and, once stripped, ends with the
    target; a line in which the target only occurs as the strict prefix of
    a longer word is rejected; and a record is only ever produced for a
    line that passes the guard, so a document whose lines all have the
    target as a strict prefix only gives no record. *)
Theorem guard_rejects_longer_targets (target_url : string) :
  (forall line : string,
     declares line target_url = true ->
     Py.contains declaration_marker line = true
     /\ Py.contains target_url line = true
     /\ Py.contains "/tramites" line = false
     /\ Py.contains "/educacion" line = false
     /\ Py.endswith (Py.strip line) target_url = true)
  /\ (forall line : string,
        only_as_strict_prefix target_url line = true ->
        guard line target_url = false /\ declares line target_url = false)
  /\ (forall (pdf_name : string) (pages : list string) (r : UptimeRecord),
        extract_uptime_stats pdf_name pages target_url = Some r ->
        exists text line,
          text ∈ pages /\ line ∈ Py.split_char newline text
          /\ declares line target_url = true)
  /\ (forall (pdf_name : string) (pages : list string),
        (forall text line,
           text ∈ pages -> line ∈ Py.split_char newline text ->
           only_as_strict_prefix target_url line = true) ->
        extract_uptime_stats pdf_name pages target_url = None).
Proof.
  assert (Hreject : forall line,
    only_as_strict_prefix target_url line = true ->
    guard line target_url = false /\ declares line target_url = false).
  { intros line H. apply strict_prefix_not_ending in H.
    unfold declares, guard. rewrite H. by rewrite !andb_false_r. }
  split_and!.
  - intros line H. unfold declares, guard in H.
    apply andb_true_iff in H as [[H1 H2]%andb_true_iff H3].
    apply andb_true_iff in H3 as [[H3 H4]%andb_true_iff H5].
    apply negb_true_iff in H3, H4. done.
  - exact Hreject.
  - intros pdf_name pages r. apply scan_pages_declares.
  - intros pdf_name pages Hall.
    destruct (extract_uptime_stats pdf_name pages target_url) as [r|] eqn:E;
      [|done].
    apply scan_pages_declares in E as (text & line & Ht & Hl & Hd).
    destruct (Hreject line (Hall _ _ Ht Hl)) as [_ Hn]. congruence.
Qed.

Lemma guard_rejects_longer_targets_witness :
  let line :=
    "Probe, Group, Device: Local Probe > https://buenosaires.gob.ar/tramites" in
  only_as_strict_prefix "https://buenosaires.gob.ar/" line = true
  /\ declares line "https://buenosaires.gob.ar/" = false.
Proof.
  intros line. split; [reflexivity|].
  apply (proj1 (proj2 (guard_rejects_longer_targets
                         "https://buenosaires.gob.ar/")) line).
  reflexivity.
Defined.

(** ** Single-target mode: the pages *)

Section ScanPages.
Variables pdf_name target_url : string.

Lemma scan_pages_none (page_num : nat) (pages : list string) :
  scan_pages pdf_name target_url page_num pages = None <->
  forall n text,
    pages !! n = Some text ->
    scan_page pdf_name target_url (page_num + n) text = None.
Proof.
  revert page_num. induction pages as [|t pages IH]; intros k; simpl.
  - split; [|done]. intros _ n text H. by rewrite lookup_nil in H.
  - destruct (scan_page pdf_name target_url k t) eqn:E.
    + split; [done|]. intros H. specialize (H O t eq_refl).
      rewrite Nat.add_0_r in H. congruence.
    + rewrite IH. split.
      * intros H [|n] text Hn.
        -- injection Hn as <-. by rewrite Nat.add_0_r.
        -- replace (k + S n)%nat with (S k + n)%nat by lia. by apply H.
      * intros H n text Hn.
        replace (S k + n)%nat with (k + S n)%nat by lia. by apply H.
Qed.

Lemma scan_pages_first (page_num : nat) (pages : list string) (n : nat)
    (text : string) (r : UptimeRecord) :
  pages !! n = Some text ->
  scan_page pdf_name target_url (page_num + n) text = Some r ->
  (forall m text', (m < n)%nat -> pages !! m = Some text' ->
     scan_page pdf_name target_url (page_num + m) text' = None) ->
  scan_pages pdf_name target_url page_num pages = Some r.
Proof.
  revert page_num n. induction pages as [|t pages IH]; intros k n Hn Hr Hbefore.
  - by rewrite lookup_nil in Hn.
  - simpl. destruct n as [|n].
    + injection Hn as ->. rewrite Nat.add_0_r in Hr. by rewrite Hr.
    + specialize (Hbefore O t ltac:(lia) eq_refl) as H0.
      rewrite Nat.add_0_r in H0. rewrite H0.
      apply (IH (S k) n); [done | |].
      * by replace (S k + n)%nat with (k + S n)%nat by lia.
      * intros m text' Hm Hl.
        replace (S k + m)%nat with (k + S m)%nat by lia.
        apply Hbefore; [lia | done].
Qed.
End ScanPages.

(** C2 as amended: single-target extraction takes the pages in order,
    looks for the record on every page whose text contains the target, and
    returns the record of the first page on which the search succeeds; a
    page that contains the target but gives no match does not end the
    scan, and the result is empty only when no page gives a match. *)
Theorem single_target_first_matching_page (pdf_name target_url : string)
    (pages : list string) :
  (forall (n : nat) (text : string),
     Py.contains target_url text = false ->
     scan_page pdf_name target_url n text = None)
  /\ (extract_uptime_stats pdf_name pages target_url = None <->
      forall n text,
        pages !! n = Some text ->
        scan_page pdf_name target_url n text = None)
  /\ (forall (n : nat) (text : string) (r : UptimeRecord),
        pages !! n = Some text ->
        scan_page pdf_name target_url n text = Some r ->
        (forall m text', (m < n)%nat -> pages !! m = Some text' ->
           scan_page pdf_name target_url m text' = None) ->
        extract_uptime_stats pdf_name pages target_url = Some r).
Proof.
  split_and!.
  - intros n text H. unfold scan_page. by rewrite H.
  - apply (scan_pages_none pdf_name target_url 0 pages).
  - intros n text r. apply (scan_pages_first pdf_name target_url 0 pages n).
Qed.

Lemma single_target_first_matching_page_witness :
  let page1 := "Sensors of https://example.org/ are listed on the next page" in
  option_map pagina
    (extract_uptime_stats "report.pdf" [page1; example_page] example_target)
  = Some 2.
Proof.
  intros page1.
  destruct (scan_page "report.pdf" example_target 1 example_page) as [r|] eqn:E;
    [|vm_compute in E; discriminate].
  rewrite (proj2 (proj2 (single_target_first_matching_page "report.pdf"
             example_target [page1; example_page])) 1%nat example_page r);
    [ | reflexivity | exact E | ].
  - vm_compute in E. injection E as <-. reflexivity.
  - intros [|m] text' Hm Hl; [|lia]. injection Hl as <-. reflexivity.
Defined.

(** The statement of C2 in the specification fails on a report of two
    pages whose first page names the target without a record for it and
    whose second page holds the record: the first page contains the target
    and gives no match, yet the extraction returns the record of page 2. *)
Lemma single_target_first_page_only_counterexample :
  let page1 := "Sensors of https://example.org/ are listed on the next page" in
  ~ (Py.contains example_target page1 = true ->
     scan_page "report.pdf" example_target 0 page1 = None ->
     extract_uptime_stats "report.pdf" [page1; example_page] example_target
     = None).
Proof.
  intros page1 H. specialize (H eq_refl eq_refl). vm_compute in H. discriminate.
Qed.

(** ** Lines of a page *)

Lemma split_char_head (c : ascii) (s : string) :
  exists x xs b, Py.split_char c s = x :: xs /\ s = x +:+ b.
Proof.
  induction s as [|a s (x & xs & b & IH & E)].
  - by exists "", [], "".
  - simpl. destruct (Ascii.eqb a c).
    + by exists "", (Py.split_char c s), (String a s).
    + rewrite IH. exists (String a x), xs, b. by rewrite str_app_cons, <-E.
Qed.

Lemma split_char_elem (c : ascii) (s l : string) :
  l ∈ Py.split_char c s -> exists a b, s = a +:+ l +:+ b.
Proof.
  revert l. induction s as [|x s IH]; intros l H.
  - apply list_elem_of_singleton in H as ->. by exists "", "".
  - simpl in H. destruct (Ascii.eqb x c).
    + apply elem_of_cons in H as [->|H].
      * by exists "", (String x s).
      * apply IH in H as (a & b & ->). by exists (String x a), b.
    + destruct (split_char_head c s) as (y & ys & b & E & Es).
      rewrite E in H, IH. apply elem_of_cons in H as [->|H].
      * exists "", b. by rewrite str_app_nil_l, str_app_cons, <-Es.
      * destruct (IH l) as (a & b' & ->); [by apply list_elem_of_further|].
        by exists (String x a), b'.
Qed.

Lemma line_contains (t text l : string) :
  l ∈ Py.split_char newline text -> Py.contains t l = true ->
  Py.contains t text = true.
Proof.
  intros (a & b & ->)%split_char_elem H.
  apply (contains_trans t l); [done | apply contains_app].
Qed.

Lemma scan_lines_skip (pdf_name target_url : string) (page_num : nat)
    (lines pre rest : list string) (i : nat) :
  Forall (fun l => declares l target_url = false) pre ->
  scan_lines pdf_name target_url page_num lines i (pre ++ rest)
  = scan_lines pdf_name target_url page_num lines (i + length pre) rest.
Proof.
  intros H. revert i. induction H as [|l pre Hl _ IH]; intros i; simpl.
  - by rewrite Nat.add_0_r.
  - rewrite Hl, IH. f_equal. lia.
Qed.

(** C1 as amended: a one-page report whose lines hold the declaration line
    of the example immediately followed by its statistics line, after lines
    none of which is itself a declaration line that matches the target,
    gives exactly one record for the target [https://example.org/], on
    page 1, whose downtime decodes to 600 seconds and whose uptime decodes
    to 604781 seconds (6*86400 + 23*3600 + 59*60 + 41). *)
Theorem end_to_end_example (pdf_name text : string) (pre post : list string) :
  Py.split_char newline text
  = pre ++ [example_declaration; example_statistics] ++ post ->
  Forall (fun l => declares l example_target = false) pre ->
  exists r,
    extract_uptime_stats pdf_name [text] example_target = Some r
    /\ url r = example_target
    /\ uptime_duracion r = "06d 23h 59m 41s"
    /\ downtime_duracion r = "00d 00h 10m 00s"
    /\ pagina r = 1
    /\ downtime_segundos r = 600
    /\ uptime_segundos r = 604781.
Proof.
  intros Hsplit Hpre.
  assert (Htext : Py.contains example_target text = true).
  { apply (line_contains _ _ example_declaration); [|reflexivity].
    rewrite Hsplit. apply elem_of_app. right. apply list_elem_of_here. }
  set (lines := pre ++ [example_declaration; example_statistics] ++ post) in *.
  set (i := length pre).
  assert (Hi : lines !! i = Some example_declaration).
  { by apply list_lookup_middle. }
  assert (Hj : lines !! S i = Some example_statistics).
  { unfold lines. rewrite lookup_app_r by (unfold i; lia).
    by replace (S i - length pre)%nat with 1%nat by (unfold i; lia). }
  assert (Hlen : exists k, (Nat.min (i + 10) (length lines) - i = S (S k))%nat).
  { unfold lines. rewrite !length_app. simpl. fold i.
    exists (Nat.min (i + 10) (i + S (S (length post))) - i - 2)%nat. lia. }
  destruct Hlen as [k Hlen].
  assert (Hup : up_match example_statistics
                = Some ("99.50", "%", "06d 23h 59m 41s"))
    by (vm_compute; reflexivity).
  assert (Hdown : down_match example_statistics
                  = Some ("0.50", "%", "00d 00h 10m 00s"))
    by (vm_compute; reflexivity).
  eexists. split.
  - unfold extract_uptime_stats. cbn [scan_pages]. unfold scan_page.
    rewrite Htext, Hsplit. fold lines.
    unfold lines at 2. rewrite scan_lines_skip by done. fold i.
    cbn [app scan_lines Nat.add].
    change (declares example_declaration example_target) with true.
    cbn iota. rewrite Hlen. cbn [seq stats_window]. rewrite Hi, Hj.
    change (Py.contains stats_marker example_declaration) with false.
    change (Py.contains stats_marker example_statistics) with true.
    cbn iota. rewrite Hup, Hdown. reflexivity.
  - match goal with
    | |- context [enrich_guarded ?l ?ks ?r] =>
        pose proof (enrich_guarded_core l ks r) as Hcore
    end.
    unfold uptime_segundos, downtime_segundos.
    unfold core in Hcore. simpl in Hcore.
    injection Hcore as _ -> _ _ -> _ _ -> ->.
    split_and!; try reflexivity; vm_compute; reflexivity.
Qed.

Lemma end_to_end_example_witness :
  exists r,
    extract_uptime_stats "report.pdf" [example_page] example_target = Some r
    /\ downtime_segundos r = 600 /\ uptime_segundos r = 604781.
Proof.
  destruct (end_to_end_example "report.pdf" example_page [] [])
    as (r & H & _ & _ & _ & _ & Hd & Hu);
    [reflexivity | constructor |].
  exists r. split; [exact H | split; [exact Hd | exact Hu]].
Defined.

(** The statement of C1 in the specification fails on the report that
    consists of the two lines of the example: its record decodes to 604781
    seconds of uptime, not to 603581. *)
Lemma end_to_end_example_counterexample :
  ~ (exists r,
       extract_uptime_stats "report.pdf" [example_page] example_target = Some r
       /\ downtime_segundos r = 600 /\ uptime_segundos r = 603581).
Proof.
  intros (r & H & _ & Hu). vm_compute in H. injection H as <-.
  vm_compute in Hu. discriminate.
Qed.

(** ** The statistics line of the reports *)

Lemma all_chars_app (p : ascii -> bool) (s t : string) :
  all_chars p (s +:+ t) = all_chars p s && all_chars p t.
Proof.
  induction s as [|c s IH]; [by rewrite str_app_nil_l|].
  rewrite str_app_cons. simpl. by rewrite IH, andb_assoc.
Qed.

Lemma all_chars_impl (p q : ascii -> bool) (s : string) :
  (forall c, p c = true -> q c = true) ->
  all_chars p s = true -> all_chars q s = true.
Proof.
  intros Hpq. induction s as [|c s IH]; [done|]. simpl.
  intros [Hc Hs]%andb_true_iff. by rewrite (Hpq c Hc), IH.
Qed.

Lemma head_outside_app (p q : ascii -> bool) (s t : string) :
  s <> "" -> all_chars q s = true ->
  (forall c, q c = true -> p c = false) ->
  head_outside p (s +:+ t).
Proof.
  intros Hne Hs Hqp. destruct s as [|c s]; [done|].
  rewrite str_app_cons. simpl in *.
  apply andb_true_iff in Hs as [Hc _]. by apply Hqp.
Qed.

(** A repetition takes all of a run that something outside the class
    closes, when what follows the repetition then succeeds. *)
Lemma star_longest {A} (p : ascii -> bool) (g rest : string)
    (k : string -> string -> option A) (a : A) :
  all_chars p g = true -> head_outside p rest -> k g rest = Some a ->
  Re.star p (g +:+ rest) k = Some a.
Proof.
  revert k. induction g as [|c g IH]; intros k Hg Hrest Hk.
  - rewrite str_app_nil_l. destruct rest as [|c r]; [done|].
    simpl in *. by rewrite Hrest.
  - rewrite str_app_cons. simpl in *.
    apply andb_true_iff in Hg as [-> Hg].
    by rewrite (IH (fun g r => k (String c g) r)).
Qed.

Lemma plus_longest {A} (p : ascii -> bool) (g rest : string)
    (k : string -> string -> option A) (a : A) :
  g <> "" -> all_chars p g = true -> head_outside p rest ->
  k g rest = Some a ->
  Re.plus p (g +:+ rest) k = Some a.
Proof.
  intros Hne Hg Hrest Hk. unfold Re.plus.
  apply star_longest; [done | done |]. by destruct g.
Qed.

Lemma lit_app {A} (l r : string) (k : string -> option A) :
  Re.lit l (l +:+ r) k = k r.
Proof. unfold Re.lit. by rewrite after_prefix_app. Qed.

Lemma digit_or_dot_not_space (c : ascii) :
  is_digit_or_dot c = true -> Py.is_space c = false.
Proof.
  unfold is_digit_or_dot. intros [H|H]%orb_true_iff.
  - by apply digit_not_space.
  - apply Ascii.eqb_eq in H as ->. reflexivity.
Qed.

(** The pattern of a label matches where the label is followed by a blank,
    a percentage, [ % ] and a bracketed token. *)
Lemma stat_pattern_hit (label p D rest : string) :
  percent_text p -> duration_text D ->
  stat_pattern label
    (label +:+ " " +:+ p +:+ " % [" +:+ D +:+ "]" +:+ rest)
  = Some (p, "%", D).
Proof.
  intros [Hp Hpc] [HD HDc]. unfold stat_pattern. rewrite lit_app.
  apply (star_longest Py.is_space " "); [done | |].
  { by apply (head_outside_app _ is_digit_or_dot);
      [| | apply digit_or_dot_not_space]. }
  apply plus_longest; [done | done | done |].
  apply (star_longest Py.is_space " " ("%" +:+ " [" +:+ D +:+ "]" +:+ rest));
    [done | done |].
  rewrite lit_app.
  apply (star_longest Py.is_space " " ("[" +:+ D +:+ "]" +:+ rest));
    [done | done |].
  rewrite lit_app.
  apply plus_longest; [done | done | done |].
  by rewrite lit_app.
Qed.

Lemma search_cons {A} (m : string -> option A) (c : ascii) (s : string) :
  Re.search m (String c s)
  = match m (String c s) with
    | Some a => Some a
    | None => Re.search m s
    end.
Proof. reflexivity. Qed.

(** The search for a label passes over text without the first letter of
    the label. *)
Lemma search_skip_chars (c0 : ascii) (label pre rest : string) :
  all_chars (fun c => negb (Ascii.eqb c c0)) pre = true ->
  Re.search (stat_pattern (String c0 label)) (pre +:+ rest)
  = Re.search (stat_pattern (String c0 label)) rest.
Proof.
  induction pre as [|c pre IH]; [by rewrite str_app_nil_l|].
  simpl all_chars. intros [Hc Hpre]%andb_true_iff. apply negb_true_iff in Hc.
  rewrite str_app_cons, search_cons.
  assert (stat_pattern (String c0 label) (String c (pre +:+ rest)) = None)
    as ->; [|by apply IH].
  unfold stat_pattern, Re.lit. simpl. by rewrite Hc.
Qed.

Lemma contains_free (c0 : ascii) (t s : string) :
  all_chars (fun c => negb (Ascii.eqb c c0)) s = true ->
  Py.contains (String c0 t) s = false.
Proof.
  induction s as [|c s IH]; [done|].
  simpl all_chars. intros [Hc Hs]%andb_true_iff. apply negb_true_iff in Hc.
  rewrite contains_cons, (IH Hs). simpl. by rewrite Hc.
Qed.

Lemma digit_or_dot_lower (c0 : ascii) :
  (65 <= Py.ord c0 <= 90) ->
  forall c, is_digit_or_dot c = true -> negb (Ascii.eqb c c0) = true.
Proof.
  intros H0 c H. apply negb_true_iff, Ascii.eqb_neq. intros ->.
  unfold is_digit_or_dot, Py.is_digit in H.
  apply orb_true_iff in H as [H|H].
  - apply andb_true_iff in H as [_ H%Z.leb_le]. lia.
  - apply Ascii.eqb_eq in H. subst c0. unfold Py.ord in H0. simpl in H0. lia.
Qed.

Lemma duration_char_lower (c0 : ascii) :
  (65 <= Py.ord c0 <= 93) ->
  forall c, duration_char c = true -> negb (Ascii.eqb c c0) = true.
Proof.
  intros H0 c H. apply negb_true_iff, Ascii.eqb_neq. intros ->.
  unfold duration_char, Py.is_digit in H. simpl in H.
  repeat (apply orb_true_iff in H as [H|H]);
    try (apply Ascii.eqb_eq in H; subst c0; unfold Py.ord in H0;
         simpl in H0; lia);
    try done.
  apply andb_true_iff in H as [_ H%Z.leb_le]. lia.
Qed.

Lemma token_duration_text (D : string) : token_text D -> duration_text D.
Proof.
  intros [Hne H]. split; [done|]. revert H. apply all_chars_impl.
  apply (duration_char_lower "]"). vm_compute; split; discriminate.
Qed.

(** The line of the reports is no declaration line, bears the statistics
    marker, and the two patterns read its four texts. *)
Lemma statistics_line_matches (p1 D1 p2 D2 : string) :
  percent_text p1 -> token_text D1 -> percent_text p2 -> token_text D2 ->
  let s := statistics_line p1 D1 p2 D2 in
  Py.contains declaration_marker s = false
  /\ Py.contains stats_marker s = true
  /\ up_match s = Some (p1, "%", D1)
  /\ down_match s = Some (p2, "%", D2).
Proof.
  intros Hp1 HD1 Hp2 HD2 s.
  pose proof (token_duration_text D1 HD1) as HD1'.
  pose proof (token_duration_text D2 HD2) as HD2'.
  destruct Hp1 as [Hp1 Hc1], HD1 as [HD1 Ht1], Hp2 as [Hp2 Hc2],
    HD2 as [HD2 Ht2].
  split_and!.
  - apply (contains_free "P"). unfold s, statistics_line.
    rewrite !all_chars_app.
    rewrite (all_chars_impl _ _ p1 (digit_or_dot_lower "P" ltac:(vm_compute; split; discriminate)) Hc1).
    rewrite (all_chars_impl _ _ p2 (digit_or_dot_lower "P" ltac:(vm_compute; split; discriminate)) Hc2).
    rewrite (all_chars_impl _ _ D1 (duration_char_lower "P" ltac:(vm_compute; split; discriminate)) Ht1).
    rewrite (all_chars_impl _ _ D2 (duration_char_lower "P" ltac:(vm_compute; split; discriminate)) Ht2).
    reflexivity.
  - change s with ("" +:+ stats_marker +:+ (" Up: " +:+ p1 +:+ " % [" +:+ D1
                   +:+ "] Down: " +:+ p2 +:+ " % [" +:+ D2 +:+ "]")).
    apply contains_app.
  - unfold up_match.
    change s with
      (String "U" ("ptime Stats: " +:+
         ("Up:" +:+ " " +:+ p1 +:+ " % [" +:+ D1 +:+ "]" +:+
            (" Down: " +:+ p2 +:+ " % [" +:+ D2 +:+ "]")))).
    rewrite search_cons.
    change (stat_pattern "Up:" (String "U" ("ptime Stats: " +:+ _)))
      with (@None (string * string * string)).
    rewrite (search_skip_chars "U" "p:") by reflexivity.
    apply search_found. by apply stat_pattern_hit.
  - unfold down_match.
    change s with
      ("Uptime Stats: Up: " +:+ (p1 +:+ (" % [" +:+ (D1 +:+ ("] " +:+
         ("Down:" +:+ " " +:+ p2 +:+ " % [" +:+ D2 +:+ "]" +:+ "")))))).
    rewrite (search_skip_chars "D" "own:") by reflexivity.
    rewrite (search_skip_chars "D" "own:")
      by (revert Hc1; apply all_chars_impl, (digit_or_dot_lower "D");
          vm_compute; split; discriminate).
    rewrite (search_skip_chars "D" "own:") by reflexivity.
    rewrite (search_skip_chars "D" "own:")
      by (revert Ht1; apply all_chars_impl, (duration_char_lower "D");
          vm_compute; split; discriminate).
    rewrite (search_skip_chars "D" "own:") by reflexivity.
    apply search_found. by apply stat_pattern_hit.
Qed.

Section PassedOver.
Variable pdf_name : string.
Variable page_num : nat.
Variable lines : list string.

Lemma step_line_passed_over (i : nat) (l : string) (st : walk_state) :
  passed_over l ->
  let st' := step_line pdf_name page_num lines i l st in
  current_url st' = current_url st /\ results st' = results st
  /\ processed_urls st' = processed_urls st.
Proof.
  intros [[Hd Hr]|[Hd Hs]].
  - by apply step_line_unrecognised.
  - intros st'. unfold st', step_line. rewrite Hd.
    destruct (current_url st) as [u|] eqn:Ec; [|done].
    destruct Hs as [Hs|[Hu|Hw]].
    + by rewrite Hs.
    + rewrite Hu. by destruct (_ && _ && _).
    + rewrite Hw. by destruct (_ && _ && _), (up_match l).
Qed.

Lemma walk_lines_passed_over (i : nat) (fill : list string) (st : walk_state) :
  Forall passed_over fill ->
  let st' := walk_lines pdf_name page_num lines i fill st in
  current_url st' = current_url st /\ results st' = results st
  /\ processed_urls st' = processed_urls st.
Proof.
  intros H. revert i st. induction H as [|l fill Hl _ IH]; intros i st; [done|].
  simpl. destruct (IH (S i) (step_line pdf_name page_num lines i l st))
    as (-> & -> & ->).
  by apply step_line_passed_over.
Qed.
End PassedOver.

(** C10 as amended: a declaration line in which the chain finds none of its
    literal forms leaves the current target as it was.  On a page where the
    declaration line [d1] of a known target [u] is followed by such a line
    [d2], then by any lines that discovery mode passes over, then by the
    statistics line of the reports, the target is still [u] after [d2] and
    nothing has been recorded.  The statistics line then adds exactly one
    record, for [u], with the two percentages and the two duration tokens
    of the line, when [u] has not been recorded before in the document; when
    it has, the line adds nothing. *)
Theorem unrecognised_declaration_keeps_target (pdf_name : string)
    (page_num : nat) (pre fill post : list string)
    (d1 d2 u p1 D1 p2 D2 : string) (st : walk_state) :
  let s := statistics_line p1 D1 p2 D2 in
  let lines := pre ++ d1 :: d2 :: fill ++ s :: post in
  let st1 := walk_lines pdf_name page_num lines 0 pre st in
  let st3 := walk_lines pdf_name page_num lines 0 (pre ++ [d1; d2]) st in
  let st4 :=
    walk_lines pdf_name page_num lines 0 (pre ++ d1 :: d2 :: fill ++ [s]) st in
  Py.contains declaration_marker d1 = true -> classify d1 None = Some u ->
  Py.contains declaration_marker d2 = true -> recognised d2 = false ->
  Forall passed_over fill ->
  percent_text p1 -> token_text D1 -> percent_text p2 -> token_text D2 ->
  current_url st3 = Some u
  /\ results st3 = results st1
  /\ processed_urls st3 = processed_urls st1
  /\ (u ∉ processed_urls st1 ->
      exists r,
        results st4 = results st1 ++ [r]
        /\ archivo_pdf r = pdf_name /\ url r = u
        /\ uptime_porcentaje r = p1 /\ uptime_unidad r = "%"
        /\ uptime_duracion r = D1
        /\ downtime_porcentaje r = p2 /\ downtime_unidad r = "%"
        /\ downtime_duracion r = D2
        /\ pagina r = Z.of_nat page_num + 1)
  /\ (u ∈ processed_urls st1 -> results st4 = results st1).
Proof.
  intros s lines st1 st3 st4 Hd1 Hc1 Hd2 Hr2 Hfill Hp1 HD1 Hp2 HD2.
  destruct (statistics_line_matches p1 D1 p2 D2 Hp1 HD1 Hp2 HD2)
    as (Hds & Hs & Hup & Hdown).
  fold s in Hds, Hs, Hup, Hdown.
  destruct (classify_known d1 u Hc1) as [Hhost Htruthy].
  set (step := step_line pdf_name page_num lines).
  set (i := (0 + length pre)%nat).
  set (st2 := step i d1 st1).
  assert (E3 : st3 = step (S i) d2 st2).
  { unfold st3, st2, st1. by rewrite !walk_lines_app. }
  assert (F2 : current_url st2 = Some u /\ results st2 = results st1
               /\ processed_urls st2 = processed_urls st1).
  { unfold st2, step, step_line. rewrite Hd1, Hhost. simpl.
    by rewrite (classify_recognised d1 u). }
  destruct F2 as (C2 & R2 & P2).
  destruct (step_line_unrecognised pdf_name page_num lines (S i) d2 st2 Hd2 Hr2)
    as (C3 & R3 & P3).
  fold step in C3, R3, P3. rewrite <-E3 in C3, R3, P3.
  rewrite C2 in C3. rewrite R2 in R3. rewrite P2 in P3.
  set (st3' := walk_lines pdf_name page_num lines (S (S i)) fill st3).
  destruct (walk_lines_passed_over pdf_name page_num lines (S (S i)) fill st3
              Hfill) as (C3' & R3' & P3').
  fold st3' in C3', R3', P3'. rewrite C3 in C3'. rewrite R3 in R3'.
  rewrite P3 in P3'.
  assert (E4 : st4 = step (S (S i) + length fill)%nat s st3').
  { unfold st4, st3', st3.
    replace (pre ++ d1 :: d2 :: fill ++ [s])
      with ((pre ++ [d1; d2]) ++ fill ++ [s])
      by (by rewrite <-app_assoc).
    rewrite (walk_lines_app _ _ _ (pre ++ [d1; d2])).
    rewrite (walk_lines_app _ _ _ fill). rewrite length_app. simpl.
    unfold step, i. do 2 f_equal; lia. }
  split_and!; [done | done | done | |].
  - intros Hu. rewrite E4. unfold step, step_line.
    rewrite Hds, C3', Hs, Htruthy, P3'.
    rewrite bool_decide_eq_false_2 by done. simpl. rewrite Hup, Hdown. simpl.
    eexists. split; [by rewrite R3'|].
    match goal with
    | |- context [enrich ?l ?ks ?r] => pose proof (enrich_core l ks r) as Hcore
    end.
    unfold core in Hcore. simpl in Hcore.
    injection Hcore as -> -> -> -> -> -> -> -> ->. done.
  - intros Hu. rewrite E4. unfold step, step_line.
    rewrite Hds, C3', Hs, Htruthy, P3'.
    rewrite bool_decide_eq_true_2 by done. by simpl.
Qed.

Lemma unrecognised_declaration_keeps_target_witness :
  let d1 := "Probe, Group, Device: Local Probe > ash.buenosaires.gob.ar" in
  let d2 := "Probe, Group, Device: Local Probe > example.org" in
  let filler := "Sensor Type: HTTP Advanced" in
  let s := "Uptime Stats: Up: 99.50 % [06d 23h 59m 41s] Down: 0.50 % [00d 00h 10m 00s]" in
  map (fun r => (url r, uptime_porcentaje r, uptime_duracion r,
                 downtime_porcentaje r, downtime_duracion r, pagina r))
    (results
       (walk_lines "report.pdf" 0 [d1; d2; filler; s] 0 [d1; d2; filler; s]
          initial_state))
  = [("ash.buenosaires.gob.ar/", "99.50", "06d 23h 59m 41s",
      "0.50", "00d 00h 10m 00s", 1)].
Proof.
  intros d1 d2 filler s.
  destruct (unrecognised_declaration_keeps_target "report.pdf" 0 [] [filler] []
              d1 d2 "ash.buenosaires.gob.ar/"
              "99.50" "06d 23h 59m 41s" "0.50" "00d 00h 10m 00s"
              initial_state)
    as (_ & _ & _ & Hrec & _);
    [ reflexivity | reflexivity | reflexivity | reflexivity
    | constructor; [right; split; [reflexivity | left; reflexivity]
                   | constructor]
    | split; [discriminate | reflexivity]
    | split; [discriminate | reflexivity]
    | split; [discriminate | reflexivity]
    | split; [discriminate | reflexivity] | ].
  destruct Hrec as (r & Hres & _ & Hurl & Hup & _ & Hud & Hdp & _ & Hdd & Hpg);
    [apply not_elem_of_empty|].
  change (results (walk_lines "report.pdf" 0 [d1; d2; filler; s] 0
                     [d1; d2; filler; s] initial_state) = [r]) in Hres.
  rewrite Hres. simpl. by rewrite Hurl, Hup, Hud, Hdp, Hdd, Hpg.
Defined.

(** The statement of C10 in the specification fails on a report of two
    identical pages, each with the declaration line of a known target, an
    unrecognised declaration line and a statistics line: the statistics
    line of the second page is not extracted, the target having been
    recorded on the first.  It fails as well on a page whose statistics
    line has the uptime part only: no record is made. *)
Lemma unrecognised_declaration_keeps_target_counterexample :
  let d1 := "Probe, Group, Device: Local Probe > ash.buenosaires.gob.ar" in
  let d2 := "Probe, Group, Device: Local Probe > example.org" in
  let s := "Uptime Stats: Up: 99.50 % [06d 23h 59m 41s] Down: 0.50 % [00d 00h 10m 00s]" in
  let one_sided := "Uptime Stats: Up: 99.50 % [06d 23h 59m 41s]" in
  let page := d1 +:+ String newline (d2 +:+ String newline s) in
  let page' := d1 +:+ String newline (d2 +:+ String newline one_sided) in
  ~ ((exists r, r ∈ extract_all_urls_from_pdf "report.pdf" [page; page]
                /\ pagina r = 2)
     \/ (exists r, r ∈ extract_all_urls_from_pdf "report.pdf" [page'])).
Proof.
  intros d1 d2 s one_sided page page' [(r & Hr & Hp)|(r & Hr)].
  - vm_compute in Hr. apply list_elem_of_singleton in Hr as ->.
    vm_compute in Hp. discriminate.
  - vm_compute in Hr. by apply elem_of_nil in Hr.
Qed.

(** * Further properties *)

(** ** The breakdown of a total *)

Lemma breakdown_bounds (t : Z) :
  0 <= t mod 86400 / 3600 < 24 /\ 0 <= t mod 3600 / 60 < 60
  /\ 0 <= t mod 60 < 60.
Proof.
  pose proof (Z.mod_pos_bound t 86400 ltac:(lia)).
  pose proof (Z.mod_pos_bound t 3600 ltac:(lia)).
  pose proof (Z.mod_pos_bound t 60 ltac:(lia)).
  split_and!; try lia;
    first [apply Z.div_pos; lia | apply Z.div_lt_upper_bound; lia].
Qed.

(** X1: the breakdown of [seconds_to_duration_format] is the mixed-radix
    decomposition of the total: hours below 24, minutes and seconds below
    60, the four parts recombine to the total, no other four numbers with
    these ranges do, and the days are negative exactly for a negative
    total. *)
Theorem duration_breakdown_mixed_radix (t : Z) :
  let '(d, h, m, s) := duration_breakdown t in
  0 <= h < 24 /\ 0 <= m < 60 /\ 0 <= s < 60
  /\ d * 86400 + h * 3600 + m * 60 + s = t
  /\ (d < 0 <-> t < 0)
  /\ forall d' h' m' s' : Z,
       0 <= h' < 24 -> 0 <= m' < 60 -> 0 <= s' < 60 ->
       d' * 86400 + h' * 3600 + m' * 60 + s' = t ->
       (d', h', m', s') = (d, h, m, s).
Proof.
  unfold duration_breakdown.
  pose proof (breakdown_sum t) as Hsum.
  pose proof (Z.mod_pos_bound t 86400 ltac:(lia)) as Hr.
  pose proof (Z.mod_pos_bound t 3600 ltac:(lia)) as Hr'.
  pose proof (Z.mod_pos_bound t 60 ltac:(lia)) as Hs.
  assert (Hh : 0 <= t mod 86400 / 3600 < 24).
  { split; [apply Z.div_pos; lia | apply Z.div_lt_upper_bound; lia]. }
  assert (Hm : 0 <= t mod 3600 / 60 < 60).
  { split; [apply Z.div_pos; lia | apply Z.div_lt_upper_bound; lia]. }
  split_and!; try lia.
  intros d' h' m' s' Hh' Hm' Hs' E.
  assert (d' = t / 86400).
  { apply (Z.div_unique t 86400 d' (h' * 3600 + m' * 60 + s')); lia. }
  assert (h' = t mod 86400 / 3600).
  { apply (Z.div_unique (t mod 86400) 3600 h' (m' * 60 + s')); [lia|].
    pose proof (Z.div_mod t 86400 ltac:(lia)). lia. }
  assert (s' = t mod 60).
  { apply (Z.mod_unique t 60 (d' * 1440 + h' * 60 + m') s'); lia. }
  assert (m' = t mod 3600 / 60) by lia.
  congruence.
Qed.

Lemma duration_breakdown_mixed_radix_witness :
  (1, 1, 1, 1) = duration_breakdown 90061.
Proof.
  pose proof (duration_breakdown_mixed_radix 90061) as H.
  destruct (duration_breakdown 90061) as [[[d h] m] s].
  destruct H as (_ & _ & _ & _ & _ & Hu).
  apply (Hu 1 1 1 1); lia.
Defined.

(** ** [seconds_to_duration_format] *)

Lemma str_app_nonempty (s t : string) : s <> "" -> s +:+ t <> "".
Proof. destruct s; [done|]. by rewrite str_app_cons. Qed.

Lemma str_positive (v : Z) : 0 < v -> Py.str v = Py.digits v /\ Py.digits v <> "".
Proof.
  intros H. rewrite str_nonneg by lia. split; [done|].
  by destruct (digits_spec v ltac:(lia)) as (_ & ? & _).
Qed.

Lemma join_nonempty (sep : string) (parts : list string) :
  parts <> [] -> Forall (fun x => x <> "") parts -> join sep parts <> "".
Proof.
  destruct parts as [|x rest]; [done|]. intros _ H.
  apply Forall_cons in H as [Hx _]. simpl.
  destruct rest; [done|]. by apply str_app_nonempty.
Qed.

Lemma append_part_nonempty (v : Z) (word : string) (parts : list string) :
  Forall (fun x => x <> "") parts ->
  Forall (fun x => x <> "") (append_part v word parts).
Proof.
  intros H. unfold append_part. destruct (Z.ltb_spec 0 v) as [Hv|]; [|done].
  apply Forall_app. split; [done|]. apply Forall_singleton.
  apply str_app_nonempty. destruct (str_positive v Hv) as [-> ?]. done.
Qed.

Lemma append_part_nil (v : Z) (word : string) (parts : list string) :
  append_part v word parts = [] <-> parts = [] /\ v <= 0.
Proof.
  unfold append_part. destruct (Z.ltb_spec 0 v) as [Hv|Hv].
  - split; [|lia]. by intros [_ ?]%app_eq_nil.
  - split; [done | by intros [-> _]].
Qed.

(** The phrase of a total that is not zero, with the parts named. *)
Lemma seconds_to_duration_format_parts (t : Z) :
  t <> 0 ->
  seconds_to_duration_format t
  = join ", "
      (append_part (t mod 60) "segundo"
         (append_part (t mod 3600 / 60) "minuto"
            (append_part (t mod 86400 / 3600) "hora"
               (append_part (t / 86400) (String "d" (String i_acute "a"))
                  [])))).
Proof.
  intros H. unfold seconds_to_duration_format, duration_breakdown.
  by destruct (Z.eqb_spec t 0).
Qed.

(** X2: the phrase is the empty text exactly for the negative whole
    multiples of a day; a total that is zero or positive always has a
    phrase. *)
Theorem seconds_to_duration_format_empty (t : Z) :
  seconds_to_duration_format t = "" <-> t < 0 /\ t mod 86400 = 0.
Proof.
  destruct (Z.eq_dec t 0) as [->|Hnz].
  { split; [done | lia]. }
  rewrite seconds_to_duration_format_parts by done.
  set (parts := append_part _ "segundo" _).
  assert (Hne : Forall (fun x => x <> "") parts).
  { unfold parts. by repeat apply append_part_nonempty. }
  assert (Hnil : parts = [] <-> t < 0 /\ t mod 86400 = 0).
  { unfold parts. rewrite !append_part_nil.
    destruct (breakdown_bounds t) as (? & ? & ?).
    pose proof (breakdown_sum t).
    pose proof (Z.div_mod t 86400 ltac:(lia)).
    pose proof (Z.mod_pos_bound t 86400 ltac:(lia)).
    split.
    - intros ((((_ & ?) & ?) & ?) & ?). lia.
    - intros [Ht Hm].
      assert (t mod 3600 = 0).
      { rewrite <-(Z.mod_mod_divide t 86400 3600) by (exists 24; lia).
        by rewrite Hm. }
      assert (t mod 60 = 0).
      { rewrite <-(Z.mod_mod_divide t 86400 60) by (exists 1440; lia).
        by rewrite Hm. }
      assert (t mod 86400 / 3600 = 0) by (by rewrite Hm).
      assert (t mod 3600 / 60 = 0) by (by replace (t mod 3600) with 0).
      split_and!; [done | lia..]. }
  split.
  - intros E. apply Hnil. destruct parts; [done|].
    by apply (join_nonempty ", ") in Hne.
  - intros H. apply Hnil in H. by rewrite H.
Qed.

Lemma seconds_to_duration_format_empty_witness :
  seconds_to_duration_format (-172800) = "".
Proof.
  apply (proj2 (seconds_to_duration_format_empty (-172800))).
  split; [lia | reflexivity].
Defined.

(** X3: a negative total that is not a whole multiple of a day has the
    phrase of its remainder modulo one day: the days, which are negative,
    are left out, and the other parts are those of the remainder. *)
Theorem seconds_to_duration_format_negative (t : Z) :
  t < 0 -> t mod 86400 <> 0 ->
  seconds_to_duration_format t = seconds_to_duration_format (t mod 86400).
Proof.
  intros Ht Hm.
  pose proof (Z.mod_pos_bound t 86400 ltac:(lia)) as Hr.
  rewrite !seconds_to_duration_format_parts by lia.
  rewrite (Z.mod_mod t 86400) by lia.
  rewrite (Z.mod_mod_divide t 86400 3600) by (exists 24; lia).
  rewrite (Z.mod_mod_divide t 86400 60) by (exists 1440; lia).
  rewrite (Z.div_small (t mod 86400) 86400) by lia.
  assert (Hd : t / 86400 < 0) by (apply Z.div_lt_upper_bound; lia).
  unfold append_part at 4 8.
  destruct (Z.ltb_spec 0 (t / 86400)); [lia|]. done.
Qed.

Lemma seconds_to_duration_format_negative_witness :
  seconds_to_duration_format (-1) = seconds_to_duration_format 86399.
Proof.
  apply (seconds_to_duration_format_negative (-1)); [lia | discriminate].
Defined.

(** *** A phrase determines its total *)

Lemma squeeze_app (s t : string) : squeeze (s +:+ t) = squeeze s +:+ squeeze t.
Proof.
  induction s as [|c s IH]; [done|]. rewrite str_app_cons. simpl.
  destruct (Ascii.eqb c " "); [done|]. by rewrite str_app_cons, IH.
Qed.

Lemma squeeze_digits (g : string) : Py.all_digits g = true -> squeeze g = g.
Proof.
  induction g as [|c g IH]; [done|]. simpl. intros [Hc Hg]%andb_true_iff.
  rewrite (digit_not_char c " ") by done. by rewrite IH.
Qed.

Lemma squeeze_join (parts : list string) :
  squeeze (join ", " parts) = join "," (map squeeze parts).
Proof.
  induction parts as [|x [|y rest] IH]; [done..|].
  change (join ", " (x :: y :: rest)) with (x +:+ ", " +:+ join ", " (y :: rest)).
  rewrite !squeeze_app, IH. done.
Qed.

Lemma no_digit_app (s t : string) :
  no_digit (s +:+ t) = no_digit s && no_digit t.
Proof.
  induction s as [|c s IH]; [done|]. rewrite str_app_cons. simpl.
  by rewrite IH, andb_assoc.
Qed.

Lemma found_value_clauses (u : ascii) (ps : list clause) :
  Py.is_digit u = false -> Forall clause_ok ps ->
  found_value u (join "," (map render ps)) = clause_value u ps.
Proof.
  intros Hu Hps. induction Hps as [|[[g c] tail] ps (Hg & Hne & Hc & Htail) _ IH].
  { by apply found_value_no_digit. }
  assert (E : found_value u (render (g, c, tail) +:+ "," +:+ join "," (map render ps))
              = clause_value u ((g, c, tail) :: ps)).
  { simpl. destruct (Ascii.eqb_spec c u) as [->|Hcu].
    - rewrite str_app_assoc, str_app_cons. unfold found_value.
      by rewrite search_hit.
    - rewrite <-IH. rewrite str_app_assoc, str_app_cons. unfold found_value.
      rewrite search_skip_run, search_skip_no_digit by
        (try done; by apply Ascii.eqb_neq).
      by rewrite (search_skip_no_digit u ","). }
  destruct ps as [|p ps]; [|exact E].
  simpl in *. destruct (Ascii.eqb_spec c u) as [->|Hcu].
  - unfold found_value. by rewrite search_hit.
  - unfold found_value. rewrite search_skip_run by
      (try done; by apply Ascii.eqb_neq).
    by apply (found_value_no_digit u).
Qed.

Lemma plural_no_digit (v : Z) : no_digit (plural v) = true /\ squeeze (plural v) = plural v.
Proof. unfold plural. by destruct (v =? 1). Qed.

(** A part of the phrase, squeezed, is a clause. *)
Lemma squeeze_append_part (v : Z) (word tail : string) (c : ascii)
    (parts : list string) (ps : list clause) :
  squeeze word = String c tail ->
  map squeeze parts = map render ps ->
  map squeeze (append_part v word parts) = map render (clauses_add v c tail ps).
Proof.
  intros Hw Hparts. unfold append_part, clauses_add.
  destruct (Z.ltb_spec 0 v) as [Hv|]; [|done].
  rewrite !map_app, Hparts. f_equal. simpl. f_equal.
  destruct (str_positive v Hv) as [-> _].
  destruct (digits_spec v ltac:(lia)) as (Hd & _ & _).
  rewrite !squeeze_app, squeeze_digits, Hw by done.
  by rewrite (proj2 (plural_no_digit v)).
Qed.

Lemma clauses_add_ok (v : Z) (c : ascii) (tail : string) (ps : list clause) :
  Py.is_digit c = false -> no_digit tail = true ->
  Forall clause_ok ps -> Forall clause_ok (clauses_add v c tail ps).
Proof.
  intros Hc Ht Hps. unfold clauses_add.
  destruct (Z.ltb_spec 0 v) as [Hv|]; [|done].
  apply Forall_app. split; [done|]. apply Forall_singleton.
  destruct (digits_spec v ltac:(lia)) as (Hd & Hne & _).
  split_and!; try done.
  by rewrite no_digit_app, Ht, (proj1 (plural_no_digit v)).
Qed.

Lemma clause_value_digits (v : Z) : 0 <= v -> Py.int_digits (Py.digits v) = v.
Proof. intros H. by destruct (digits_spec v H) as (_ & _ & ?). Qed.

(** A phrase without its spaces decodes to its total. *)
Lemma decode_squeezed_phrase (t : Z) :
  0 <= t ->
  duration_to_seconds (Some (squeeze (seconds_to_duration_format t))) = t.
Proof.
  intros Ht. destruct (Z.eq_dec t 0) as [->|Hnz]; [vm_compute; reflexivity|].
  rewrite seconds_to_duration_format_parts, squeeze_join by done.
  destruct (breakdown_bounds t) as (Hh & Hm & Hs).
  assert (Hd : 0 <= t / 86400) by (apply Z.div_pos; lia).
  pose proof (breakdown_sum t) as Hsum.
  set (ps := clauses_add (t mod 60) "s" "egundo"
               (clauses_add (t mod 3600 / 60) "m" "inuto"
                  (clauses_add (t mod 86400 / 3600) "h" "ora"
                     (clauses_add (t / 86400) "d" (String i_acute "a") [])))).
  rewrite (squeeze_append_part _ _ "egundo" "s" _
             (clauses_add (t mod 3600 / 60) "m" "inuto"
                (clauses_add (t mod 86400 / 3600) "h" "ora"
                   (clauses_add (t / 86400) "d" (String i_acute "a") []))));
    [| reflexivity |].
  2:{ apply (squeeze_append_part _ _ "inuto" "m"); [reflexivity|].
      apply (squeeze_append_part _ _ "ora" "h"); [reflexivity|].
      by apply (squeeze_append_part _ _ (String i_acute "a") "d"). }
  fold ps.
  assert (Hok : Forall clause_ok ps).
  { unfold ps. by repeat apply clauses_add_ok. }
  rewrite duration_to_seconds_sum, !found_value_clauses by done.
  unfold ps, clauses_add.
  destruct (Z.ltb_spec 0 (t / 86400)); destruct (Z.ltb_spec 0 (t mod 86400 / 3600));
    destruct (Z.ltb_spec 0 (t mod 3600 / 60)); destruct (Z.ltb_spec 0 (t mod 60));
    simpl; rewrite ?clause_value_digits by lia; lia.
Qed.

(** X4: the phrase determines the total: two different totals that are
    zero or positive have different phrases. *)
Theorem seconds_to_duration_format_injective (t1 t2 : Z) :
  0 <= t1 -> 0 <= t2 -> t1 <> t2 ->
  seconds_to_duration_format t1 <> seconds_to_duration_format t2.
Proof.
  intros H1 H2 Hne E. apply Hne.
  rewrite <-(decode_squeezed_phrase t1 H1), <-(decode_squeezed_phrase t2 H2).
  by rewrite E.
Qed.

Lemma seconds_to_duration_format_injective_witness :
  seconds_to_duration_format 3600 <> seconds_to_duration_format 3601.
Proof.
  apply (seconds_to_duration_format_injective 3600 3601); lia.
Defined.

(** ** The clock text *)

Lemma int_all_digits (g : string) :
  Py.all_digits g = true -> g <> "" -> Py.int g = Some (Py.int_digits g).
Proof.
  intros Hg Hne. unfold Py.int. rewrite strip_digits by done.
  destruct g as [|c g]; [done|].
  assert (Hc : Py.is_digit c = true).
  { simpl in Hg. by apply andb_true_iff in Hg as [? _]. }
  rewrite (digit_not_char c "-"), (digit_not_char c "+") by done.
  rewrite int_body_ok_digits, drop_underscores_digits by done.
  f_equal. lia.
Qed.

Lemma int_minus_digits (g : string) :
  Py.all_digits g = true -> g <> "" ->
  Py.int (String "-" g) = Some (- Py.int_digits g).
Proof.
  intros Hg Hne. unfold Py.int.
  change (Py.lstrip_with Py.is_int_space (String "-" g)) with (String "-" g).
  assert (E : Py.rstrip_with Py.is_int_space (String "-" g) = String "-" g).
  { simpl. rewrite rstrip_digits by done. by destruct g. }
  rewrite E. change (Ascii.eqb "-" "-") with true. cbn iota.
  rewrite int_body_ok_digits, drop_underscores_digits by done.
  f_equal; lia.
Qed.

(** [int] reads back what [str] writes, for every integer. *)
Lemma int_str_all (n : Z) : Py.int (Py.str n) = Some n.
Proof.
  destruct (Z.ltb_spec n 0) as [Hn|Hn]; [|by apply int_str].
  unfold Py.str. destruct (Z.ltb_spec n 0); [|lia].
  destruct (digits_spec (- n) ltac:(lia)) as (Hd & Hne & Hv).
  rewrite int_minus_digits, Hv by done. f_equal. lia.
Qed.

Lemma digits_small (n : Z) :
  0 <= n < 10 -> Py.digits n = String (Py.digit_char n) "".
Proof.
  intros H. unfold Py.digits. simpl. by destruct (Z.ltb_spec n 10); [|lia].
Qed.

Lemma digits_two (n : Z) :
  10 <= n < 100 ->
  Py.digits n
  = String (Py.digit_char (n / 10)) (String (Py.digit_char (n mod 10)) "").
Proof.
  intros H. unfold Py.digits.
  assert (Hl : 3 <= Z.log2 n) by (apply Z.log2_le_pow2; simpl; lia).
  destruct (Z.to_nat (Z.log2 n)) as [|f] eqn:E; [lia|].
  simpl. destruct (Z.ltb_spec n 10); [lia|].
  assert (n / 10 < 10) by (apply Z.div_lt_upper_bound; lia).
  by destruct (Z.ltb_spec (n / 10) 10); [|lia].
Qed.

Lemma format_02d_int (n : Z) : Py.int (format_02d n) = Some n.
Proof.
  unfold format_02d. destruct (Z.ltb_spec n 0) as [Hn|Hn]; [apply int_str_all|].
  destruct (digits_spec n Hn) as (Hd & Hne & Hv).
  destruct (Py.digits n) as [|c [|c' g]] eqn:E; [done | |].
  - rewrite int_all_digits; [| simpl in *; by rewrite Hd | done].
    f_equal. unfold Py.int_digits in *. simpl in *.
    change (Py.digit_val "0") with 0. lia.
  - by rewrite int_all_digits, Hv.
Qed.

Lemma format_02d_no_colon (n : Z) : count_char ":" (format_02d n) = O.
Proof.
  unfold format_02d, Py.str. destruct (Z.ltb_spec n 0) as [Hn|Hn].
  - destruct (digits_spec (- n) ltac:(lia)) as (Hd & _ & _).
    simpl. by rewrite (count_all_digits ":").
  - destruct (digits_spec n Hn) as (Hd & _ & _).
    pose proof (count_all_digits ":" eq_refl _ Hd) as Hc.
    destruct (Py.digits n) as [|c [|c' g]]; [done | | done].
    simpl in *. lia.
Qed.

Lemma digits_long (n : Z) :
  10 <= n -> exists a b r, Py.digits n = String a (String b r).
Proof.
  intros H. unfold Py.digits.
  assert (Hl : 3 <= Z.log2 n) by (apply Z.log2_le_pow2; simpl; lia).
  pose proof (Z.log2_spec n ltac:(lia)) as [_ Hu].
  rewrite Z.pow_succ_r in Hu by lia.
  simpl. destruct (Z.ltb_spec n 10); [lia|].
  destruct (digits_fuel_spec (Z.to_nat (Z.log2 n)) (n / 10)) as (_ & Hne & _).
  - rewrite Z2Nat.id by lia.
    split; [apply Z.div_pos; lia | apply Z.div_lt_upper_bound; lia].
  - lia.
  - destruct (Py.digits_fuel (Z.to_nat (Z.log2 n)) (n / 10)) as [|a [|b r]];
      [done | |]; rewrite ?str_app_cons, ?str_app_nil_l; eauto.
Qed.

Lemma format_02d_length (n : Z) :
  (0 <= n < 100 -> String.length (format_02d n) = 2%nat)
  /\ (0 <= n -> (2 <= String.length (format_02d n))%nat).
Proof.
  assert (H2 : 0 <= n < 100 -> String.length (format_02d n) = 2%nat).
  { intros H. unfold format_02d. destruct (Z.ltb_spec n 0); [lia|].
    destruct (Z.ltb_spec n 10).
    - by rewrite digits_small by lia.
    - by rewrite digits_two by lia. }
  split; [done|]. intros Hn.
  destruct (Z.ltb_spec n 100) as [Hlt|Hge]; [rewrite H2; lia|].
  unfold format_02d. destruct (Z.ltb_spec n 0); [lia|].
  destruct (digits_long n ltac:(lia)) as (a & b & r & ->). simpl. lia.
Qed.

Lemma split_char_none (c : ascii) (a : string) :
  count_char c a = O -> Py.split_char c a = [a].
Proof.
  induction a as [|x a IH]; [done|]. simpl.
  destruct (Ascii.eqb x c); [done|]. intros H. by rewrite IH.
Qed.

Lemma split_char_first (c : ascii) (a b : string) :
  count_char c a = O ->
  Py.split_char c (a +:+ String c b) = a :: Py.split_char c b.
Proof.
  induction a as [|x a IH]; intros H.
  - rewrite str_app_nil_l. simpl. by rewrite Ascii.eqb_refl.
  - rewrite str_app_cons. simpl in *.
    destruct (Ascii.eqb x c); [done|]. by rewrite IH.
Qed.

(** X5: the clock text of the summary splits at its colons into exactly
    three fields; [int] reads them back as the hours, minutes and seconds
    of the total, which recombine to the total, for every integer total;
    the fields of the minutes and of the seconds have two characters, and
    that of the hours has at least two when the total is not negative. *)
Theorem clock_format_reads_back (t : Z) :
  exists fh fm fs : string,
    Py.split_char ":" (clock_format t) = [fh; fm; fs]
    /\ Py.int fh = Some (t / 3600)
    /\ Py.int fm = Some (t mod 3600 / 60)
    /\ Py.int fs = Some (t mod 60)
    /\ t / 3600 * 3600 + t mod 3600 / 60 * 60 + t mod 60 = t
    /\ String.length fm = 2%nat /\ String.length fs = 2%nat
    /\ (0 <= t -> (2 <= String.length fh)%nat).
Proof.
  exists (format_02d (t / 3600)), (format_02d (t mod 3600 / 60)),
    (format_02d (t mod 60)).
  destruct (breakdown_bounds t) as (_ & Hm & Hs).
  split_and!.
  - unfold clock_format.
    change (":" +:+ ?x) with (String ":" x).
    rewrite split_char_first by apply format_02d_no_colon.
    change (":" +:+ ?x) with (String ":" x).
    rewrite split_char_first by apply format_02d_no_colon.
    by rewrite split_char_none by apply format_02d_no_colon.
  - apply format_02d_int.
  - apply format_02d_int.
  - apply format_02d_int.
  - pose proof (Z.div_mod t 3600 ltac:(lia)).
    pose proof (Z.div_mod (t mod 3600) 60 ltac:(lia)).
    rewrite (Z.mod_mod_divide t 3600 60) in * by (exists 60; lia). lia.
  - apply format_02d_length. lia.
  - apply format_02d_length. lia.
  - intros Ht. apply format_02d_length. apply Z.div_pos; lia.
Qed.

Lemma clock_format_reads_back_witness :
  exists fh fm fs : string,
    Py.split_char ":" (clock_format 600) = [fh; fm; fs]
    /\ Py.int fm = Some 10
    /\ (2 <= String.length fh)%nat.
Proof.
  destruct (clock_format_reads_back 600)
    as (fh & fm & fs & Hs & _ & Hm & _ & _ & _ & _ & Hh).
  exists fh, fm, fs. split_and!; [exact Hs | exact Hm | apply Hh; lia].
Defined.

(** ** Where the record of single-target mode comes from *)

Section SingleTarget.
Variables pdf_name target_url : string.

Lemma stats_window_some (page_num : nat) (lines : list string) (i : nat)
    (js : list nat) (r : UptimeRecord) :
  stats_window pdf_name target_url page_num lines i js = Some r ->
  exists j lj up down,
    j ∈ js /\ lines !! j = Some lj /\ valid_statistics lj up down
    /\ core r = core (base_record pdf_name target_url page_num up down).
Proof.
  induction js as [|j js IH]; [done|]. simpl. intros H.
  assert (Hnext : stats_window pdf_name target_url page_num lines i js = Some r ->
    exists j' lj up down,
      j' ∈ j :: js /\ lines !! j' = Some lj /\ valid_statistics lj up down
      /\ core r = core (base_record pdf_name target_url page_num up down)).
  { intros (j' & lj & up & down & Hin & Hrest)%IH.
    exists j', lj, up, down. split; [by apply list_elem_of_further | done]. }
  destruct (lines !! j) as [lj|] eqn:Hj; [|by apply Hnext].
  destruct (Py.contains stats_marker lj) eqn:Hs; [|by apply Hnext].
  destruct (up_match lj) as [up|] eqn:Hup; [|by apply Hnext].
  destruct (down_match lj) as [down|] eqn:Hdown; [|by apply Hnext].
  injection H as <-. exists j, lj, up, down.
  split_and!; [apply list_elem_of_here | done | done |].
  apply enrich_guarded_core.
Qed.

Lemma stats_window_none (page_num : nat) (lines : list string) (i : nat)
    (js : list nat) :
  stats_window pdf_name target_url page_num lines i js = None <->
  forall j lj up down,
    j ∈ js -> lines !! j = Some lj -> ~ valid_statistics lj up down.
Proof.
  induction js as [|j js IH]; simpl.
  - split; [|done]. intros _ j lj up down Hin. by apply elem_of_nil in Hin.
  - destruct (lines !! j) as [lj|] eqn:Hj.
    2:{ rewrite IH. split.
        - intros H j' lj' up down [->|Hin]%elem_of_cons Hl; [congruence|].
          by apply (H j').
        - intros H j' lj' up down Hin. apply H. by apply list_elem_of_further. }
    assert (Hskip : (forall up down, ~ valid_statistics lj up down) ->
      (stats_window pdf_name target_url page_num lines i js = None <->
       forall j' lj' up down,
         j' ∈ j :: js -> lines !! j' = Some lj' ->
         ~ valid_statistics lj' up down)).
    { intros Hbad. rewrite IH. split.
      - intros H j' lj' up down [->|Hin]%elem_of_cons Hl.
        + assert (lj' = lj) as -> by congruence. apply Hbad.
        + by apply (H j').
      - intros H j' lj' up down Hin. apply H. by apply list_elem_of_further. }
    destruct (Py.contains stats_marker lj) eqn:Hs.
    2:{ apply Hskip. intros up down (Hc & _). congruence. }
    destruct (up_match lj) as [up|] eqn:Hup.
    2:{ apply Hskip. intros up down (_ & Hc & _). congruence. }
    destruct (down_match lj) as [down|] eqn:Hdown.
    2:{ apply Hskip. intros up' down (_ & _ & Hc). congruence. }
    split; [done|]. intros H. exfalso.
    apply (H j lj up down); [apply list_elem_of_here | done | done].
Qed.

Lemma window_indices (lines : list string) (i j : nat) (lj : string) :
  lines !! j = Some lj ->
  (j ∈ seq i (Nat.min (i + 10) (length lines) - i) <-> (i <= j < i + 10)%nat).
Proof.
  intros Hj. apply lookup_lt_Some in Hj. rewrite elem_of_seq. lia.
Qed.

Lemma scan_lines_some (page_num : nat) (pre rest : list string)
    (r : UptimeRecord) :
  scan_lines pdf_name target_url page_num (pre ++ rest) (length pre) rest
  = Some r ->
  exists i j li lj up down,
    (pre ++ rest) !! i = Some li /\ declares li target_url = true
    /\ (i <= j < i + 10)%nat /\ (pre ++ rest) !! j = Some lj
    /\ valid_statistics lj up down
    /\ core r = core (base_record pdf_name target_url page_num up down).
Proof.
  revert pre. induction rest as [|l rest IH]; intros pre H; [done|].
  simpl in H.
  assert (Hnext : scan_lines pdf_name target_url page_num (pre ++ l :: rest)
                    (S (length pre)) rest = Some r ->
    exists i j li lj up down,
      (pre ++ l :: rest) !! i = Some li /\ declares li target_url = true
      /\ (i <= j < i + 10)%nat /\ (pre ++ l :: rest) !! j = Some lj
      /\ valid_statistics lj up down
      /\ core r = core (base_record pdf_name target_url page_num up down)).
  { intros H'. specialize (IH (pre ++ [l])).
    rewrite <-app_assoc, length_app in IH. simpl in IH.
    rewrite Nat.add_1_r in IH. by apply IH. }
  destruct (declares l target_url) eqn:Hd; [|by apply Hnext].
  destruct (stats_window pdf_name target_url page_num (pre ++ l :: rest)
              (length pre) _) as [r'|] eqn:Hw; [|by apply Hnext].
  injection H as ->.
  apply stats_window_some in Hw as (j & lj & up & down & Hin & Hj & Hv & Hc).
  apply (window_indices _ _ _ lj Hj) in Hin.
  exists (length pre), j, l, lj, up, down.
  split_and!; try done; try lia. by apply list_lookup_middle.
Qed.

Lemma scan_lines_none (page_num : nat) (pre rest : list string) :
  scan_lines pdf_name target_url page_num (pre ++ rest) (length pre) rest
  = None <->
  forall i j li lj up down,
    (length pre <= i)%nat ->
    (pre ++ rest) !! i = Some li -> declares li target_url = true ->
    (i <= j < i + 10)%nat -> (pre ++ rest) !! j = Some lj ->
    ~ valid_statistics lj up down.
Proof.
  revert pre. induction rest as [|l rest IH]; intros pre.
  - split; [|done]. intros _ i j li lj up down Hi Hl.
    apply lookup_lt_Some in Hl. rewrite app_nil_r in Hl. lia.
  - simpl.
    assert (Hnext :
      scan_lines pdf_name target_url page_num (pre ++ l :: rest)
        (S (length pre)) rest = None <->
      forall i j li lj up down,
        (S (length pre) <= i)%nat ->
        (pre ++ l :: rest) !! i = Some li -> declares li target_url = true ->
        (i <= j < i + 10)%nat -> (pre ++ l :: rest) !! j = Some lj ->
        ~ valid_statistics lj up down).
    { specialize (IH (pre ++ [l])).
      rewrite <-app_assoc, length_app in IH. simpl in IH.
      by rewrite Nat.add_1_r in IH. }
    assert (Hhead : (pre ++ l :: rest) !! length pre = Some l)
      by (by apply list_lookup_middle).
    destruct (declares l target_url) eqn:Hd.
    2:{ rewrite Hnext. split.
        - intros H i j li lj up down Hi Hli Hdi.
          destruct (decide (i = length pre)) as [->|]; [congruence|].
          apply (H i j li lj up down); [lia | done..].
        - intros H i j li lj up down Hi. apply (H i j li lj up down). lia. }
    destruct (stats_window pdf_name target_url page_num (pre ++ l :: rest)
                (length pre) _) as [r'|] eqn:Hw.
    + split; [done|]. intros H. exfalso.
      apply stats_window_some in Hw as (j & lj & up & down & Hin & Hj & Hv & _).
      apply (window_indices _ _ _ lj Hj) in Hin.
      by apply (H (length pre) j l lj up down).
    + rewrite Hnext. rewrite stats_window_none in Hw. split.
      * intros H i j li lj up down Hi Hli Hdi Hij Hlj.
        destruct (decide (i = length pre)) as [->|].
        -- apply (Hw j lj up down); [|done].
           by apply (window_indices _ _ _ lj Hlj).
        -- apply (H i j li lj up down); [lia | done..].
      * intros H i j li lj up down Hi. apply (H i j li lj up down). lia.
Qed.
End SingleTarget.

Lemma scan_page_some (pdf_name target_url : string) (n : nat)
    (text : string) (r : UptimeRecord) :
  scan_page pdf_name target_url n text = Some r ->
  Py.contains target_url text = true
  /\ exists i j li lj up down,
       Py.split_char newline text !! i = Some li
       /\ declares li target_url = true /\ (i <= j < i + 10)%nat
       /\ Py.split_char newline text !! j = Some lj
       /\ valid_statistics lj up down
       /\ core r = core (base_record pdf_name target_url n up down).
Proof.
  intros H. unfold scan_page in H.
  destruct (Py.contains target_url text); [|done]. split; [done|].
  by apply (scan_lines_some pdf_name target_url n []) in H.
Qed.

Lemma scan_pages_some (pdf_name target_url : string) (k : nat)
    (ps : list string) (r : UptimeRecord) :
  scan_pages pdf_name target_url k ps = Some r ->
  exists n text,
    ps !! n = Some text /\ scan_page pdf_name target_url (k + n) text = Some r.
Proof.
  revert k. induction ps as [|t ps IH]; intros k Hs; [done|].
  simpl in Hs. destruct (scan_page pdf_name target_url k t) eqn:E.
  - injection Hs as ->. exists O, t. by rewrite Nat.add_0_r.
  - apply IH in Hs as (n & text & Hn & Hp). exists (S n), text.
    split; [done|]. by replace (k + S n)%nat with (S k + n)%nat by lia.
Qed.

(** The record of single-target mode has a match behind it. *)
Lemma extract_uptime_stats_some (pdf_name target_url : string)
    (pages : list string) (r : UptimeRecord) :
  extract_uptime_stats pdf_name pages target_url = Some r ->
  exists n i j up down,
    single_target_match target_url pages n i j up down
    /\ core r = core (base_record pdf_name target_url n up down).
Proof.
  intros H. unfold extract_uptime_stats in H.
  apply scan_pages_some in H as (n & text & Hn & Hp). simpl in Hp.
  apply scan_page_some in Hp as (Hc & i & j & li & lj & up & down & Hrest).
  destruct Hrest as (Hi & Hd & Hij & Hj & Hv & Hcore).
  exists n, i, j, up, down. split; [|done].
  by exists text, li, lj.
Qed.

(** X7: single-target extraction returns a record exactly when some page
    that contains the target has a declaration line passing the guard and,
    at most nine lines below it (the declaration line itself included), a
    statistics line on which both patterns match; the record then carries
    the file name, the target, the groups of such a statistics line and the
    number of its page. *)
Theorem single_target_record_source (pdf_name target_url : string)
    (pages : list string) :
  (forall r,
     extract_uptime_stats pdf_name pages target_url = Some r ->
     exists n i j up down,
       single_target_match target_url pages n i j up down
       /\ core r = core (base_record pdf_name target_url n up down))
  /\ (extract_uptime_stats pdf_name pages target_url = None <->
      forall n i j up down,
        ~ single_target_match target_url pages n i j up down).
Proof.
  split; [apply extract_uptime_stats_some|].
  unfold extract_uptime_stats. rewrite scan_pages_none. simpl. split.
  - intros H n i j up down (text & li & lj & Hn & Hc & Hi & Hd & Hij & Hj & Hv).
    specialize (H n text Hn). unfold scan_page in H. rewrite Hc in H.
    pose proof (proj1 (scan_lines_none pdf_name target_url n []
                         (Py.split_char newline text)) H) as H'.
    apply (H' i j li lj up down); simpl; try done. lia.
  - intros H n text Hn.
    destruct (scan_page pdf_name target_url n text) as [r|] eqn:E; [|done].
    apply scan_page_some in E
      as (Hc & i & j & li & lj & up & down & Hi & Hd & Hij & Hj & Hv & _).
    exfalso. apply (H n i j up down). by exists text, li, lj.
Qed.

Lemma single_target_record_source_witness :
  exists r n i j up down,
    extract_uptime_stats "report.pdf" [example_page] example_target = Some r
    /\ single_target_match example_target [example_page] n i j up down
    /\ core r = core (base_record "report.pdf" example_target n up down).
Proof.
  destruct (extract_uptime_stats "report.pdf" [example_page] example_target)
    as [r|] eqn:E; [|vm_compute in E; discriminate].
  destruct (proj1 (single_target_record_source "report.pdf" example_target
                     [example_page]) r E) as (n & i & j & up & down & H1 & H2).
  exists r, n, i, j, up, down. split; [reflexivity | split; assumption].
Defined.

(** ** Where the records of discovery mode come from *)

Lemma declare_recognised (current : option string) (d u : string) :
  Py.contains declaration_marker d = true -> classify d None = Some u ->
  declare current d = Some u.
Proof.
  intros Hd Hc. unfold declare. rewrite Hd.
  destruct (classify_known d u Hc) as [-> _]. simpl.
  by apply classify_recognised.
Qed.

Lemma declare_idle (current : option string) (l : string) :
  (Py.contains declaration_marker l = true -> recognised l = false) ->
  declare current l = current.
Proof.
  intros H. unfold declare.
  destruct (Py.contains declaration_marker l); [|done].
  destruct (Py.contains "buenosaires.gob.ar" l); [|done]. simpl.
  by apply classify_unrecognised, H.
Qed.

Lemma recognised_spec (l : string) :
  recognised l = true <-> exists u, classify l None = Some u.
Proof.
  unfold recognised. destruct (classify l None) as [u|].
  - split; [eauto | done].
  - split; [done | by intros [u ?]].
Qed.

(** The current target is that of the last declaration line above in which
    the chain finds a form. *)
Lemma declared_source (pre : list string) (u : string) :
  fold_left declare pre None = Some u ->
  exists i d,
    pre !! i = Some d /\ Py.contains declaration_marker d = true
    /\ classify d None = Some u
    /\ forall k d', (i < k)%nat -> pre !! k = Some d' ->
         Py.contains declaration_marker d' = true -> recognised d' = false.
Proof.
  induction pre as [|l pre IH] using rev_ind; [done|].
  rewrite fold_left_app. simpl. intros H.
  assert (Hkeep : fold_left declare pre None = Some u ->
    (Py.contains declaration_marker l = true -> recognised l = false) ->
    exists i d,
      (pre ++ [l]) !! i = Some d /\ Py.contains declaration_marker d = true
      /\ classify d None = Some u
      /\ forall k d', (i < k)%nat -> (pre ++ [l]) !! k = Some d' ->
           Py.contains declaration_marker d' = true -> recognised d' = false).
  { intros (i & d & Hi & Hd & Hc & Hafter)%IH Hl.
    exists i, d. split_and!; try done.
    - apply lookup_app_l_Some. done.
    - intros k d' Hk Hk' Hdk.
      destruct (decide (k < length pre)%nat) as [Hlt|Hge].
      + rewrite lookup_app_l in Hk' by done. by apply (Hafter k).
      + assert (d' = l) as ->.
        { pose proof (lookup_lt_Some _ _ _ Hk') as Hlen.
          rewrite length_app in Hlen. simpl in Hlen.
          assert (k = length pre) as -> by lia.
          rewrite list_lookup_middle in Hk' by done. congruence. }
        by apply Hl. }
  unfold declare in H.
  destruct (Py.contains declaration_marker l) eqn:Hd; simpl in H.
  2:{ apply Hkeep; [done|]. congruence. }
  destruct (Py.contains "buenosaires.gob.ar" l) eqn:Hh; simpl in H.
  2:{ apply Hkeep; [done|]. intros _.
      destruct (recognised l) eqn:Hr; [|done].
      apply recognised_spec in Hr as [u' Hu'].
      destruct (classify_known l u' Hu') as [? _]. congruence. }
  destruct (recognised l) eqn:Hr.
  - apply recognised_spec in Hr as [u' Hu'].
    rewrite (classify_recognised l u' _ Hu') in H. injection H as <-.
    exists (length pre), l. split_and!; try done.
    + by apply list_lookup_middle.
    + intros k d' Hk Hk'. apply lookup_lt_Some in Hk'.
      rewrite length_app in Hk'. simpl in Hk'. lia.
  - rewrite classify_unrecognised in H by done. by apply Hkeep.
Qed.

Lemma declared_from_match (lines : list string) (u : string) (i j : nat)
    (up down : string * string * string) :
  page_match lines u i j up down ->
  fold_left declare (take j lines) None = Some u.
Proof.
  intros (d & s & Hi & Hd & Hc & Hij & Hbetween & Hj & _).
  assert (Hlen : (j < length lines)%nat) by (by apply lookup_lt_Some in Hj).
  assert (G : forall m, (i < m <= j)%nat ->
    fold_left declare (take m lines) None = Some u).
  { induction m as [|m IH]; [lia|]. intros Hm.
    destruct (lines !! m) as [l|] eqn:Hl;
      [|apply lookup_ge_None in Hl; lia].
    rewrite (take_S_r _ _ _ Hl), fold_left_app. simpl.
    destruct (decide (m = i)) as [->|Hne].
    - assert (l = d) as -> by congruence. by apply declare_recognised.
    - rewrite IH by lia. apply declare_idle. apply (Hbetween m); [lia | done]. }
  apply G. lia.
Qed.

Section Discovery.
Variable pdf_name : string.

Lemma step_line_current (page_num : nat) (lines : list string) (i : nat)
    (line : string) (st : walk_state) :
  current_url (step_line pdf_name page_num lines i line st)
  = declare (current_url st) line.
Proof.
  unfold step_line, declare.
  destruct (Py.contains declaration_marker line); simpl.
  - by destruct (Py.contains "buenosaires.gob.ar" line).
  - destruct (current_url st) as [u|] eqn:E; [|done].
    destruct (_ && _ && _); [|done].
    by destruct (up_match line), (down_match line).
Qed.

Lemma walk_lines_current (page_num : nat) (lines : list string) (i : nat)
    (rest : list string) (st : walk_state) :
  current_url (walk_lines pdf_name page_num lines i rest st)
  = fold_left declare rest (current_url st).
Proof.
  revert i st. induction rest as [|l rest IH]; intros i st; [done|].
  simpl. by rewrite IH, step_line_current.
Qed.

(** A line either leaves the records as they are or adds one, for the
    current target, from a valid statistics line. *)
Lemma step_line_results (page_num : nat) (lines : list string) (i : nat)
    (line : string) (st : walk_state) :
  results (step_line pdf_name page_num lines i line st) = results st
  \/ exists u up down r,
       current_url st = Some u
       /\ Py.contains declaration_marker line = false
       /\ valid_statistics line up down
       /\ (u ∉ processed_urls st)
       /\ results (step_line pdf_name page_num lines i line st)
          = results st ++ [r]
       /\ core r = core (base_record pdf_name u page_num up down).
Proof.
  unfold step_line.
  destruct (Py.contains declaration_marker line) eqn:Hd.
  { left. by destruct (Py.contains "buenosaires.gob.ar" line). }
  destruct (current_url st) as [u|]; [|by left].
  destruct (Py.contains stats_marker line) eqn:Hs; [|by left].
  destruct (truthy (Some u)); [|by left].
  destruct (bool_decide (u ∈ processed_urls st)) eqn:Hu; [by left|].
  apply bool_decide_eq_false in Hu. simpl.
  destruct (up_match line) as [up|] eqn:Hup; [|by left].
  destruct (down_match line) as [down|] eqn:Hdown; [|by left].
  right. eexists u, up, down, _. split_and!; try done.
  apply enrich_core.
Qed.

Lemma walk_lines_good (Good : UptimeRecord -> Prop) (page_num : nat)
    (lines : list string) :
  (forall r u i j up down,
     page_match lines u i j up down ->
     core r = core (base_record pdf_name u page_num up down) -> Good r) ->
  forall rest pre st,
    lines = pre ++ rest ->
    current_url st = fold_left declare pre None ->
    Forall Good (results st) ->
    Forall Good (results (walk_lines pdf_name page_num lines (length pre) rest st)).
Proof.
  intros HGood. induction rest as [|l rest IH]; intros pre st Hlines Hcur Hres;
    [done|].
  simpl. specialize (IH (pre ++ [l])
    (step_line pdf_name page_num lines (length pre) l st)).
  rewrite length_app in IH. simpl in IH. rewrite Nat.add_1_r in IH.
  apply IH.
  - by rewrite <-app_assoc.
  - by rewrite step_line_current, fold_left_app, Hcur.
  - destruct (step_line_results page_num lines (length pre) l st)
      as [->|(u & up & down & r & Hu & Hd & Hv & _ & -> & Hcore)]; [done|].
    apply Forall_app. split; [done|]. apply Forall_singleton.
    rewrite Hu in Hcur. symmetry in Hcur.
    apply declared_source in Hcur as (i & d & Hi & Hdd & Hc & Hafter).
    assert (Hilt : (i < length pre)%nat) by (by apply lookup_lt_Some in Hi).
    apply (HGood r u i (length pre) up down); [|done].
    exists d, l. subst lines. split_and!; try done.
    + by rewrite lookup_app_l.
    + intros k d' Hk Hk'. rewrite lookup_app_l in Hk' by lia.
      apply (Hafter k d'); [lia | done].
    + by apply list_lookup_middle.
Qed.

Lemma walk_pages_good (pages : list string) (Good : UptimeRecord -> Prop) :
  (forall r u n i j up down,
     discovery_match pages u n i j up down ->
     core r = core (base_record pdf_name u n up down) -> Good r) ->
  forall rest before st,
    pages = before ++ rest ->
    Forall Good (results st) ->
    Forall Good (results (walk_pages pdf_name (length before) rest st)).
Proof.
  intros HGood. induction rest as [|text rest IH]; intros before st Hpages Hres;
    [done|].
  simpl. specialize (IH (before ++ [text])
    (walk_page pdf_name (length before) text st)).
  rewrite length_app in IH. simpl in IH. rewrite Nat.add_1_r in IH.
  apply IH; [by rewrite <-app_assoc|].
  unfold walk_page.
  assert (HG : forall r u i j up down,
    page_match (Py.split_char newline text) u i j up down ->
    core r = core (base_record pdf_name u (length before) up down) -> Good r).
  { intros r u i j up down Hm Hcore.
    apply (HGood r u (length before) i j up down); [|done].
    exists text. split; [|done]. subst pages. by apply list_lookup_middle. }
  by apply (walk_lines_good Good (length before) (Py.split_char newline text)
              HG (Py.split_char newline text) [] (page_start st)).
Qed.

(** A match on the page being walked puts its target among the targets of
    the records, whether the record is made at the match or was made
    before. *)
Lemma walk_lines_records_match (page_num : nat) (lines : list string)
    (u : string) (i j : nat) (up down : string * string * string) :
  page_match lines u i j up down ->
  forall rest pre st,
    lines = pre ++ rest -> (length pre <= j)%nat ->
    current_url st = fold_left declare pre None ->
    seen_inv st ->
    u ∈ map url (results (walk_lines pdf_name page_num lines (length pre) rest st)).
Proof.
  intros Hm. pose proof (declared_from_match _ _ _ _ _ _ Hm) as Hdecl.
  destruct Hm as (d & s & Hi & Hd & Hc & Hij & Hbetween & Hj & Hds & Hv).
  induction rest as [|l rest IH]; intros pre st Hlines Hle Hcur Hinv.
  { subst lines. rewrite app_nil_r in Hj. apply lookup_lt_Some in Hj. lia. }
  simpl.
  destruct (decide (length pre = j)) as [Hjeq|Hjne].
  - assert (l = s) as ->.
    { subst lines j. rewrite list_lookup_middle in Hj by done. congruence. }
    assert (Hu : current_url st = Some u).
    { rewrite Hcur, <-Hdecl. f_equal. subst lines j.
      by rewrite take_app_length. }
    set (st' := step_line pdf_name page_num lines (length pre) s st).
    assert (Hin : u ∈ map url (results st')).
    { unfold st', step_line. rewrite Hds, Hu.
      destruct Hv as (Hs & Hup & Hdown). rewrite Hs.
      destruct (classify_known d u Hc) as [_ ->]. simpl.
      destruct (bool_decide (u ∈ processed_urls st)) eqn:Hb; simpl.
      - apply bool_decide_eq_true in Hb. by apply Hinv.
      - rewrite Hup, Hdown. simpl. rewrite map_app. apply elem_of_app. right.
        simpl. rewrite (core_url _ _ (enrich_core _ _ _)). simpl.
        apply list_elem_of_here. }
    destruct (walk_lines_grows pdf_name page_num lines (S (length pre)) rest st')
      as [extra ->].
    rewrite map_app. apply elem_of_app. by left.
  - specialize (IH (pre ++ [l])
      (step_line pdf_name page_num lines (length pre) l st)).
    rewrite length_app in IH. simpl in IH. rewrite Nat.add_1_r in IH.
    apply IH.
    + by rewrite <-app_assoc.
    + lia.
    + by rewrite step_line_current, fold_left_app, Hcur.
    + by apply step_line_inv.
Qed.

Lemma walk_pages_records_match (pages : list string) (u : string)
    (n i j : nat) (up down : string * string * string) :
  discovery_match pages u n i j up down ->
  forall rest before st,
    pages = before ++ rest -> (length before <= n)%nat -> seen_inv st ->
    u ∈ map url (results (walk_pages pdf_name (length before) rest st)).
Proof.
  intros (text & Hn & Hm).
  induction rest as [|t rest IH]; intros before st Hpages Hle Hinv.
  { subst pages. rewrite app_nil_r in Hn. apply lookup_lt_Some in Hn. lia. }
  simpl.
  assert (Hinv' : seen_inv (walk_page pdf_name (length before) t st)).
  { unfold walk_page. by apply walk_lines_inv. }
  destruct (decide (length before = n)) as [Heq|Hne].
  - assert (t = text) as ->.
    { subst pages n. rewrite list_lookup_middle in Hn by done. congruence. }
    destruct (walk_pages_grows pdf_name (S (length before)) rest
                (walk_page pdf_name (length before) text st)) as [extra ->].
    rewrite map_app. apply elem_of_app. left. unfold walk_page.
    apply (walk_lines_records_match (length before) _ u i j up down Hm
             (Py.split_char newline text) [] (page_start st));
      [done | simpl; lia | done | exact Hinv].
  - specialize (IH (before ++ [t]) (walk_page pdf_name (length before) t st)).
    rewrite length_app in IH. simpl in IH. rewrite Nat.add_1_r in IH.
    apply IH; [by rewrite <-app_assoc | lia | done].
Qed.
End Discovery.

Lemma seen_inv_initial : seen_inv initial_state.
Proof. split; simpl; [apply NoDup_nil_2|]. intros u. set_solver. Qed.

(** The records of discovery mode have a match behind them. *)
Lemma extract_all_source (pdf_name : string) (pages : list string)
    (r : UptimeRecord) :
  r ∈ extract_all_urls_from_pdf pdf_name pages ->
  exists n i j up down,
    discovery_match pages (url r) n i j up down
    /\ core r = core (base_record pdf_name (url r) n up down).
Proof.
  intros Hr. unfold extract_all_urls_from_pdf in Hr.
  set (Good := fun r : UptimeRecord => exists n i j up down,
         discovery_match pages (url r) n i j up down
         /\ core r = core (base_record pdf_name (url r) n up down)).
  assert (HG : forall r' u n i j up down,
    discovery_match pages u n i j up down ->
    core r' = core (base_record pdf_name u n up down) -> Good r').
  { intros r' u n i j up down Hm Hcore.
    assert (url r' = u) as <- by (by rewrite (core_url _ _ Hcore)).
    by exists n, i, j, up, down. }
  pose proof (walk_pages_good pdf_name pages Good HG pages [] initial_state
                eq_refl (Forall_nil_2 _)) as H.
  rewrite Forall_forall in H. by apply H.
Qed.

(** X8: every record of discovery mode comes from a valid statistics line
    that is not a declaration line, and is attributed to the target of the
    last declaration line above it, on the same page, in which the chain
    finds a form; it carries the file name, the groups of that statistics
    line and the number of that page. *)
Theorem discovery_record_source (pdf_name : string) (pages : list string)
    (r : UptimeRecord) :
  r ∈ extract_all_urls_from_pdf pdf_name pages ->
  exists n i j up down,
    discovery_match pages (url r) n i j up down
    /\ core r = core (base_record pdf_name (url r) n up down).
Proof. apply extract_all_source. Qed.

Lemma discovery_record_source_witness :
  let page :=
    "Probe, Group, Device: Local Probe > ash.buenosaires.gob.ar"
    +:+ String newline example_statistics in
  exists r n i j up down,
    extract_all_urls_from_pdf "report.pdf" [page] = [r]
    /\ discovery_match [page] (url r) n i j up down
    /\ core r = core (base_record "report.pdf" (url r) n up down).
Proof.
  intros page.
  destruct (extract_all_urls_from_pdf "report.pdf" [page]) as [|r [|r' rest]] eqn:E;
    [vm_compute in E; discriminate | | vm_compute in E; discriminate].
  destruct (discovery_record_source "report.pdf" [page] r)
    as (n & i & j & up & down & H1 & H2).
  { rewrite E. apply list_elem_of_here. }
  exists r, n, i, j, up, down. split; [reflexivity | split; assumption].
Defined.

(** X9: a target is among the targets of the records of discovery mode
    exactly when some page has a declaration line in which the chain finds
    it and, below that line with no other recognised declaration line in
    between, a valid statistics line that is not a declaration line. *)
Theorem discovery_recorded_targets (pdf_name : string) (pages : list string)
    (u : string) :
  u ∈ map url (extract_all_urls_from_pdf pdf_name pages) <->
  exists n i j up down, discovery_match pages u n i j up down.
Proof.
  split.
  - intros (r & -> & Hr)%list_elem_of_fmap.
    apply extract_all_source in Hr as (n & i & j & up & down & Hm & _).
    by exists n, i, j, up, down.
  - intros (n & i & j & up & down & Hm). unfold extract_all_urls_from_pdf.
    apply (walk_pages_records_match pdf_name pages u n i j up down Hm pages []
             initial_state); [done | simpl; lia | apply seen_inv_initial].
Qed.

Lemma discovery_recorded_targets_witness :
  let page :=
    "Probe, Group, Device: Local Probe > ash.buenosaires.gob.ar"
    +:+ String newline example_statistics in
  map url (extract_all_urls_from_pdf "report.pdf" [page]) = [ash_url]
  /\ exists n i j up down, discovery_match [page] ash_url n i j up down.
Proof.
  intros page.
  assert (E : map url (extract_all_urls_from_pdf "report.pdf" [page])
              = [ash_url]) by reflexivity.
  split; [exact E|].
  apply (proj1 (discovery_recorded_targets "report.pdf" [page] ash_url)).
  rewrite E. apply list_elem_of_here.
Defined.

Lemma classify_in_known (d u : string) :
  classify d None = Some u -> u ∈ known_targets.
Proof.
  unfold classify, known_targets.
  repeat match goal with
         | |- context [Py.contains ?form d] => destruct (Py.contains form d)
         end; intros [= <-]; set_solver.
Qed.

(** X10: discovery mode only makes records for the five targets of its
    chain, so a document gives at most five records. *)
Theorem discovery_known_targets (pdf_name : string) (pages : list string) :
  (forall r, r ∈ extract_all_urls_from_pdf pdf_name pages ->
     url r ∈ known_targets)
  /\ (length (extract_all_urls_from_pdf pdf_name pages) <= 5)%nat.
Proof.
  assert (Hknown : forall r, r ∈ extract_all_urls_from_pdf pdf_name pages ->
    url r ∈ known_targets).
  { intros r (n & i & j & up & down & (text & _ & d & s & _ & _ & Hc & _) & _)
      %extract_all_source.
    by apply classify_in_known in Hc. }
  split; [done|].
  assert (Hnd : NoDup (map url (extract_all_urls_from_pdf pdf_name pages))).
  { unfold extract_all_urls_from_pdf.
    by destruct (walk_pages_inv pdf_name 0 pages initial_state seen_inv_initial). }
  assert (Hsub : map url (extract_all_urls_from_pdf pdf_name pages)
                 ⊆+ known_targets).
  { apply NoDup_submseteq; [done|].
    intros u (r & -> & Hr)%list_elem_of_fmap. by apply Hknown. }
  apply submseteq_length in Hsub. by rewrite length_map in Hsub.
Qed.

Lemma discovery_known_targets_witness :
  let page :=
    "Probe, Group, Device: Local Probe > ash.buenosaires.gob.ar"
    +:+ String newline example_statistics in
  map url (extract_all_urls_from_pdf "report.pdf" [page; page])
  = ["ash.buenosaires.gob.ar/"]
  /\ (length (extract_all_urls_from_pdf "report.pdf" [page; page]) <= 5)%nat.
Proof.
  intros page. split; [reflexivity|].
  apply (proj2 (discovery_known_targets "report.pdf" [page; page])).
Defined.

(** ** The order of the records of discovery mode *)

Lemma core_pagina (r r' : UptimeRecord) : core r = core r' -> pagina r = pagina r'.
Proof. unfold core. congruence. Qed.

Section PageOrder.
Variable pdf_name : string.

Lemma step_line_paged (page_num : nat) (lines : list string) (i : nat)
    (line : string) (st : walk_state) :
  StronglySorted Z.le (map pagina (results st)) ->
  Forall (fun r => 1 <= pagina r <= Z.of_nat page_num + 1) (results st) ->
  StronglySorted Z.le
    (map pagina (results (step_line pdf_name page_num lines i line st)))
  /\ Forall (fun r => 1 <= pagina r <= Z.of_nat page_num + 1)
       (results (step_line pdf_name page_num lines i line st)).
Proof.
  intros Hs Hb.
  destruct (step_line_results pdf_name page_num lines i line st)
    as [->|(u & up & down & r & _ & _ & _ & _ & -> & Hcore)]; [by split|].
  apply core_pagina in Hcore. simpl in Hcore.
  split.
  - rewrite map_app. apply StronglySorted_app. split_and!; [| done |].
    + intros x1 x2 (r1 & -> & Hr1)%list_elem_of_fmap Hx2.
      simpl in Hx2. apply list_elem_of_singleton in Hx2 as ->.
      rewrite Forall_forall in Hb. specialize (Hb r1 Hr1). lia.
    + simpl. repeat constructor.
  - apply Forall_app. split; [done|]. apply Forall_singleton. lia.
Qed.

Lemma walk_lines_paged (page_num : nat) (lines : list string) (i : nat)
    (rest : list string) (st : walk_state) :
  StronglySorted Z.le (map pagina (results st)) ->
  Forall (fun r => 1 <= pagina r <= Z.of_nat page_num + 1) (results st) ->
  StronglySorted Z.le
    (map pagina (results (walk_lines pdf_name page_num lines i rest st)))
  /\ Forall (fun r => 1 <= pagina r <= Z.of_nat page_num + 1)
       (results (walk_lines pdf_name page_num lines i rest st)).
Proof.
  revert i st. induction rest as [|l rest IH]; intros i st Hs Hb; [by split|].
  simpl. destruct (step_line_paged page_num lines i l st Hs Hb).
  by apply IH.
Qed.

Lemma walk_pages_paged (page_num : nat) (pages : list string)
    (st : walk_state) :
  StronglySorted Z.le (map pagina (results st)) ->
  Forall (fun r => 1 <= pagina r <= Z.of_nat page_num) (results st) ->
  StronglySorted Z.le
    (map pagina (results (walk_pages pdf_name page_num pages st)))
  /\ Forall (fun r => 1 <= pagina r <= Z.of_nat (page_num + length pages))
       (results (walk_pages pdf_name page_num pages st)).
Proof.
  revert page_num st. induction pages as [|t pages IH]; intros n st Hs Hb.
  { simpl. by rewrite Nat.add_0_r. }
  simpl.
  destruct (walk_lines_paged n (Py.split_char newline t) 0
              (Py.split_char newline t) (page_start st)) as [Hs' Hb'];
    [done | |].
  { simpl. eapply Forall_impl; [exact Hb|]. simpl. lia. }
  destruct (IH (S n) (walk_page pdf_name n t st)) as [Hs'' Hb''].
  - exact Hs'.
  - eapply Forall_impl; [exact Hb'|]. simpl. lia.
  - split; [done|]. by replace (n + S (length pages))%nat
      with (S n + length pages)%nat by lia.
Qed.
End PageOrder.

(** X11: the records of discovery mode are in page order, and the page
    number of each lies between 1 and the number of pages of the
    document. *)
Theorem discovery_page_order (pdf_name : string) (pages : list string) :
  StronglySorted Z.le (map pagina (extract_all_urls_from_pdf pdf_name pages))
  /\ Forall (fun r => 1 <= pagina r <= Z.of_nat (length pages))
       (extract_all_urls_from_pdf pdf_name pages).
Proof.
  unfold extract_all_urls_from_pdf.
  apply (walk_pages_paged pdf_name 0 pages initial_state); simpl; constructor.
Qed.

(** ** The shape of a record *)

Lemma star_inv_all {A} (p : ascii -> bool) (s : string)
    (k : string -> string -> option A) (a : A) :
  Re.star p s k = Some a ->
  exists x r, all_chars p x = true /\ k x r = Some a.
Proof.
  revert k. induction s as [|c s IH]; intros k H; simpl in H.
  - by exists "", "".
  - destruct (p c) eqn:Hc.
    + destruct (Re.star p s (fun g r => k (String c g) r)) as [b|] eqn:E.
      * injection H as ->. apply IH in E as (x & r & Hx & Hk).
        exists (String c x), r. simpl. by rewrite Hc, Hx.
      * by exists "", (String c s).
    + by exists "", (String c s).
Qed.

Lemma plus_inv {A} (p : ascii -> bool) (s : string)
    (k : string -> string -> option A) (a : A) :
  Re.plus p s k = Some a ->
  exists x r, x <> "" /\ all_chars p x = true /\ k x r = Some a.
Proof.
  unfold Re.plus. intros (x & r & Hx & Hk)%star_inv_all.
  destruct x as [|c x]; [done|]. by exists (String c x), r.
Qed.

Lemma lit_inv {A} (l s : string) (k : string -> option A) (a : A) :
  Re.lit l s k = Some a -> exists r, k r = Some a.
Proof.
  unfold Re.lit. destruct (Py.after_prefix l s) as [r|]; [|done]. eauto.
Qed.

Lemma stat_pattern_shape (label s g1 g2 g3 : string) :
  stat_pattern label s = Some (g1, g2, g3) ->
  percent_text g1 /\ g2 = "%" /\ duration_text g3.
Proof.
  unfold stat_pattern. intros H.
  apply lit_inv in H as (s1 & H).
  apply star_inv_all in H as (_ & s2 & _ & H).
  apply plus_inv in H as (x1 & s3 & Hne1 & Hall1 & H).
  apply star_inv_all in H as (_ & s4 & _ & H).
  apply lit_inv in H as (s5 & H).
  apply star_inv_all in H as (_ & s6 & _ & H).
  apply lit_inv in H as (s7 & H).
  apply plus_inv in H as (x3 & s8 & Hne3 & Hall3 & H).
  apply lit_inv in H as (s9 & H).
  injection H as <- <- <-. by repeat split.
Qed.

Lemma valid_statistics_shape (line : string)
    (up down : string * string * string) :
  valid_statistics line up down ->
  percent_text up.1.1 /\ up.1.2 = "%" /\ duration_text up.2
  /\ percent_text down.1.1 /\ down.1.2 = "%" /\ duration_text down.2.
Proof.
  intros (_ & Hup & Hdown). unfold up_match, down_match in *.
  apply search_inv in Hup as [t Hup]. apply search_inv in Hdown as [t' Hdown].
  destruct up as [[u1 u2] u3], down as [[d1 d2] d3].
  apply stat_pattern_shape in Hup as (? & ? & ?).
  apply stat_pattern_shape in Hdown as (? & ? & ?). done.
Qed.

Lemma well_formed_core (r : UptimeRecord) (pdf_name target : string)
    (n : nat) (line : string) (up down : string * string * string) :
  valid_statistics line up down ->
  core r = core (base_record pdf_name target n up down) -> well_formed r.
Proof.
  intros Hv Hcore.
  destruct (valid_statistics_shape line up down Hv)
    as (? & ? & ? & ? & ? & ?).
  unfold core in Hcore. simpl in Hcore.
  injection Hcore as _ _ E1 E2 E3 E4 E5 E6 _.
  unfold well_formed. rewrite E1, E2, E3, E4, E5, E6.
  split_and!; try done; apply duration_to_seconds_nonneg.
Qed.

(** X6: every record of either mode has the unit [%] on both sides, two
    percentages that are non-empty texts of digits and dots, two duration
    tokens that are non-empty and hold no closing bracket, and two decoded
    durations that are not negative. *)
Theorem records_well_formed (pdf_name : string) (pages : list string) :
  (forall target_url r,
     extract_uptime_stats pdf_name pages target_url = Some r -> well_formed r)
  /\ (forall r,
        r ∈ extract_all_urls_from_pdf pdf_name pages -> well_formed r).
Proof.
  split.
  - intros target_url r
      (n & i & j & up & down & (text & li & lj & Hm) & Hcore)
      %extract_uptime_stats_some.
    destruct Hm as (? & ? & ? & ? & ? & ? & Hv).
    by apply (well_formed_core r pdf_name target_url n lj up down).
  - intros r (n & i & j & up & down & (text & Hn & d & s & Hm) & Hcore)
      %extract_all_source.
    destruct Hm as (? & ? & ? & ? & ? & ? & ? & Hv).
    by apply (well_formed_core r pdf_name (url r) n s up down).
Qed.

Lemma records_well_formed_witness :
  exists r,
    extract_uptime_stats "report.pdf" [example_page] example_target = Some r
    /\ well_formed r.
Proof.
  destruct (extract_uptime_stats "report.pdf" [example_page] example_target)
    as [r|] eqn:E; [|vm_compute in E; discriminate].
  exists r. split; [reflexivity|].
  exact (proj1 (records_well_formed "report.pdf" [example_page])
           example_target r E).
Defined.

(** ** The contextual fields *)

Lemma rstrip_idem (p : ascii -> bool) (s : string) :
  Py.rstrip_with p (Py.rstrip_with p s) = Py.rstrip_with p s.
Proof.
  induction s as [|c s IH]; [done|]. simpl.
  destruct (Py.rstrip_with p s) as [|b r] eqn:E.
  - destruct (p c) eqn:Hc; [done|]. simpl. by rewrite Hc.
  - change (Py.rstrip_with p (String c (String b r)))
      with (match Py.rstrip_with p (String b r) with
            | "" => if p c then "" else String c ""
            | r' => String c r'
            end).
    by rewrite IH.
Qed.

Lemma lstrip_head (p : ascii -> bool) (s : string) :
  head_outside p (Py.lstrip_with p s).
Proof.
  induction s as [|c s IH]; [done|]. simpl.
  destruct (p c) eqn:Hc; [done|]. done.
Qed.

Lemma rstrip_head (p : ascii -> bool) (s : string) :
  head_outside p s -> head_outside p (Py.rstrip_with p s).
Proof.
  destruct s as [|c s]; [done|]. simpl. intros Hc.
  destruct (Py.rstrip_with p s); [by rewrite Hc | done].
Qed.

Lemma lstrip_outside (p : ascii -> bool) (s : string) :
  head_outside p s -> Py.lstrip_with p s = s.
Proof. destruct s as [|c s]; [done|]. simpl. by intros ->. Qed.

(** [strip] does nothing to a text it has produced. *)
Lemma strip_idem (s : string) : Py.strip (Py.strip s) = Py.strip s.
Proof.
  unfold Py.strip.
  rewrite (lstrip_outside Py.is_space (Py.rstrip_with _ _)).
  - apply rstrip_idem.
  - apply rstrip_head, lstrip_head.
Qed.

Lemma after_prefix_inv (t s r : string) :
  Py.after_prefix t s = Some r -> s = t +:+ r.
Proof.
  revert s. induction t as [|b t IH]; intros s H.
  - simpl in H. injection H as ->. by rewrite str_app_nil_l.
  - destruct s as [|a s]; [done|]. simpl in H.
    destruct (Ascii.eqb_spec a b) as [->|]; [|done].
    by rewrite str_app_cons, (IH s H).
Qed.

Lemma after_first_cons (m : string) (c : ascii) (s : string) :
  Py.after_first m (String c s)
  = match Py.after_prefix m (String c s) with
    | Some r => Some r
    | None => Py.after_first m s
    end.
Proof. reflexivity. Qed.

Lemma str_length_app (s t : string) :
  String.length (s +:+ t) = (String.length s + String.length t)%nat.
Proof.
  induction s as [|c s IH]; [by rewrite str_app_nil_l|].
  rewrite str_app_cons. simpl. by rewrite IH.
Qed.

Lemma first_at_nil (m : string) : first_at m "".
Proof.
  intros x y E. rewrite str_app_nil_l in E.
  apply (f_equal String.length) in E. rewrite !str_length_app in E.
  destruct y; [done|]. simpl in E. lia.
Qed.

Lemma first_at_cons (m : string) (c : ascii) (a r : string) :
  (forall z, String c (a +:+ m +:+ r) <> m +:+ z) ->
  first_at m a -> first_at m (String c a).
Proof.
  intros Hn Ha [|b x] y E.
  - rewrite str_app_nil_l in E. exfalso. apply (Hn (y +:+ r)).
    by rewrite <-str_app_cons, <-!str_app_assoc, E.
  - rewrite !str_app_cons in E. injection E as _ E. by apply (Ha x y).
Qed.

Lemma free_of_cons (m : string) (c : ascii) (w : string) :
  (forall z, String c w <> m +:+ z) -> free_of m w -> free_of m (String c w).
Proof.
  intros Hn Hw [|b x] y E.
  - rewrite str_app_nil_l in E. by apply (Hn y).
  - rewrite str_app_cons in E. injection E as _ E. by apply (Hw x y).
Qed.

Lemma after_first_inv (m s r : string) :
  Py.after_first m s = Some r -> exists a, s = a +:+ m +:+ r /\ first_at m a.
Proof.
  induction s as [|c s IH]; intros H.
  - simpl in H. destruct (Py.after_prefix m "") as [r'|] eqn:E; [|done].
    injection H as ->. exists "".
    split; [by apply after_prefix_inv in E | apply first_at_nil].
  - rewrite after_first_cons in H.
    destruct (Py.after_prefix m (String c s)) as [r'|] eqn:E.
    + injection H as ->. exists "".
      split; [by apply after_prefix_inv in E | apply first_at_nil].
    + apply IH in H as (a & -> & Ha). exists (String c a).
      split; [done|]. apply (first_at_cons m c a r); [|done].
      intros z Ez. by rewrite Ez, after_prefix_app in E.
Qed.

Lemma before_first_split (m r : string) :
  exists c, r = Py.before_first m r +:+ c
            /\ ((c = "" /\ free_of m (Py.before_first m r))
                \/ (Py.startswith c m = true
                    /\ first_at m (Py.before_first m r))).
Proof.
  induction r as [|a r (c & E & Hc)].
  - exists "". split; [cbn [Py.before_first]; by destruct (Py.startswith "" m)|].
    destruct (Py.startswith "" m) eqn:Es.
    + right. split; [done|]. cbn [Py.before_first]. rewrite Es.
      apply first_at_nil.
    + left. split; [done|]. cbn [Py.before_first]. rewrite Es.
      intros x y Exy. destruct x; [|done]. rewrite str_app_nil_l in Exy.
      destruct m; [done|done].
  - cbn [Py.before_first]. destruct (Py.startswith (String a r) m) eqn:Es.
    + exists (String a r). split; [by rewrite str_app_nil_l|].
      right. split; [done | apply first_at_nil].
    + assert (Hn : forall z, String a r <> m +:+ z).
      { intros z Ez. by rewrite Ez, startswith_app in Es. }
      exists c. split; [by rewrite str_app_cons, <-E|].
      destruct Hc as [[-> Hw]|[Hs Hw]].
      * left. split; [done|]. apply free_of_cons; [|done].
        rewrite str_app_nil_r in E. by rewrite <-E.
      * right. split; [done|].
        apply startswith_inv in Hs as [c' ->].
        apply (first_at_cons m a _ c'); [|done]. by rewrite <-E.
Qed.

Lemma split_field1_inv (m l w : string) :
  Py.split_field1 m l = Some w -> field_of m l w.
Proof.
  unfold Py.split_field1. destruct (Py.after_first m l) as [r|] eqn:E; [|done].
  intros [= <-]. apply after_first_inv in E as (a & -> & Ha).
  destruct (before_first_split m r) as (c & Er & Hc).
  exists a, c. split; [by rewrite <-Er|]. by split.
Qed.

Lemma lstrip_spaces (s : string) :
  exists x, s = x +:+ Py.lstrip_with Py.is_space s
            /\ all_chars Py.is_space x = true.
Proof.
  induction s as [|a s (x & E & Hx)]; [by exists ""|].
  cbn [Py.lstrip_with]. destruct (Py.is_space a) eqn:Ha; [|by exists ""].
  exists (String a x). split; [by rewrite str_app_cons, <-E|].
  simpl. by rewrite Ha.
Qed.

Lemma rstrip_spaces (s : string) :
  exists y, s = Py.rstrip_with Py.is_space s +:+ y
            /\ all_chars Py.is_space y = true.
Proof.
  induction s as [|a s (y & E & Hy)]; [by exists ""|].
  cbn [Py.rstrip_with]. destruct (Py.rstrip_with Py.is_space s) as [|b r].
  - rewrite str_app_nil_l in E. subst y.
    destruct (Py.is_space a) eqn:Ha.
    + exists (String a s). split; [done|]. simpl. by rewrite Ha.
    + by exists s.
  - exists y. split; [|done]. by rewrite str_app_cons, <-E.
Qed.

Lemma stripped_strip (w : string) : stripped w (Py.strip w).
Proof.
  split; [done|]. unfold Py.strip.
  destruct (lstrip_spaces w) as (x & Ex & Hx).
  destruct (rstrip_spaces (Py.lstrip_with Py.is_space w)) as (y & Ey & Hy).
  exists x, y. split; [|done]. by rewrite <-Ey.
Qed.

Lemma count_char_app (c : ascii) (s t : string) :
  count_char c (s +:+ t) = (count_char c s + count_char c t)%nat.
Proof.
  induction s as [|a s IH]; [by rewrite str_app_nil_l|].
  rewrite str_app_cons. simpl. rewrite IH. lia.
Qed.

Lemma count_char_free (c : ascii) (s : string) :
  count_char c s = O -> all_chars (fun x => negb (Ascii.eqb x c)) s = true.
Proof.
  induction s as [|a s IH]; [done|]. simpl.
  destruct (Ascii.eqb a c); [done|]. intros H. by rewrite IH.
Qed.

Lemma split_char_single (c : ascii) (s x : string) :
  Py.split_char c s = [x] -> count_char c s = O /\ x = s.
Proof.
  revert x. induction s as [|a s IH]; intros x H.
  - simpl in H. by injection H as <-.
  - simpl in H. simpl. destruct (Ascii.eqb a c).
    + destruct (split_char_head c s) as (y & ys & b & E & _).
      rewrite E in H. done.
    + destruct (Py.split_char c s) as [|y ys] eqn:E; [|].
      * destruct (split_char_head c s) as (y & ys & b & E' & _). congruence.
      * injection H as <- ->. destruct (IH y eq_refl) as [-> ->]. done.
Qed.

(** [s.split(c)[-1]] is all of [s] when [c] does not occur, and else the
    text after its last occurrence. *)
Lemma split_last_spec (c : ascii) (s : string) :
  all_chars (fun x => negb (Ascii.eqb x c)) (Py.split_last c s) = true
  /\ ((count_char c s = O /\ Py.split_last c s = s)
      \/ exists a, s = a +:+ String c (Py.split_last c s)).
Proof.
  unfold Py.split_last. induction s as [|a s [IHall IH]]; [by split; [|left]|].
  cbn [Py.split_char count_char].
  destruct (split_char_head c s) as (x & xs & b & E & _).
  destruct (Ascii.eqb a c) eqn:Eac.
  - apply Ascii.eqb_eq in Eac as ->.
    assert (El : List.last ("" :: Py.split_char c s) ""
                 = List.last (Py.split_char c s) "").
    { by rewrite E. }
    rewrite El. split; [done|]. right.
    destruct IH as [[_ ->]|[a' Ea]]; [by exists ""|].
    exists (String c a'). by rewrite str_app_cons, <-Ea.
  - rewrite E in *. destruct xs as [|y ys].
    + destruct (split_char_single c s x E) as [H0 ->].
      simpl. rewrite Eac. simpl. split.
      * by apply count_char_free.
      * left. by rewrite H0.
    + change (List.last (String a x :: y :: ys) "")
        with (List.last (x :: y :: ys) "").
      split; [done|]. right.
      destruct IH as [[H0 _]|[a' Ea]].
      * apply (split_char_none c) in H0. congruence.
      * exists (String a a'). by rewrite str_app_cons, <-Ea.
Qed.

Lemma contains_colon (m l : string) :
  Py.contains m l = true -> (0 < count_char ":" m)%nat ->
  after_last_colon l (Py.split_last ":" l).
Proof.
  intros (pre & post & ->)%contains_inv Hm.
  destruct (split_last_spec ":" (pre +:+ m +:+ post)) as [Hall [[H0 _]|[a Ea]]].
  - rewrite !count_char_app in H0. lia.
  - split; [done|]. exists a.
    by rewrite str_app_cons, str_app_nil_l.
Qed.

Lemma field_ok_none (read : string -> string -> string -> Prop)
    (markers lines : list string) :
  field_ok read markers lines None.
Proof. split_and!; [done | by intros [? ?] | done]. Qed.

Lemma field_ok_here (read : string -> string -> string -> Prop)
    (markers lines : list string) (l m w : string) :
  l ∈ lines -> m ∈ markers -> Py.contains m l = true -> read m l w ->
  field_ok read markers lines (Some (Py.strip w)).
Proof.
  intros Hl Hm Hc Hr. split_and!.
  - intros v [= <-]. apply strip_idem.
  - intros _. by exists l, m.
  - intros v [= <-]. exists l, m, w. split_and!; try done.
    apply stripped_strip.
Qed.

Lemma context_ok_base (lines : list string) (pdf_name target : string)
    (n : nat) (up down : string * string * string) :
  context_ok lines (base_record pdf_name target n up down).
Proof. unfold context_ok. simpl. split_and!; apply field_ok_none. Qed.

Lemma enrich_line_context (lines : list string) (l : string)
    (r : UptimeRecord) :
  l ∈ lines -> context_ok lines r -> context_ok lines (enrich_line l r).
Proof.
  intros Hl (H1 & H2 & H3 & H4). unfold enrich_line.
  destruct (Py.contains "Report Time Span:" l) eqn:E1.
  { destruct (Py.split_field1 "Report Time Span:" l) as [w|] eqn:Ew;
      [|done].
    split_and!; simpl; try done.
    apply (field_ok_here _ _ _ l "Report Time Span:");
      [done | set_solver | done | by apply split_field1_inv]. }
  destruct (Py.contains "Report Hours:" l) eqn:E2.
  { destruct (Py.split_field1 "Report Hours:" l) as [w|] eqn:Ew; [|done].
    split_and!; simpl; try done.
    apply (field_ok_here _ _ _ l "Report Hours:");
      [done | set_solver | done | by apply split_field1_inv]. }
  destruct (Py.contains "Sensor Type:" l) eqn:E3.
  { destruct (Py.split_field1 "Sensor Type:" l) as [w|] eqn:Ew; [|done].
    split_and!; simpl; try done.
    apply (field_ok_here _ _ _ l "Sensor Type:");
      [done | set_solver | done | by apply split_field1_inv]. }
  destruct (Py.contains "Average (Loading time):" l) eqn:E4; simpl.
  { split_and!; simpl; try done.
    apply (field_ok_here _ _ _ l "Average (Loading time):");
      [done | set_solver | done |].
    apply (contains_colon _ _ E4). simpl. lia. }
  destruct (Py.contains "Average (Loading Time):" l) eqn:E5; [|done].
  split_and!; simpl; try done.
  apply (field_ok_here _ _ _ l "Average (Loading Time):");
    [done | set_solver | done |].
  apply (contains_colon _ _ E5). simpl. lia.
Qed.

Lemma enrich_at_context (lines : list string) (k : Z) (r : UptimeRecord) :
  context_ok lines r -> context_ok lines (enrich_at lines k r).
Proof.
  intros H. unfold enrich_at. destruct (lines !! Z.to_nat k) as [l|] eqn:E;
    [|done].
  apply enrich_line_context; [|done]. by apply list_elem_of_lookup_2 in E.
Qed.

Lemma enrich_context (lines : list string) (ks : list Z) (r : UptimeRecord) :
  context_ok lines r -> context_ok lines (enrich lines ks r).
Proof.
  unfold enrich. revert r. induction ks as [|k ks IH]; intros r H; [done|].
  simpl. by apply IH, enrich_at_context.
Qed.

Lemma enrich_guarded_context (lines : list string) (ks : list Z)
    (r : UptimeRecord) :
  context_ok lines r -> context_ok lines (enrich_guarded lines ks r).
Proof.
  unfold enrich_guarded. revert r.
  induction ks as [|k ks IH]; intros r H; [done|].
  simpl. apply IH. destruct (0 <=? k); [|done]. by apply enrich_at_context.
Qed.

Section Enriched.
Variable pdf_name : string.

Lemma stats_window_context (target_url : string) (page_num : nat)
    (lines : list string) (i : nat) (js : list nat) (r : UptimeRecord) :
  stats_window pdf_name target_url page_num lines i js = Some r ->
  context_ok lines r.
Proof.
  induction js as [|j js IH]; [done|]. simpl.
  destruct (lines !! j) as [lj|]; [|done].
  destruct (Py.contains stats_marker lj); [|done].
  destruct (up_match lj) as [up|]; [|done].
  destruct (down_match lj) as [down|]; [|done].
  intros [= <-]. apply enrich_guarded_context, context_ok_base.
Qed.

Lemma scan_lines_context (target_url : string) (page_num : nat)
    (lines : list string) (i : nat) (rest : list string) (r : UptimeRecord) :
  scan_lines pdf_name target_url page_num lines i rest = Some r ->
  context_ok lines r.
Proof.
  revert i. induction rest as [|l rest IH]; intros i; [done|]. simpl.
  destruct (declares l target_url); [|apply IH].
  destruct (stats_window pdf_name target_url page_num lines i _) eqn:E;
    [|apply IH].
  intros [= <-]. by apply stats_window_context in E.
Qed.

Lemma step_line_context (Good : UptimeRecord -> Prop) (page_num : nat)
    (lines : list string) (i : nat) (line : string) (st : walk_state) :
  (forall r, context_ok lines r ->
     pagina r = Z.of_nat page_num + 1 -> Good r) ->
  Forall Good (results st) ->
  Forall Good (results (step_line pdf_name page_num lines i line st)).
Proof.
  intros HGood Hres. unfold step_line.
  destruct (Py.contains declaration_marker line).
  { by destruct (Py.contains "buenosaires.gob.ar" line). }
  destruct (current_url st) as [u|]; [|done].
  destruct (_ && _ && _); [|done].
  destruct (up_match line) as [up|]; [|done].
  destruct (down_match line) as [down|]; [|done]. simpl.
  apply Forall_app. split; [done|]. apply Forall_singleton. apply HGood.
  - apply enrich_context, context_ok_base.
  - rewrite (core_pagina _ _ (enrich_core _ _ _)). done.
Qed.

Lemma walk_lines_context (Good : UptimeRecord -> Prop) (page_num : nat)
    (lines : list string) (i : nat) (rest : list string) (st : walk_state) :
  (forall r, context_ok lines r ->
     pagina r = Z.of_nat page_num + 1 -> Good r) ->
  Forall Good (results st) ->
  Forall Good (results (walk_lines pdf_name page_num lines i rest st)).
Proof.
  intros HGood. revert i st.
  induction rest as [|l rest IH]; intros i st Hres; [done|].
  simpl. by apply IH, step_line_context.
Qed.

Lemma walk_pages_context (pages : list string)
    (Good : UptimeRecord -> Prop) :
  (forall r n text,
     pages !! n = Some text -> context_ok (Py.split_char newline text) r ->
     pagina r = Z.of_nat n + 1 -> Good r) ->
  forall rest before st,
    pages = before ++ rest ->
    Forall Good (results st) ->
    Forall Good (results (walk_pages pdf_name (length before) rest st)).
Proof.
  intros HGood. induction rest as [|text rest IH];
    intros before st Hpages Hres; [done|].
  simpl. specialize (IH (before ++ [text])
    (walk_page pdf_name (length before) text st)).
  rewrite length_app in IH. simpl in IH. rewrite Nat.add_1_r in IH.
  apply IH; [by rewrite <-app_assoc|].
  unfold walk_page. apply walk_lines_context; [|done].
  intros r Hctx Hp. apply (HGood r (length before) text); try done.
  subst pages. by apply list_lookup_middle.
Qed.
End Enriched.

(** X13: the four contextual fields of a record, in either mode, are texts
    of the page of the record: a field that is set holds, with the blanks
    at its two ends removed, what stands on a line of that page after the
    first occurrence of the marker of the field, up to the next occurrence
    of the marker or the end of the line, and for the average loading time
    what stands after the
    last colon of a line with one of its two markers.  A field is set only
    if a line of the page holds its marker. *)
Theorem context_fields_source (pdf_name : string) (pages : list string) :
  (forall target_url r,
     extract_uptime_stats pdf_name pages target_url = Some r ->
     exists n text,
       pages !! n = Some text /\ pagina r = Z.of_nat n + 1
       /\ context_ok (Py.split_char newline text) r)
  /\ (forall r,
        r ∈ extract_all_urls_from_pdf pdf_name pages ->
        exists n text,
          pages !! n = Some text /\ pagina r = Z.of_nat n + 1
          /\ context_ok (Py.split_char newline text) r).
Proof.
  split.
  - intros target_url r H. unfold extract_uptime_stats in H.
    apply scan_pages_some in H as (n & text & Hn & Hp). simpl in Hp.
    exists n, text. split; [done|].
    pose proof (scan_page_some _ _ _ _ _ Hp)
      as (_ & i & j & li & lj & up & down & _ & _ & _ & _ & _ & Hcore).
    split; [by rewrite (core_pagina _ _ Hcore)|].
    unfold scan_page in Hp. destruct (Py.contains target_url text); [|done].
    by apply scan_lines_context in Hp.
  - intros r Hr. unfold extract_all_urls_from_pdf in Hr.
    set (Good := fun r : UptimeRecord => exists n text,
           pages !! n = Some text /\ pagina r = Z.of_nat n + 1
           /\ context_ok (Py.split_char newline text) r).
    assert (HG : forall r n text,
      pages !! n = Some text -> context_ok (Py.split_char newline text) r ->
      pagina r = Z.of_nat n + 1 -> Good r).
    { intros r' n text ? ? ?. by exists n, text. }
    pose proof (walk_pages_context pdf_name pages Good HG pages []
                  initial_state eq_refl (Forall_nil_2 _)) as H.
    rewrite Forall_forall in H. by apply H.
Qed.

Lemma context_fields_source_witness :
  let page :=
    "Report Time Span:  01/01/2024 - 31/01/2024 " +:+ String newline example_page in
  exists r,
    extract_uptime_stats "report.pdf" [page] example_target = Some r
    /\ periodo_reporte r = Some "01/01/2024 - 31/01/2024"
    /\ exists n text,
         [page] !! n = Some text /\ pagina r = Z.of_nat n + 1
         /\ context_ok (Py.split_char newline text) r.
Proof.
  intros page.
  destruct (extract_uptime_stats "report.pdf" [page] example_target)
    as [r|] eqn:E; [|vm_compute in E; discriminate].
  exists r. split; [reflexivity|]. split.
  - vm_compute in E. injection E as <-. reflexivity.
  - exact (proj1 (context_fields_source "report.pdf" [page])
             example_target r E).
Defined.

(** ** The rows of a run *)

Lemma csv_record_seconds (r : UptimeRecord) :
  csv_record r !! "uptime_segundos" = Some (Py.str (uptime_segundos r))
  /\ csv_record r !! "downtime_segundos" = Some (Py.str (downtime_segundos r)).
Proof.
  unfold csv_record. split.
  - rewrite !lookup_insert_ne by done. by rewrite lookup_insert_eq.
  - rewrite !lookup_insert_ne by done. by rewrite lookup_insert_eq.
Qed.

Lemma field_seconds_csv_record (r : UptimeRecord) :
  field_seconds "uptime_segundos" (csv_record r) = uptime_segundos r
  /\ field_seconds "downtime_segundos" (csv_record r) = downtime_segundos r.
Proof.
  unfold field_seconds. destruct (csv_record_seconds r) as [-> ->]. simpl.
  by rewrite !int_str by apply duration_to_seconds_nonneg.
Qed.

Lemma column_sum_csv_records (records : list UptimeRecord) :
  column_sum "uptime_segundos" (Some (csv_record <$> records))
  = foldr (fun r acc => uptime_segundos r + acc) 0 records
  /\ column_sum "downtime_segundos" (Some (csv_record <$> records))
     = foldr (fun r acc => downtime_segundos r + acc) 0 records.
Proof.
  unfold column_sum. cbn [default]. unfold id.
  induction records as [|r rs [IH1 IH2]]; [done|].
  rewrite fmap_cons. cbn [foldr].
  destruct (field_seconds_csv_record r) as [-> ->]. by rewrite IH1, IH2.
Qed.

Lemma statistics_counters (main ash : option (list (gmap string string)))
    (st : statistics) :
  calculate_downtime_statistics main ash = Ok st ->
  main_url_uptime st = column_sum "uptime_segundos" main
  /\ main_url_downtime st = column_sum "downtime_segundos" main
  /\ ash_url_uptime st = column_sum "uptime_segundos" ash
  /\ ash_url_downtime st = column_sum "downtime_segundos" ash
  /\ total_time st
     = column_sum "uptime_segundos" main + column_sum "downtime_segundos" main
       + column_sum "uptime_segundos" ash + column_sum "downtime_segundos" ash.
Proof.
  unfold calculate_downtime_statistics. rewrite !sum_rows_columns. cbn zeta.
  destruct (0 <? _); [destruct (Float.true_divide _ _); [|done]|];
    by intros [= <-].
Qed.

Lemma finish_fields (mains ashes : list UptimeRecord)
    (files2 : gmap string (list (gmap string string)))
    (excel : option (Z * string)) (shown : option number) :
  AshExcel.summary (AshExcel.finish mains ashes files2 excel shown) = excel
  /\ AshExcel.percentage_shown (AshExcel.finish mains ashes files2 excel shown)
     = shown.
Proof.
  unfold AshExcel.finish.
  destruct mains, ashes; try done;
    by destruct (calculate_downtime_statistics _ _).
Qed.

Lemma finish_final (mains ashes : list UptimeRecord)
    (files2 : gmap string (list (gmap string string)))
    (excel : option (Z * string)) (shown : option number) (st : statistics) :
  AshExcel.final_statistics (AshExcel.finish mains ashes files2 excel shown)
  = Some st ->
  let files3 :=
    match ashes with
    | [] => files2
    | _ => <[ash_csv := csv_record <$> ashes]> files2
    end in
  (mains <> [] \/ ashes <> [])
  /\ calculate_downtime_statistics (files3 !! main_csv) (files3 !! ash_csv)
     = Ok st.
Proof.
  intros H. cbv zeta. unfold AshExcel.finish in H.
  destruct mains as [|m ms], ashes as [|a ashes']; [done | | |];
    (split; [first [by left | by right]|]);
    destruct (calculate_downtime_statistics _ _); by try injection H as ->.
Qed.

(** The store at the time the summary is made. *)
Lemma run_summary (pdf_files : list (string * list string))
    (files0 : gmap string (list (gmap string string))) :
  let run := AshExcel.process_all_pdfs pdf_files files0 in
  let mains := filter (fun r => url r = main_url) (all_results pdf_files) in
  let written :=
    <[main_csv := csv_record <$> mains]>
      (<[report_csv := csv_record <$> all_results pdf_files]> files0) in
  (forall x, AshExcel.summary run = Some x ->
     mains <> [] /\ AshExcel.create_summary_excel written = Ok x)
  /\ (forall v, AshExcel.percentage_shown run = Some v ->
        mains <> [] /\ AshExcel.summary_percentage written = Ok v).
Proof.
  intros run mains written. unfold run, AshExcel.process_all_pdfs.
  destruct (all_results pdf_files) as [|r0 rs] eqn:Eall; [done|].
  fold mains. fold written.
  destruct mains as [|m ms] eqn:Em.
  { destruct (finish_fields [] (filter (fun r => url r = ash_url) (r0 :: rs))
                (<[report_csv := csv_record <$> r0 :: rs]> files0) None None)
      as [-> ->]. done. }
  destruct (calculate_downtime_statistics _ _); [|done].
  destruct (AshExcel.create_summary_excel written) as [excel|e]; [|done].
  destruct (AshExcel.summary_percentage written) as [shown|e]; [|done].
  destruct (finish_fields (m :: ms)
              (filter (fun r => url r = ash_url) (r0 :: rs)) written
              (Some excel) (Some shown)) as [-> ->].
  split; by intros ? [= <-].
Qed.

(** X12: the summary of a run is written when the run has a record for the
    main address, and before the CSV file of the ASH address is written:
    its total is the downtime of the main records of this run plus the
    downtime column of the ASH file as the folder held it before the run,
    never that of the ASH records of this run; without an earlier ASH file
    the total is the main downtime alone.  Its text is the clock text of
    the total. *)
Theorem summary_reads_earlier_ash_file
    (pdf_files : list (string * list string))
    (files0 : gmap string (list (gmap string string)))
    (total : Z) (text : string) :
  AshExcel.summary (AshExcel.process_all_pdfs pdf_files files0)
  = Some (total, text) ->
  let mains := filter (fun r => url r = main_url) (all_results pdf_files) in
  mains <> []
  /\ total = foldr (fun r acc => downtime_segundos r + acc) 0 mains
             + column_sum "downtime_segundos" (files0 !! ash_csv)
  /\ (files0 !! ash_csv = None ->
      total = foldr (fun r acc => downtime_segundos r + acc) 0 mains)
  /\ text = clock_format total.
Proof.
  intros H mains.
  destruct (proj1 (run_summary pdf_files files0) _ H) as [Hne Hx].
  fold mains in Hne, Hx. unfold AshExcel.create_summary_excel in Hx.
  rewrite lookup_insert_eq in Hx.
  rewrite !lookup_insert_ne in Hx by done.
  destruct (calculate_downtime_statistics _ _) as [st|e] eqn:E; [|done].
  injection Hx as Ht Htext.
  destruct (statistics_counters _ _ st E) as (_ & Hmd & _ & Had & _).
  rewrite Hmd, Had in Ht, Htext.
  rewrite (proj2 (column_sum_csv_records mains)) in Ht, Htext.
  split_and!; [done | done | | by rewrite <-Ht].
  intros Hnone. rewrite Hnone in Ht. rewrite <-Ht.
  unfold column_sum. cbn [default foldr]. lia.
Qed.

Lemma summary_reads_earlier_ash_file_witness :
  let main_page :=
    "Probe, Group, Device: Local Probe > https://buenosaires.gob.ar/"
    +:+ String newline example_statistics in
  let ash_page :=
    "Probe, Group, Device: Local Probe > ash.buenosaires.gob.ar"
    +:+ String newline example_statistics in
  let folder := [("report.pdf", [main_page; ash_page])] in
  map url (all_results folder) = [main_url; ash_url]
  /\ AshExcel.summary (AshExcel.process_all_pdfs folder ∅)
     = Some (600, "00:10:00").
Proof.
  intros main_page ash_page folder. split; [reflexivity|].
  destruct (AshExcel.summary (AshExcel.process_all_pdfs folder ∅))
    as [[total text]|] eqn:E; [|vm_compute in E; discriminate].
  destruct (summary_reads_earlier_ash_file folder ∅ total text E)
    as (_ & _ & Ht & Htext).
  specialize (Ht eq_refl). rewrite Htext, Ht. reflexivity.
Defined.

(** X14: the statistics at the end of a run read the two filtered files as
    the run leaves them: a file this run wrote gives the sums over the
    records of this run for its address, a file it did not write, because
    the run has no record for that address, is read as the folder held it
    before. *)
Theorem final_statistics_sources
    (pdf_files : list (string * list string))
    (files0 : gmap string (list (gmap string string))) (st : statistics) :
  AshExcel.final_statistics (AshExcel.process_all_pdfs pdf_files files0)
  = Some st ->
  let mains := filter (fun r => url r = main_url) (all_results pdf_files) in
  let ashes := filter (fun r => url r = ash_url) (all_results pdf_files) in
  (mains <> [] \/ ashes <> [])
  /\ main_url_downtime st
     = match mains with
       | [] => column_sum "downtime_segundos" (files0 !! main_csv)
       | _ => foldr (fun r acc => downtime_segundos r + acc) 0 mains
       end
  /\ main_url_uptime st
     = match mains with
       | [] => column_sum "uptime_segundos" (files0 !! main_csv)
       | _ => foldr (fun r acc => uptime_segundos r + acc) 0 mains
       end
  /\ ash_url_downtime st
     = match ashes with
       | [] => column_sum "downtime_segundos" (files0 !! ash_csv)
       | _ => foldr (fun r acc => downtime_segundos r + acc) 0 ashes
       end
  /\ ash_url_uptime st
     = match ashes with
       | [] => column_sum "uptime_segundos" (files0 !! ash_csv)
       | _ => foldr (fun r acc => uptime_segundos r + acc) 0 ashes
       end.
Proof.
  intros H mains ashes. unfold AshExcel.process_all_pdfs in H.
  destruct (all_results pdf_files) as [|r0 rs] eqn:Eall; [done|].
  fold mains ashes in H.
  assert (Hfinal : exists files2 excel shown,
    AshExcel.final_statistics
      (AshExcel.finish mains ashes files2 excel shown) = Some st
    /\ files2 !! ash_csv = files0 !! ash_csv
    /\ files2 !! main_csv
       = match mains with
         | [] => files0 !! main_csv
         | _ => Some (csv_record <$> mains)
         end).
  { destruct mains as [|m ms] eqn:Em.
    - eexists _, _, _. split; [exact H|].
      by rewrite !lookup_insert_ne by done.
    - destruct (calculate_downtime_statistics _ _); [|done].
      destruct (AshExcel.create_summary_excel _); [|done].
      destruct (AshExcel.summary_percentage _); [|done].
      eexists _, _, _. split; [exact H|].
      rewrite lookup_insert_eq. by rewrite !lookup_insert_ne by done. }
  clear H. destruct Hfinal as (files2 & excel & shown & H & Hash & Hmain).
  apply finish_final in H as [Hne H]. split; [done|].
  apply statistics_counters in H as (-> & -> & -> & -> & _).
  destruct ashes as [|a ashes'] eqn:Ea.
  - rewrite Hash, Hmain.
    destruct mains as [|m ms]; [done|].
    by rewrite (proj1 (column_sum_csv_records _)),
      (proj2 (column_sum_csv_records _)).
  - rewrite lookup_insert_eq, lookup_insert_ne by done. rewrite Hmain.
    rewrite (proj1 (column_sum_csv_records (a :: ashes'))),
      (proj2 (column_sum_csv_records (a :: ashes'))).
    destruct mains as [|m ms]; [done|].
    by rewrite (proj1 (column_sum_csv_records _)),
      (proj2 (column_sum_csv_records _)).
Qed.

Lemma final_statistics_sources_witness :
  let ash_page :=
    "Probe, Group, Device: Local Probe > ash.buenosaires.gob.ar"
    +:+ String newline example_statistics in
  let folder := [("report.pdf", [ash_page])] in
  option_map ash_url_downtime
    (AshExcel.final_statistics (AshExcel.process_all_pdfs folder ∅))
  = Some 600.
Proof.
  intros ash_page folder.
  destruct (AshExcel.final_statistics (AshExcel.process_all_pdfs folder ∅))
    as [st|] eqn:E; [|vm_compute in E; discriminate].
  destruct (final_statistics_sources folder ∅ st E) as (_ & _ & _ & Ha & _).
  simpl. f_equal. rewrite Ha. reflexivity.
Defined.

(** ** The records of a folder *)

Lemma core_archivo_pdf (r r' : UptimeRecord) :
  core r = core r' -> archivo_pdf r = archivo_pdf r'.
Proof. unfold core. congruence. Qed.

Lemma document_results_elem (pdf : string * list string) (r : UptimeRecord) :
  r ∈ document_results pdf ->
  (extract_uptime_stats pdf.1 pdf.2 main_url = Some r /\ url r = main_url)
  \/ (r ∈ extract_all_urls_from_pdf pdf.1 pdf.2 /\ url r <> main_url).
Proof.
  unfold document_results. intros [H|H]%elem_of_app.
  - left. destruct (extract_uptime_stats pdf.1 pdf.2 main_url) as [r'|] eqn:E;
      [|by apply elem_of_nil in H].
    apply list_elem_of_singleton in H as ->. split; [done|].
    apply extract_uptime_stats_some in E as (n & i & j & up & down & _ & Hc).
    by rewrite (core_url _ _ Hc).
  - right. by apply list_elem_of_filter in H as [? ?].
Qed.

Lemma document_results_name (pdf : string * list string) (r : UptimeRecord) :
  r ∈ document_results pdf -> archivo_pdf r = pdf.1.
Proof.
  intros [[E _]|[H _]]%document_results_elem.
  - apply extract_uptime_stats_some in E as (n & i & j & up & down & _ & Hc).
    by rewrite (core_archivo_pdf _ _ Hc).
  - apply extract_all_source in H as (n & i & j & up & down & _ & Hc).
    by rewrite (core_archivo_pdf _ _ Hc).
Qed.

Lemma document_results_targets (pdf : string * list string) :
  NoDup (map url (document_results pdf)).
Proof.
  assert (Hd : NoDup (map url (filter (fun res => url res <> main_url)
                                 (extract_all_urls_from_pdf pdf.1 pdf.2)))).
  { apply (sublist_NoDup _ (map url (extract_all_urls_from_pdf pdf.1 pdf.2))).
    - unfold extract_all_urls_from_pdf.
      by destruct (walk_pages_inv pdf.1 0 pdf.2 initial_state
                     seen_inv_initial).
    - apply (fmap_sublist url), sublist_filter. }
  unfold document_results.
  destruct (extract_uptime_stats pdf.1 pdf.2 main_url) as [r|] eqn:E;
    [|exact Hd].
  apply extract_uptime_stats_some in E as (n & i & j & up & down & _ & Hc).
  simpl. apply NoDup_cons. split; [|done]. rewrite (core_url _ _ Hc). simpl.
  by intros (r' & Hu & [Hne _]%list_elem_of_filter)%list_elem_of_fmap.
Qed.

Lemma all_results_cons (pdf : string * list string)
    (pdf_files : list (string * list string)) :
  all_results (pdf :: pdf_files)
  = document_results pdf ++ all_results pdf_files.
Proof. reflexivity. Qed.

Lemma all_results_name (pdf_files : list (string * list string))
    (r : UptimeRecord) :
  r ∈ all_results pdf_files -> archivo_pdf r ∈ map fst pdf_files.
Proof.
  induction pdf_files as [|pdf rest IH]; [by intros ?%elem_of_nil|].
  rewrite all_results_cons. intros [H|H]%elem_of_app; simpl.
  - rewrite (document_results_name pdf r H). by left.
  - right. by apply IH.
Qed.

Lemma filter_target_length (u : string) (rs : list UptimeRecord) :
  NoDup (map url rs) ->
  (length (filter (fun r => url r = u) rs) <= 1)%nat.
Proof.
  induction rs as [|r rs IH]; simpl; [lia|].
  intros [Hr Hrs]%NoDup_cons. rewrite filter_cons.
  destruct (decide (url r = u)) as [E|E]; [|by apply IH].
  assert (filter (fun r => url r = u) rs = []) as ->; [|simpl; lia].
  destruct (filter (fun r => url r = u) rs) as [|r' l] eqn:Ef; [done|].
  exfalso. apply Hr.
  assert (Hin : r' ∈ filter (fun r => url r = u) rs) by (rewrite Ef; left).
  apply list_elem_of_filter in Hin as [Hu Hin].
  rewrite E, <-Hu. by apply list_elem_of_fmap_2.
Qed.

(** X15: the records of a folder are keyed by document and target: every
    record bears the name of a file of the folder, and when the files have
    distinct names no two records have the same file name and the same
    target. *)
Theorem corpus_keys_unique (pdf_files : list (string * list string)) :
  NoDup (map fst pdf_files) ->
  (forall r, r ∈ all_results pdf_files ->
     archivo_pdf r ∈ map fst pdf_files)
  /\ NoDup (map (fun r => (archivo_pdf r, url r)) (all_results pdf_files)).
Proof.
  intros Hnames. split; [apply all_results_name|].
  induction pdf_files as [|pdf rest IH]; [apply NoDup_nil_2|].
  simpl in Hnames. apply NoDup_cons in Hnames as [Hpdf Hrest].
  rewrite all_results_cons, map_app. apply NoDup_app. split_and!.
  - apply (NoDup_fmap_2_strong _ (document_results pdf)).
    + intros x y Hx Hy [= _ Hu].
      pose proof (document_results_targets pdf) as Hd.
      revert x y Hx Hy Hu.
      induction (document_results pdf) as [|a l IHl]; intros x y Hx Hy Hu;
        [by apply elem_of_nil in Hx|].
      simpl in Hd. apply NoDup_cons in Hd as [Ha Hl].
      apply elem_of_cons in Hx as [->|Hx];
        apply elem_of_cons in Hy as [->|Hy]; [done | | | by apply IHl].
      * exfalso. apply Ha. rewrite Hu. by apply list_elem_of_fmap_2.
      * exfalso. apply Ha. rewrite <-Hu. by apply list_elem_of_fmap_2.
    + eapply NoDup_fmap_1, document_results_targets.
  - intros k (x & -> & Hx)%list_elem_of_fmap (y & [= Hn _] & Hy)%list_elem_of_fmap.
    apply Hpdf. rewrite <-(document_results_name pdf x Hx), Hn.
    by apply all_results_name.
  - by apply IH.
Qed.

Lemma corpus_keys_unique_witness :
  let main_page :=
    "Probe, Group, Device: Local Probe > https://buenosaires.gob.ar/"
    +:+ String newline example_statistics in
  let ash_page :=
    "Probe, Group, Device: Local Probe > ash.buenosaires.gob.ar"
    +:+ String newline example_statistics in
  let folder := [("a.pdf", [main_page; ash_page]); ("b.pdf", [ash_page])] in
  NoDup (map fst folder)
  /\ map (fun r => (archivo_pdf r, url r)) (all_results folder)
     = [("a.pdf", main_url); ("a.pdf", ash_url); ("b.pdf", ash_url)]
  /\ NoDup (map (fun r => (archivo_pdf r, url r)) (all_results folder)).
Proof.
  intros main_page ash_page folder.
  assert (Hnames : NoDup (map fst folder)).
  { simpl. apply NoDup_cons; split;
      [by intros [= ]%list_elem_of_singleton | apply NoDup_singleton]. }
  split_and!; [exact Hnames | reflexivity |].
  apply (corpus_keys_unique folder Hnames).
Defined.

(** X16: a folder gives at most one record per document for any one
    target, so each of the two filtered files of a run has at most as many
    rows as the folder has files. *)
Theorem filtered_rows_per_document
    (pdf_files : list (string * list string)) (u : string) :
  (forall pdf,
     (length (filter (fun r => url r = u) (document_results pdf)) <= 1)%nat)
  /\ (length (filter (fun r => url r = u) (all_results pdf_files))
      <= length pdf_files)%nat.
Proof.
  assert (H1 : forall pdf,
    (length (filter (fun r => url r = u) (document_results pdf)) <= 1)%nat).
  { intros pdf. apply filter_target_length, document_results_targets. }
  split; [done|].
  induction pdf_files as [|pdf rest IH]; [done|].
  rewrite all_results_cons, filter_app, length_app. simpl.
  specialize (H1 pdf). lia.
Qed.

(** ** The summary of [prtg-uptime-extractor_down_01.py] *)

Lemma count_row_seconds (row : gmap string string) (acc : Z * nat) :
  exists k : nat,
    (k <= 1)%nat
    /\ Down01.count_row row acc
       = (acc.1 + field_seconds "downtime_segundos" row, (acc.2 + k)%nat).
Proof.
  unfold Down01.count_row, field_seconds. destruct acc as [total n].
  destruct (row !! "downtime_segundos") as [[|c v]|];
    cbn [mbind option_bind default fst snd].
  - exists O. change (Py.int "") with (@None Z). simpl.
    split; [lia|]. f_equal; lia.
  - destruct (Py.int (String c v)); simpl.
    + exists 1%nat. split; [lia|]. f_equal; lia.
    + exists O. split; [lia|]. f_equal; lia.
  - exists O. split; [lia|]. f_equal; lia.
Qed.

Lemma count_rows_seconds (rows : list (gmap string string)) (acc : Z * nat) :
  exists k : nat,
    (k <= length rows)%nat
    /\ fold_left (fun acc row => Down01.count_row row acc) rows acc
       = (acc.1 + column_sum "downtime_segundos" (Some rows), (acc.2 + k)%nat).
Proof.
  unfold column_sum. cbn [default]. unfold id.
  revert acc. induction rows as [|row rows IH]; intros acc.
  - exists O. split; [done|]. destruct acc. simpl. f_equal; lia.
  - destruct (count_row_seconds row acc) as (k1 & Hk1 & E1).
    destruct (IH (Down01.count_row row acc)) as (k2 & Hk2 & E2).
    exists (k1 + k2)%nat. split; [simpl; lia|].
    cbn [fold_left foldr]. rewrite E2, E1. simpl. f_equal; lia.
Qed.

Lemma str_seconds_nonempty (n : Z) :
  0 <= n -> exists c v, Py.str n = String c v.
Proof.
  intros Hn. pose proof (int_str n Hn) as H.
  destruct (Py.str n) as [|c v]; [done|]. by exists c, v.
Qed.

Lemma count_row_csv_record (r : UptimeRecord) (acc : Z * nat) :
  Down01.count_row (csv_record r) acc = (acc.1 + downtime_segundos r, S acc.2).
Proof.
  unfold Down01.count_row. rewrite (proj2 (csv_record_seconds r)).
  pose proof (duration_to_seconds_nonneg (Some (downtime_duracion r))) as Hn.
  destruct (str_seconds_nonempty (downtime_segundos r) Hn) as (c & v & E).
  rewrite E, <-E. by rewrite int_str.
Qed.

Lemma count_rows_csv_records (records : list UptimeRecord) (acc : Z * nat) :
  fold_left (fun acc row => Down01.count_row row acc)
    (csv_record <$> records) acc
  = (acc.1 + foldr (fun r acc => downtime_segundos r + acc) 0 records,
     (acc.2 + length records)%nat).
Proof.
  revert acc. induction records as [|r rs IH]; intros acc.
  - destruct acc. simpl. f_equal; lia.
  - rewrite fmap_cons. cbn [fold_left foldr length].
    rewrite IH, count_row_csv_record. simpl. f_equal; lia.
Qed.

Lemma create_summary_excel_csv_records (records : list UptimeRecord) :
  let total := foldr (fun r acc => downtime_segundos r + acc) 0 records in
  Down01.create_summary_excel (Some (csv_record <$> records))
  = (total, length records, seconds_to_duration_format total).
Proof.
  intros total. unfold Down01.create_summary_excel.
  rewrite count_rows_csv_records. cbn [fst snd].
  fold total. by replace (0 + total) with total by lia.
Qed.

(** X17: the summary of [prtg-uptime-extractor_down_01.py] reads the file of
    the main address: its total is the sum of the downtime column, rows
    whose entry is missing, empty or not an integer counting for nothing,
    its row count is the number of rows that were added and so at most the
    number of rows, and its text is the phrase of the total.  On the file a
    run writes from its records, the total is the sum of their downtimes
    and every row is counted; a missing file gives zero, no row and
    "0 segundos". *)
Theorem down01_summary_reads_back :
  (forall csv : option (list (gmap string string)),
     let '(total, row_count, text) := Down01.create_summary_excel csv in
     total = column_sum "downtime_segundos" csv
     /\ (row_count <= length (default [] csv))%nat
     /\ text = seconds_to_duration_format total)
  /\ (forall records : list UptimeRecord,
        let total := foldr (fun r acc => downtime_segundos r + acc) 0 records in
        Down01.create_summary_excel (Some (csv_record <$> records))
        = (total, length records, seconds_to_duration_format total))
  /\ Down01.create_summary_excel None = (0, O, "0 segundos").
Proof.
  split_and!.
  - intros [rows|]; unfold Down01.create_summary_excel.
    + destruct (count_rows_seconds rows (0, O)) as (k & Hk & ->).
      cbn [fst snd default]. unfold id. split_and!; [lia | lia | done].
    + by split_and!.
  - apply create_summary_excel_csv_records.
  - reflexivity.
Qed.

(** ** The percentage *)

(** X18: when none of the four sums is negative, the statistics are
    computed without an exception and the percentage lies between 0 and
    100: it is the integer 0 when the total is 0 and else a float that is
    not negative and at most 100.  It is +0.0 when the total is positive
    and the downtime of the ASH file is 0. *)
Theorem percentage_bounds (main ash : option (list (gmap string string))) :
  0 <= column_sum "uptime_segundos" main ->
  0 <= column_sum "downtime_segundos" main ->
  0 <= column_sum "uptime_segundos" ash ->
  0 <= column_sum "downtime_segundos" ash ->
  exists st,
    calculate_downtime_statistics main ash = Ok st
    /\ match ash_downtime_percentage st with
       | PyInt n => n = 0 /\ total_time st = 0
       | PyFloat x =>
           0 < total_time st /\ Float.between_zero_and 100 x
           /\ (ash_url_downtime st = 0 -> x = S754_zero false)
       end.
Proof.
  intros Hmu Hmd Hau Had.
  destruct (statistics_cases main ash)
    as (_ & Hzero & _ & Hpos & Hnull).
  set (total := column_sum "uptime_segundos" main
                + column_sum "downtime_segundos" main
                + column_sum "uptime_segundos" ash
                + column_sum "downtime_segundos" ash) in *.
  destruct (Z.ltb_spec 0 total) as [Ht|Ht].
  - destruct (Hpos Ht ltac:(unfold total; lia)) as (x & E & Hx).
    eexists. split; [exact E|]. cbn [ash_downtime_percentage total_time
                                     ash_url_downtime].
    split_and!; [done | done |]. intros H0.
    specialize (Hnull Ht H0). rewrite E in Hnull. by injection Hnull.
  - eexists. split; [exact (Hzero Ht)|]. simpl. split; [done|].
    unfold total in *. lia.
Qed.

Lemma percentage_bounds_witness :
  let main := Some [ ({["uptime_segundos" := "604781"]} : gmap string string) ] in
  let ash := Some [ ({["downtime_segundos" := "600"]} : gmap string string) ] in
  calculate_downtime_statistics main ash
  = Ok {| main_url_uptime := 604781; main_url_downtime := 0;
          ash_url_uptime := 0; ash_url_downtime := 600;
          total_time := 605381;
          ash_downtime_percentage :=
            PyFloat (S754_finite false 7141710166450014 (-56)) |}
  /\ Float.between_zero_and 100 (S754_finite false 7141710166450014 (-56)).
Proof.
  intros main ash.
  destruct (percentage_bounds main ash) as (st & E & H);
    [by vm_compute | by vm_compute | by vm_compute | by vm_compute |].
  assert (E' : calculate_downtime_statistics main ash
               = Ok {| main_url_uptime := 604781; main_url_downtime := 0;
                       ash_url_uptime := 0; ash_url_downtime := 600;
                       total_time := 605381;
                       ash_downtime_percentage :=
                         PyFloat (S754_finite false 7141710166450014 (-56)) |})
    by (by vm_compute).
  split; [exact E'|]. rewrite E' in E. injection E as <-.
  by destruct H as (_ & H & _).
Defined.

(** ** The run of [prtg-uptime-extractor_down_01.py] *)

Lemma downtime_sum_nonneg (records : list UptimeRecord) :
  0 <= foldr (fun r acc => downtime_segundos r + acc) 0 records.
Proof.
  induction records as [|r rs IH]; simpl; [lia|].
  pose proof (duration_to_seconds_nonneg (Some (downtime_duracion r))).
  unfold downtime_segundos at 1. lia.
Qed.

Lemma phrase_of_nonnegative (t : Z) :
  0 <= t -> seconds_to_duration_format t <> "".
Proof.
  intros Ht. destruct (Z.eq_dec t 0) as [->|Hnz]; [done|].
  rewrite seconds_to_duration_format_parts by done.
  apply join_nonempty; [|by repeat apply append_part_nonempty].
  rewrite !append_part_nil. intros ((((_ & ?) & ?) & ?) & ?).
  pose proof (breakdown_sum t). lia.
Qed.

(** X19: a run of [prtg-uptime-extractor_down_01.py] makes its summary
    exactly when it has a record for the main address, and the summary
    then reads back the file the run has just written: the total is the
    sum of the downtimes of the main records of this run, whatever the
    folder held before, every one of these records is counted, there are
    at most as many as the folder has files, and the phrase is never
    empty. *)
Theorem down01_run_summary
    (pdf_files : list (string * list string))
    (files0 : gmap string (list (gmap string string))) :
  let mains := filter (fun r => url r = main_url) (all_results pdf_files) in
  let total := foldr (fun r acc => downtime_segundos r + acc) 0 mains in
  (Down01.process_all_pdfs pdf_files files0).2
  = match mains with
    | [] => None
    | _ => Some (total, length mains, seconds_to_duration_format total)
    end
  /\ (length mains <= length pdf_files)%nat
  /\ 0 <= total
  /\ seconds_to_duration_format total <> "".
Proof.
  intros mains total. split_and!.
  - unfold Down01.process_all_pdfs. subst total mains.
    destruct (all_results pdf_files) as [|r0 rs]; [done|].
    destruct (filter _ (r0 :: rs)) as [|m ms]; [done|].
    cbn [snd]. rewrite lookup_insert_eq.
    by rewrite create_summary_excel_csv_records.
  - clear total. subst mains.
    induction pdf_files as [|pdf rest IH]; [done|].
    rewrite all_results_cons, filter_app, length_app. simpl.
    pose proof (filter_target_length main_url (document_results pdf)
                  (document_results_targets pdf)).
    lia.
  - apply downtime_sum_nonneg.
  - apply phrase_of_nonnegative, downtime_sum_nonneg.
Qed.

(** ** The percentage shown in the summary *)

Lemma percentage_without_ash (main : option (list (gmap string string)))
    (st : statistics) :
  calculate_downtime_statistics main None = Ok st ->
  ash_downtime_percentage st = PyInt 0
  \/ ash_downtime_percentage st = PyFloat (S754_zero false).
Proof.
  intros E.
  destruct (statistics_cases main None) as (_ & Hzero & _ & _ & Hnull).
  change (column_sum "uptime_segundos" None) with 0 in Hzero, Hnull.
  change (column_sum "downtime_segundos" None) with 0 in Hzero, Hnull.
  destruct (Z.ltb_spec 0 (column_sum "uptime_segundos" main
                          + column_sum "downtime_segundos" main + 0 + 0))
    as [Ht|Ht].
  - specialize (Hnull Ht eq_refl). rewrite E in Hnull.
    injection Hnull as ->. by right.
  - specialize (Hzero Ht). rewrite E in Hzero. injection Hzero as ->.
    by left.
Qed.

(** X20: the percentage shown in the summary is computed, like its total,
    before the file of the ASH address is written: it is the percentage of
    the statistics over the main records of this run and the ASH file that
    the folder held before.  In a folder without an earlier ASH file it is
    zero, the integer 0 or the float +0.0, whatever the ASH records of the
    run. *)
Theorem summary_percentage_first_run
    (pdf_files : list (string * list string))
    (files0 : gmap string (list (gmap string string))) (v : number) :
  AshExcel.percentage_shown (AshExcel.process_all_pdfs pdf_files files0)
  = Some v ->
  let mains := filter (fun r => url r = main_url) (all_results pdf_files) in
  mains <> []
  /\ (exists st,
        calculate_downtime_statistics
          (Some (csv_record <$> mains)) (files0 !! ash_csv) = Ok st
        /\ v = ash_downtime_percentage st)
  /\ (files0 !! ash_csv = None ->
      v = PyInt 0 \/ v = PyFloat (S754_zero false)).
Proof.
  intros H mains.
  destruct (proj2 (run_summary pdf_files files0) _ H) as [Hne Hv].
  fold mains in Hne, Hv. unfold AshExcel.summary_percentage in Hv.
  rewrite lookup_insert_eq in Hv.
  rewrite !lookup_insert_ne in Hv by done.
  destruct (calculate_downtime_statistics _ _) as [st|e] eqn:E; [|done].
  injection Hv as <-. split_and!; [done | by exists st |].
  intros Hnone. rewrite Hnone in E. by apply (percentage_without_ash _ _ E).
Qed.

Lemma summary_percentage_first_run_witness :
  let main_page :=
    "Probe, Group, Device: Local Probe > https://buenosaires.gob.ar/"
    +:+ String newline example_statistics in
  let ash_page :=
    "Probe, Group, Device: Local Probe > ash.buenosaires.gob.ar"
    +:+ String newline example_statistics in
  let run := AshExcel.process_all_pdfs [("report.pdf", [main_page; ash_page])] ∅ in
  option_map ash_url_downtime (AshExcel.final_statistics run) = Some 600
  /\ AshExcel.percentage_shown run = Some (PyFloat (S754_zero false)).
Proof.
  intros main_page ash_page run. split; [by vm_compute|].
  destruct (AshExcel.percentage_shown run) as [v|] eqn:E;
    [|vm_compute in E; discriminate].
  destruct (summary_percentage_first_run _ ∅ v E) as (_ & _ & [->| ->]);
    [done | vm_compute in E; discriminate | done].
Defined.
